(** * ChatBotBackend: the pipeline endpoints of [main.py]

    A shallow embedding of the FastAPI handlers of [src/main.py]: the values
    decoded from the three remote services, the process-wide [SharedData]
    context, the [users] table and the handlers [read_root], [get_users],
    [get_user], [upload_atot], [get_user_ttot], [get_atot], [get_ttot],
    [process_audio] and [run_full_pipeline].

    Handlers are written in a small monad that threads the mutable state
    (shared context and table), may raise a Python exception, and records
    the outside effects (remote calls, file writes and truncations, commits)
    in a trace.
    The state reached when an exception is raised is kept, as in Python. *)

From Stdlib Require Import ZArith List String Ascii Bool Lia Sorted Permutation.
From Stdlib Require Import Floats.PrimFloat.
From Stdlib Require Import DecimalString.
From Stdlib.Strings Require Byte.
Import ListNotations.

Local Open Scope string_scope.
Local Open Scope Z_scope.

(** ** Python values *)

Module Py.

#[local] Set Warnings "-register-all".

(** What [response.json()] can produce, and what the JSON columns hold. *)
Inductive pyval : Type :=
| PNone
| PBool (b : bool)
| PInt (z : Z)
| PFloat (f : float)
| PStr (s : string)
| PList (l : list pyval)
| PDict (kvs : list (string * pyval)).

(** [bool(v)]: the test behind [if v:] and [v or w]. *)
Definition truthy (v : pyval) : bool :=
  match v with
  | PNone => false
  | PBool b => b
  | PInt z => negb (z =? 0)
  | PFloat f => negb (PrimFloat.eqb f PrimFloat.zero)
  | PStr s => negb (String.eqb s "")
  | PList l => match l with [] => false | _ :: _ => true end
  | PDict kvs => match kvs with [] => false | _ :: _ => true end
  end.

(** A [str] is held as its UTF-8 bytes; a lone surrogate, which
    [response.json()] accepts in a body, as the three bytes [ED A0..BF xx]
    of its generalized form, a pair of bytes no well-formed text holds.
    [encodable s]: [s] holds no surrogate, so it can be encoded to UTF-8. *)
Fixpoint encodable (s : string) : bool :=
  match s with
  | EmptyString => true
  | String c rest =>
      match rest with
      | String d _ =>
          if Nat.eqb (nat_of_ascii c) 237
             && Nat.leb 160 (nat_of_ascii d) && Nat.leb (nat_of_ascii d) 191
          then false
          else encodable rest
      | EmptyString => true
      end
  end.

(** [print(f"...{v}")] succeeds: the text of [v] can be written to a
    standard output that encodes to UTF-8.  Only a [str] is formatted as it
    is; the text of every other value escapes what it cannot encode. *)
Definition printable (v : pyval) : bool :=
  match v with PStr s => encodable s | _ => true end.

(** [a or b] *)
Definition py_or (a b : pyval) : pyval := if truthy a then a else b.

(** [v is None] *)
Definition is_None (v : pyval) : bool :=
  match v with PNone => true | _ => false end.

(** [type(v).__name__] *)
Definition type_name (v : pyval) : string :=
  match v with
  | PNone => "NoneType"
  | PBool _ => "bool"
  | PInt _ => "int"
  | PFloat _ => "float"
  | PStr _ => "str"
  | PList _ => "list"
  | PDict _ => "dict"
  end.

(** Key lookup in a dict. *)
Fixpoint assoc (k : string) (kvs : list (string * pyval)) : option pyval :=
  match kvs with
  | [] => None
  | (k', v) :: rest => if String.eqb k k' then Some v else assoc k rest
  end.

(** Exceptions the handlers tell apart.  [ConnectError] is a subclass of
    [httpx.RequestError]; [HTTPStatusError] is not. *)
Inductive exn : Type :=
| ConnectError (msg : string)
| RequestError (msg : string)
| HTTPStatusError (status_code : Z) (msg : string)
| HTTPException (status_code : Z) (detail : string)
| PyException (msg : string).

(** [str(n)] for an integer. *)
Definition str_int (z : Z) : string := NilZero.string_of_int (Z.to_int z).

(** [str(e)] *)
Definition str_exn (e : exn) : string :=
  match e with
  | ConnectError m | RequestError m | HTTPStatusError _ m | PyException m => m
  | HTTPException c d => str_int c ++ ": " ++ d
  end.

Definition is_RequestError (e : exn) : bool :=
  match e with ConnectError _ | RequestError _ => true | _ => false end.

End Py.
Import Py.


(** ** State, effects and the handler monad *)

(** [class SharedData]: the process-wide context. *)
Module SharedData.
Record t : Type := mk
  { user_id : pyval; input_wav : pyval; atot_text : pyval; ttot_text : pyval }.
Definition init : t := mk PNone PNone PNone PNone.
Definition set_user_id (v : pyval) (s : t) : t :=
  mk v (input_wav s) (atot_text s) (ttot_text s).
Definition set_input_wav (v : pyval) (s : t) : t :=
  mk (user_id s) v (atot_text s) (ttot_text s).
Definition set_atot_text (v : pyval) (s : t) : t :=
  mk (user_id s) (input_wav s) v (ttot_text s).
Definition set_ttot_text (v : pyval) (s : t) : t :=
  mk (user_id s) (input_wav s) (atot_text s) v.
End SharedData.

(** [class UserDB]: a row of [users].  A JSON column is NULL ([None]) or a
    list; the handlers write nothing else into it. *)
Module UserDB.
Record t : Type := mk
  { id : Z;
    input_wav_list : option (list pyval);
    atot_text_list : option (list pyval);
    ttot_text_list : option (list pyval);
    output_wav_list : option (list pyval) }.
End UserDB.

(** The rows of the table, in the order in which they were inserted.
    Queries do not see that order: a row is found by its id, and a query
    for all rows yields them by rowid ([rowid_scan] below). *)
Definition table : Type := list UserDB.t.

Record world : Type := mkWorld { shared : SharedData.t; db : table }.

(** What a handler does to the outside. *)
Inductive event : Type :=
| HttpGet (url : string)
| HttpPost (url : string) (request_text : pyval)
| FileWrite (name : string) (data : list Byte.byte)
| FileTruncate (name : string)
| DbAdd (row : UserDB.t)
| DbCommit (row : UserDB.t).

(** What the outside answers to one request. *)
Record response (A : Type) : Type := mkResponse
  { status_code : Z; status_msg : string; content : A }.
Arguments mkResponse {A}.
Arguments status_code {A}.
Arguments status_msg {A}.
Arguments content {A}.

Inductive reply (A : Type) : Type :=
| NetFail (e : exn)
| Answer (r : response A).
Arguments NetFail {A}.
Arguments Answer {A}.

(** The body of a reply of a JSON service, as [response.json()] sees it. *)
Inductive json_body : Type :=
| Json (v : pyval)
| NotJson (msg : string).

(** How writing the output file fails: [open(name, 'wb')] raises and
    the file is left as it was, or the file is opened, which empties it,
    and the write (or the close that flushes it) raises. *)
Inductive fs_error : Type :=
| OpenFails (msg : string)
| WriteFails (msg : string).

(** The outside during one handler call: each service is asked at most
    once; [file_system] is [None] when the output file can be written.
    [FileWrite name data] in a trace says that the file holds [data];
    [FileTruncate name] that it was emptied and holds at most a part of
    what was to be written. *)
Record remote : Type := mkRemote
  { atot_server : reply json_body;
    ttot_server : reply json_body;
    tts_server : reply (list Byte.byte);
    file_system : option fs_error }.

(** State [S], exceptions, and a trace.  A raise keeps the state. *)
Definition M (S A : Type) : Type := S -> (exn + A) * S * list event.

Definition ret {S A} (a : A) : M S A := fun s => (inr a, s, []).

Definition bind {S A B} (m : M S A) (k : A -> M S B) : M S B :=
  fun s =>
    match m s with
    | (inl e, s', t) => (inl e, s', t)
    | (inr a, s', t) =>
        match k a s' with (r, s'', t') => (r, s'', (t ++ t')%list) end
    end.

Definition raise {S A} (e : exn) : M S A := fun s => (inl e, s, []).

(** [try: m  except Exception as e: h e] *)
Definition try_except {S A} (m : M S A) (h : exn -> M S A) : M S A :=
  fun s =>
    match m s with
    | (inl e, s', t) =>
        match h e s' with (r, s'', t') => (r, s'', (t ++ t')%list) end
    | (inr a, s', t) => (inr a, s', t)
    end.

Definition get {S} : M S S := fun s => (inr s, s, []).
Definition modify {S} (f : S -> S) : M S unit := fun s => (inr tt, f s, []).
Definition emit {S} (ev : event) : M S unit := fun s => (inr tt, s, [ev]).

Declare Scope handler_scope.
Delimit Scope handler_scope with handler.
Notation "x <- m ;; k" := (bind m (fun x => k))
  (at level 100, m at next level, right associativity) : handler_scope.
Notation "m ;; k" := (bind m (fun _ => k))
  (at level 100, right associativity) : handler_scope.
Local Open Scope handler_scope.

(** A block with local variables [L] of its own that catches what it
    raises, run inside a handler. *)
Definition run_block {S L} (init : L) (m : M L unit) : M S L :=
  fun s =>
    match m init with
    | (inl e, _, t) => (inl e, s, t)
    | (inr _, l, t) => (inr l, s, t)
    end.

(** Whether a handler left by [return] or fell through to the next step. *)
Inductive control (A : Type) : Type :=
| Return (a : A)
| Continue (a : A).
Arguments Return {A}.
Arguments Continue {A}.

(** ** Library calls used by the handlers *)

Definition USER_ID : Z := 10.

Definition ATOT_URL : string := "http://1.20.15.20:8000/run-model".
Definition TTOT_URL : string := "http://20.20.15.20:8000/generate".
Definition TTS_URL : string := "http://20.20.15.1:8000/generate-speech/".

(** [d.get(k, default)]; raises AttributeError when [d] is not a dict. *)
Definition py_get {S} (d : pyval) (k : string) (default : pyval) : M S pyval :=
  match d with
  | PDict kvs =>
      ret (match assoc k kvs with Some v => v | None => default end)
  | _ =>
      raise (PyException
               ("'" ++ type_name d ++ "' object has no attribute 'get'"))
  end.

(** [await client.get(url)] *)
Definition http_get {S A} (url : string) (r : reply A) : M S (response A) :=
  emit (HttpGet url) ;;
  match r with
  | NetFail e => raise e
  | Answer resp => ret resp
  end.

(** [await client.post(url, json={"request_text": text}, ...)] *)
Definition http_post {S A} (url : string) (text : pyval) (r : reply A)
  : M S (response A) :=
  emit (HttpPost url text) ;;
  match r with
  | NetFail e => raise e
  | Answer resp => ret resp
  end.

(** [response.is_success] *)
Definition is_success (code : Z) : bool := (200 <=? code) && (code <=? 299).

(** [response.raise_for_status()] *)
Definition raise_for_status {S A} (resp : response A) : M S unit :=
  if is_success (status_code resp) then ret tt
  else raise (HTTPStatusError (status_code resp) (status_msg resp)).

(** [response.json()] *)
Definition json {S} (resp : response json_body) : M S pyval :=
  match content resp with
  | Json v => ret v
  | NotJson msg => raise (PyException msg)
  end.

(** [with open(name, 'wb') as f: f.write(data)] *)
Definition write_file {S} (fs : option fs_error) (name : string)
  (data : list Byte.byte) : M S unit :=
  match fs with
  | Some (OpenFails msg) => raise (PyException msg)
  | Some (WriteFails msg) => emit (FileTruncate name) ;; raise (PyException msg)
  | None => emit (FileWrite name data)
  end.

(** [print(f"...{v}")] of a value received from a service: raises
    UnicodeEncodeError when the text cannot be encoded.  (CPython's message
    also names the character and its position.)  The other prints of the
    handlers write fixed texts and the messages of exceptions, and are left
    out. *)
Definition print_text {S} (v : pyval) : M S unit :=
  if printable v then ret tt
  else raise (PyException
                "'utf-8' codec can't encode character: surrogates not allowed").

(** [db.query(UserDB).filter(UserDB.id == uid).first()] *)
Definition lookup (uid : Z) (t : table) : option UserDB.t :=
  find (fun u => UserDB.id u =? uid) t.

(** The ids the store can hold and compare: SQLite's 64-bit INTEGER. *)
Definition in_int64 (z : Z) : bool :=
  (- 9223372036854775808 <=? z) && (z <=? 9223372036854775807).

(** Binding a Python int outside that range raises OverflowError before
    the query runs. *)
Definition query_first (uid : Z) : M world (option UserDB.t) :=
  fun w =>
    if in_int64 uid then (inr (lookup uid (db w)), w, [])
    else (inl (PyException "Python int too large to convert to SQLite INTEGER"),
          w, []).

(** A scan of the table yields the rows by rowid, which for the INTEGER
    PRIMARY KEY of [users] is the id: in ascending order of id. *)
Fixpoint insert_row (u : UserDB.t) (rows : list UserDB.t) : list UserDB.t :=
  match rows with
  | [] => [u]
  | r :: rest =>
      if UserDB.id u <=? UserDB.id r then u :: r :: rest
      else r :: insert_row u rest
  end.

Definition rowid_scan (t : list UserDB.t) : list UserDB.t :=
  fold_right insert_row [] t.

(** [db.query(UserDB).all()] *)
Definition query_all : M world (list UserDB.t) :=
  fun w => (inr (rowid_scan (db w)), w, []).

(** The row [u] replaces the stored row of the same id. *)
Definition update (u : UserDB.t) (t : table) : table :=
  map (fun r => if UserDB.id r =? UserDB.id u then u else r) t.

(** [db.add(u); db.commit(); db.refresh(u)] *)
Definition db_add (u : UserDB.t) : M world unit :=
  modify (fun w => mkWorld (shared w) (db w ++ [u])%list) ;;
  emit (DbAdd u).

(** [db.commit(); db.refresh(u)] after the attributes of [u] were assigned. *)
Definition db_commit (u : UserDB.t) : M world unit :=
  modify (fun w => mkWorld (shared w) (update u (db w))) ;;
  emit (DbCommit u).

Definition get_shared : M world SharedData.t :=
  fun w => (inr (shared w), w, []).

Definition set_shared (f : SharedData.t -> SharedData.t) : M world unit :=
  modify (fun w => mkWorld (f (shared w)) (db w)).

(** [col or []] *)
Definition or_empty (col : option (list pyval)) : list pyval :=
  match col with
  | Some (x :: l) => x :: l
  | Some [] => []
  | None => []
  end.

(** [bool(data)] for bytes. *)
Definition bytes_truthy (data : list Byte.byte) : bool :=
  match data with [] => false | _ :: _ => true end.

Definition len {A} (l : list A) : Z := Z.of_nat (List.length l).

(** ** The TTS block and the history append *)

(** The locals [output_filename], [tts_success], [tts_error]. *)
Record tts_locals : Type := mkLocals
  { output_filename : option string;
    tts_success : bool;
    tts_error : option string }.

Definition tts_init : tts_locals := mkLocals None false None.

Definition set_output_filename (v : option string) : M tts_locals unit :=
  modify (fun l => mkLocals v (tts_success l) (tts_error l)).
Definition set_tts_success (v : bool) : M tts_locals unit :=
  modify (fun l => mkLocals (output_filename l) v (tts_error l)).
Definition set_tts_error (v : option string) : M tts_locals unit :=
  modify (fun l => mkLocals (output_filename l) (tts_success l) v).

(** An optional file name as the value stored in a JSON column. *)
Definition name_val (o : option string) : pyval :=
  match o with Some s => PStr s | None => PNone end.

(** [str(o)] inside an f-string. *)
Definition str_name (o : option string) : string :=
  match o with Some s => s | None => "None" end.

(** Lines 219-248 of [process_audio]. *)
Definition process_audio_tts (env : remote) (text : pyval) : M tts_locals unit :=
  try_except
    (tts_response <- http_post TTS_URL text (tts_server env) ;;
     raise_for_status tts_response ;;
     let wav_file_data := content tts_response in
     if bytes_truthy wav_file_data && (len wav_file_data >? 0) then
       set_output_filename (Some "received_audio.wav") ;;
       write_file (file_system env) "received_audio.wav" wav_file_data ;;
       set_tts_success true
     else
       set_tts_error (Some "TTS 서버에서 빈 데이터를 받았습니다."))
    (fun e =>
       match e with
       | ConnectError _ =>
           set_tts_error
             (Some ("TTS 서버 연결 실패 (port 8004가 실행 중인지 확인): "
                    ++ str_exn e))
       | HTTPStatusError code _ =>
           set_tts_error
             (Some ("TTS API 오류 (상태 코드: " ++ str_int code ++ "): "
                    ++ str_exn e))
       | _ => set_tts_error (Some ("TTS 오류: " ++ str_exn e))
       end).

(** Lines 382-413 of [run_full_pipeline]. *)
Definition run_full_pipeline_tts (env : remote) (text : pyval)
  : M tts_locals unit :=
  try_except
    (tts_response <- http_post TTS_URL text (tts_server env) ;;
     raise_for_status tts_response ;;
     let wav_file_data := content tts_response in
     if bytes_truthy wav_file_data && (len wav_file_data >? 0) then
       set_output_filename (Some "received_audio.wav") ;;
       write_file (file_system env) "received_audio.wav" wav_file_data ;;
       set_tts_success true
     else
       set_tts_error (Some "TTS 서버에서 빈 데이터를 받았습니다"))
    (fun e =>
       match e with
       | ConnectError _ =>
           set_tts_error
             (Some ("TTS 서버 연결 실패 (port 8004 확인): " ++ str_exn e))
       | HTTPStatusError code _ =>
           set_tts_error
             (Some ("TTS API 오류 (상태: " ++ str_int code ++ ")"))
       | _ => set_tts_error (Some ("TTS 오류: " ++ str_exn e))
       end).

(** The four assignments of lines 251-263, which lines 416-427 repeat:
    one element is appended to each column of [user]. *)
Definition append_history (sd : SharedData.t) (output_filename : option string)
  (user : UserDB.t) : UserDB.t :=
  let input_wav_list :=
    if truthy (SharedData.input_wav sd)
    then (or_empty (UserDB.input_wav_list user) ++ [SharedData.input_wav sd])%list
    else (or_empty (UserDB.input_wav_list user) ++ [PNone])%list in
  let atot_text_list :=
    (or_empty (UserDB.atot_text_list user)
       ++ [py_or (SharedData.atot_text sd) (PStr "")])%list in
  let ttot_text_list :=
    (or_empty (UserDB.ttot_text_list user)
       ++ [py_or (SharedData.ttot_text sd) (PStr "")])%list in
  let output_wav_list :=
    if truthy (name_val output_filename)
    then (or_empty (UserDB.output_wav_list user) ++ [name_val output_filename])%list
    else (or_empty (UserDB.output_wav_list user) ++ [PNone])%list in
  UserDB.mk (UserDB.id user) (Some input_wav_list) (Some atot_text_list)
    (Some ttot_text_list) (Some output_wav_list).

(** ** The read endpoints *)

(** The dict under ["user"] in the answer of [read_root]. *)
Record user_view : Type := mkView
  { view_id : Z;
    view_input_wav_list : list pyval;
    view_atot_text_list : list pyval;
    view_ttot_text_list : list pyval;
    view_output_wav_list : list pyval }.

Record root_response : Type := mkRoot { message : string; user : user_view }.

(** [GET /].  Database errors are not modelled, so the [except] branch
    (rollback, status 500) is never taken. *)
Definition read_root : M world root_response :=
  found <- query_first USER_ID ;;
  db_user <-
    match found with
    | None =>
        let fresh := UserDB.mk USER_ID (Some []) (Some []) (Some []) (Some []) in
        db_add fresh ;; ret fresh
    | Some u => ret u
    end ;;
  ret (mkRoot "This is the Backend Server"
         (mkView USER_ID
            (or_empty (UserDB.input_wav_list db_user))
            (or_empty (UserDB.atot_text_list db_user))
            (or_empty (UserDB.ttot_text_list db_user))
            (or_empty (UserDB.output_wav_list db_user)))).

(** The loop body of [get_users]. *)
Definition normalize (u : UserDB.t) : UserDB.t :=
  UserDB.mk (UserDB.id u)
    (Some (or_empty (UserDB.input_wav_list u)))
    (Some (or_empty (UserDB.atot_text_list u)))
    (Some (or_empty (UserDB.ttot_text_list u)))
    (Some (or_empty (UserDB.output_wav_list u))).

(** [GET /users].  The rows are changed in the session only: nothing is
    committed. *)
Definition get_users : M world (list UserDB.t) :=
  users <- query_all ;;
  ret (map normalize users).

(** [GET /users/{user_id}] *)
Definition get_user (user_id : Z) : M world UserDB.t :=
  found <- query_first user_id ;;
  match found with
  | None => raise (HTTPException 404 "User not found")
  | Some u => ret u
  end.

(** ** The stage endpoints *)

Inductive stage_response : Type :=
| ErrorDict (error : string)
| AtotDict (user_id input_wav atot_text : pyval)
| TtotDict (user_id ttot_text : pyval).

(** [GET /atot] *)
Definition get_atot (env : remote) : M world stage_response :=
  try_except
    (response <- http_get ATOT_URL (atot_server env) ;;
     raise_for_status response ;;
     data <- json response ;;
     uid <- py_get data "user_id" PNone ;;
     set_shared (SharedData.set_user_id uid) ;;
     r <- py_get data "result" (PDict []) ;;
     d <- py_get r "details" (PDict []) ;;
     received_text <- py_get d "received_text" PNone ;;
     set_shared (SharedData.set_atot_text received_text) ;;
     r <- py_get data "result" (PDict []) ;;
     d <- py_get r "details" (PDict []) ;;
     audio_url <- py_get d "audio_url" PNone ;;
     set_shared (SharedData.set_input_wav audio_url) ;;
     sd <- get_shared ;;
     ret (AtotDict (SharedData.user_id sd) (SharedData.input_wav sd)
            (SharedData.atot_text sd)))
    (fun e =>
       if is_RequestError e
       then ret (ErrorDict ("atot 서버에 연결할 수 없습니다: " ++ str_exn e))
       else ret (ErrorDict ("알 수 없는 오류: " ++ str_exn e))).

(** [GET /ttot] *)
Definition get_ttot (env : remote) : M world stage_response :=
  try_except
    (response <- http_get TTOT_URL (ttot_server env) ;;
     raise_for_status response ;;
     data <- json response ;;
     text <- py_get data "response" PNone ;;
     set_shared (SharedData.set_ttot_text text) ;;
     uid <- py_get data "user_id" PNone ;;
     sd <- get_shared ;;
     ret (TtotDict uid (SharedData.ttot_text sd)))
    (fun e =>
       if is_RequestError e
       then ret (ErrorDict ("ttot 서버에 연결할 수 없습니다: " ++ str_exn e))
       else ret (ErrorDict ("알 수 없는 오류: " ++ str_exn e))).

(** ** [POST /process-audio] *)

Inductive audio_response : Type :=
| AudioError (error : string)
| AudioDone (user_id : Z) (input_wav atot_text ttot_text : pyval)
    (output_wav : option string) (output_wav_list : option (list pyval))
    (tts_success : bool) (message : string) (tts_error : option string).

Definition process_audio (env : remote) : M world audio_response :=
  sd <- get_shared ;;
  if is_None (SharedData.ttot_text sd) then
    ret (AudioError "ttot_text가 없습니다. 먼저 /ttot을 호출하세요")
  else
    found <- query_first USER_ID ;;
    match found with
    | None =>
        ret (AudioError ("User " ++ str_int USER_ID ++ "를 찾을 수 없습니다."))
    | Some user =>
        l <- run_block tts_init (process_audio_tts env (SharedData.ttot_text sd)) ;;
        sd <- get_shared ;;
        let user := append_history sd (output_filename l) user in
        db_commit user ;;
        sd <- get_shared ;;
        if tts_success l then
          ret (AudioDone (UserDB.id user) (SharedData.input_wav sd)
                 (SharedData.atot_text sd) (SharedData.ttot_text sd)
                 (output_filename l) (UserDB.output_wav_list user) true
                 ("✅ 성공! TTS 오디오를 '" ++ str_name (output_filename l)
                    ++ "'로 저장했습니다.")
                 None)
        else
          ret (AudioDone (UserDB.id user) (SharedData.input_wav sd)
                 (SharedData.atot_text sd) (SharedData.ttot_text sd)
                 (output_filename l) (UserDB.output_wav_list user) false
                 "⚠️ 데이터는 저장했지만 TTS 생성 실패"
                 (tts_error l))
    end.

(** ** [POST /run-full-pipeline] *)

Module Result.

Inductive step1 : Type :=
| Atot (user_id input_wav atot_text : pyval)
| AtotFailed (error : string).

Inductive step2 : Type :=
| Ttot (user_id ttot_text : pyval)
| TtotFailed (error : string).

Inductive step3 : Type :=
| Tts (success : bool) (output_wav : option string) (tts_error : option string)
| TtsFailed (error : string).

Record final : Type := mkFinal
  { input_wav : pyval; atot_text : pyval; ttot_text : pyval;
    output_wav : option string }.

(** The dict [result]; [user_id] and [final_data] are keys added at the
    end of a run that persisted. *)
Record t : Type := mk
  { step1_atot : option step1;
    step2_ttot : option step2;
    step3_tts : option step3;
    success : bool;
    errors : list string;
    user_id : option Z;
    final_data : option final }.

Definition init : t := mk None None None false [] None None.

Definition set_step1 (v : step1) (r : t) : t :=
  mk (Some v) (step2_ttot r) (step3_tts r) (success r) (errors r) (user_id r)
    (final_data r).
Definition set_step2 (v : step2) (r : t) : t :=
  mk (step1_atot r) (Some v) (step3_tts r) (success r) (errors r) (user_id r)
    (final_data r).
Definition set_step3 (v : step3) (r : t) : t :=
  mk (step1_atot r) (step2_ttot r) (Some v) (success r) (errors r) (user_id r)
    (final_data r).
Definition append_error (msg : string) (r : t) : t :=
  mk (step1_atot r) (step2_ttot r) (step3_tts r) (success r)
    (errors r ++ [msg])%list (user_id r) (final_data r).
Definition finish (uid : Z) (f : final) (r : t) : t :=
  mk (step1_atot r) (step2_ttot r) (step3_tts r) true (errors r) (Some uid)
    (Some f).

End Result.

(** STEP 1 (lines 309-333): the ATOT call. *)
Definition pipeline_step1 (env : remote) (result : Result.t)
  : M world (control Result.t) :=
  try_except
    (atot_response <- http_get ATOT_URL (atot_server env) ;;
     raise_for_status atot_response ;;
     atot_data <- json atot_response ;;
     r <- py_get atot_data "result" (PDict []) ;;
     d <- py_get r "details" (PDict []) ;;
     received_text <- py_get d "received_text" PNone ;;
     set_shared (SharedData.set_atot_text received_text) ;;
     r <- py_get atot_data "result" (PDict []) ;;
     d <- py_get r "details" (PDict []) ;;
     audio_url <- py_get d "audio_url" PNone ;;
     set_shared (SharedData.set_input_wav audio_url) ;;
     uid <- py_get atot_data "user_id" PNone ;;
     sd <- get_shared ;;
     print_text (SharedData.atot_text sd) ;;
     ret (Continue
            (Result.set_step1
               (Result.Atot uid (SharedData.input_wav sd)
                  (SharedData.atot_text sd)) result)))
    (fun e =>
       let error_msg := "ATOT 실패: " ++ str_exn e in
       ret (Return
              (Result.set_step1 (Result.AtotFailed error_msg)
                 (Result.append_error error_msg result)))).

(** STEP 2 (lines 335-357): the TTOT call. *)
Definition pipeline_step2 (env : remote) (result : Result.t)
  : M world (control Result.t) :=
  try_except
    (ttot_response <- http_get TTOT_URL (ttot_server env) ;;
     raise_for_status ttot_response ;;
     ttot_data <- json ttot_response ;;
     text <- py_get ttot_data "response" PNone ;;
     set_shared (SharedData.set_ttot_text text) ;;
     uid <- py_get ttot_data "user_id" PNone ;;
     sd <- get_shared ;;
     print_text (SharedData.ttot_text sd) ;;
     ret (Continue
            (Result.set_step2
               (Result.Ttot uid (SharedData.ttot_text sd)) result)))
    (fun e =>
       let error_msg := "TTOT 실패: " ++ str_exn e in
       ret (Return
              (Result.set_step2 (Result.TtotFailed error_msg)
                 (Result.append_error error_msg result)))).

(** STEP 3 (lines 359-451): the two guards, the TTS call, the append. *)
Definition pipeline_step3 (env : remote) (result : Result.t) : M world Result.t :=
  sd <- get_shared ;;
  if is_None (SharedData.ttot_text sd) then
    let error_msg := "ttot_text가 비어있습니다" in
    ret (Result.set_step3 (Result.TtsFailed error_msg)
           (Result.append_error error_msg result))
  else
    found <- query_first USER_ID ;;
    match found with
    | None =>
        let error_msg := "User " ++ str_int USER_ID ++ "를 찾을 수 없습니다" in
        ret (Result.append_error error_msg result)
    | Some user =>
        l <- run_block tts_init
               (run_full_pipeline_tts env (SharedData.ttot_text sd)) ;;
        sd <- get_shared ;;
        let user := append_history sd (output_filename l) user in
        db_commit user ;;
        sd <- get_shared ;;
        ret (Result.finish USER_ID
               (Result.mkFinal (SharedData.input_wav sd)
                  (SharedData.atot_text sd) (SharedData.ttot_text sd)
                  (output_filename l))
               (Result.set_step3
                  (Result.Tts (tts_success l) (output_filename l) (tts_error l))
                  result))
    end.

(** The handler: the three steps in sequence; a failed step 1 or step 2
    returns at once. *)
Definition run_full_pipeline (env : remote) : M world Result.t :=
  c1 <- pipeline_step1 env Result.init ;;
  match c1 with
  | Return result => ret result
  | Continue result =>
      c2 <- pipeline_step2 env result ;;
      match c2 with
      | Return result => ret result
      | Continue result => pipeline_step3 env result
      end
  end.

(** ** Observations on a run *)

Definition outcome {S A} (r : (exn + A) * S * list event) : exn + A := fst (fst r).
Definition final_state {S A} (r : (exn + A) * S * list event) : S := snd (fst r).
Definition trace {S A} (r : (exn + A) * S * list event) : list event := snd r.

(** The Synthesize call. *)
Definition is_tts_call (ev : event) : bool :=
  match ev with HttpPost url _ => String.eqb url TTS_URL | _ => false end.

(** The persistence step. *)
Definition is_commit (ev : event) : bool :=
  match ev with DbCommit _ => true | _ => false end.

Definition count (p : event -> bool) (t : list event) : nat :=
  List.length (filter p t).

(** The four columns read with NULL as the empty list. *)
Definition lengths (u : UserDB.t) : nat * nat * nat * nat :=
  (List.length (or_empty (UserDB.input_wav_list u)),
   List.length (or_empty (UserDB.atot_text_list u)),
   List.length (or_empty (UserDB.ttot_text_list u)),
   List.length (or_empty (UserDB.output_wav_list u))).

(** ** Sample inputs *)

Module Sample.

Definition ok_json (v : pyval) : reply json_body :=
  Answer (mkResponse 200 "OK" (Json v)).

Definition atot_hello : pyval :=
  PDict [("user_id", PInt 7);
         ("result", PDict [("details",
            PDict [("received_text", PStr "hello"); ("audio_url", PStr "a.wav")])])].

Definition ttot_hi : pyval :=
  PDict [("user_id", PInt 7); ("response", PStr "hi there")].

Definition audio : list Byte.byte := [Byte.x52; Byte.x49; Byte.x46; Byte.x46].

Definition empty_user (uid : Z) : UserDB.t :=
  UserDB.mk uid (Some []) (Some []) (Some []) (Some []).

Definition w0 : world := mkWorld SharedData.init [empty_user USER_ID].

(** Scenario A of the specification. *)
Definition env_ok : remote :=
  mkRemote (ok_json atot_hello) (ok_json ttot_hi)
    (Answer (mkResponse 200 "OK" audio)) None.

(** Scenario C: the TTS service answers with an empty body. *)
Definition env_empty_audio : remote :=
  mkRemote (ok_json atot_hello) (ok_json ttot_hi)
    (Answer (mkResponse 200 "OK" [])) None.

(** Scenario B: the Recognize call times out. *)
Definition env_timeout : remote :=
  mkRemote (NetFail (RequestError "timed out")) (ok_json ttot_hi)
    (Answer (mkResponse 200 "OK" audio)) None.

End Sample.

(** ** Statements

    Predicates and sample inputs used to state the properties. *)

(** A call that raised a transport error or answered outside 2xx. *)
Definition failure_of {A} (r : reply A) : option exn :=
  match r with
  | NetFail e => Some e
  | Answer resp =>
      if is_success (status_code resp) then None
      else Some (HTTPStatusError (status_code resp) (status_msg resp))
  end.

Definition call_failed {A} (r : reply A) : bool :=
  match failure_of r with Some _ => true | None => false end.

(** The Synthesize call failed at the service: transport error, status
    outside 2xx, or an empty body. *)
Definition tts_failed (r : reply (list Byte.byte)) : bool :=
  match r with
  | NetFail _ => true
  | Answer resp =>
      negb (is_success (status_code resp)) || negb (bytes_truthy (content resp))
  end.

Definition is_file_write (ev : event) : bool :=
  match ev with FileWrite _ _ | FileTruncate _ => true | _ => false end.

(** What the TTS block leaves in its locals [l] and, after the post, in
    the trace. *)
Definition tts_facts (env : remote) (l : tts_locals) (files : list event) : Prop :=
  forallb is_file_write files = true
  /\ (tts_failed (tts_server env) = true ->
      output_filename l = None /\ tts_success l = false
      /\ exists msg, tts_error l = Some msg)
  /\ (tts_failed (tts_server env) = false ->
      output_filename l = Some "received_audio.wav"
      /\ (tts_success l = true <-> file_system env = None))
  /\ (tts_success l = true -> output_filename l = Some "received_audio.wav").

Definition no_text_msg : string := "ttot_text가 비어있습니다".
Definition no_user_msg : string :=
  "User " ++ str_int USER_ID ++ "를 찾을 수 없습니다".

(** The result after a successful step 1, and after a successful step 2. *)
Definition after_step1 (uid : pyval) (sd : SharedData.t) : Result.t :=
  Result.set_step1
    (Result.Atot uid (SharedData.input_wav sd) (SharedData.atot_text sd))
    Result.init.

Definition after_step2 (uid1 uid2 : pyval) (sd : SharedData.t) : Result.t :=
  Result.set_step2 (Result.Ttot uid2 (SharedData.ttot_text sd))
    (after_step1 uid1 sd).

(** Every run of the handler has one of five shapes. *)
Inductive run_shape (env : remote) (w : world)
  : (exn + Result.t) * world * list event -> Prop :=
| AtotAborted sd1 msg :
    (forall e, failure_of (atot_server env) = Some e -> msg = str_exn e) ->
    run_shape env w
      (inr (Result.set_step1 (Result.AtotFailed ("ATOT 실패: " ++ msg))
              (Result.append_error ("ATOT 실패: " ++ msg) Result.init)),
       mkWorld sd1 (db w), [HttpGet ATOT_URL])
| TtotAborted sd1 uid1 msg :
    call_failed (atot_server env) = false ->
    (forall e, failure_of (ttot_server env) = Some e -> msg = str_exn e) ->
    run_shape env w
      (inr (Result.set_step2 (Result.TtotFailed ("TTOT 실패: " ++ msg))
              (Result.append_error ("TTOT 실패: " ++ msg) (after_step1 uid1 sd1))),
       mkWorld sd1 (db w), [HttpGet ATOT_URL; HttpGet TTOT_URL])
| NoText sd2 uid1 uid2 :
    call_failed (atot_server env) = false ->
    call_failed (ttot_server env) = false ->
    is_None (SharedData.ttot_text sd2) = true ->
    run_shape env w
      (inr (Result.set_step3 (Result.TtsFailed no_text_msg)
              (Result.append_error no_text_msg (after_step2 uid1 uid2 sd2))),
       mkWorld sd2 (db w), [HttpGet ATOT_URL; HttpGet TTOT_URL])
| NoUser sd2 uid1 uid2 :
    call_failed (atot_server env) = false ->
    call_failed (ttot_server env) = false ->
    is_None (SharedData.ttot_text sd2) = false ->
    lookup USER_ID (db w) = None ->
    run_shape env w
      (inr (Result.append_error no_user_msg (after_step2 uid1 uid2 sd2)),
       mkWorld sd2 (db w), [HttpGet ATOT_URL; HttpGet TTOT_URL])
| Persisted sd2 uid1 uid2 u l files :
    call_failed (atot_server env) = false ->
    call_failed (ttot_server env) = false ->
    is_None (SharedData.ttot_text sd2) = false ->
    lookup USER_ID (db w) = Some u ->
    tts_facts env l files ->
    run_shape env w
      (inr (Result.finish USER_ID
              (Result.mkFinal (SharedData.input_wav sd2)
                 (SharedData.atot_text sd2) (SharedData.ttot_text sd2)
                 (output_filename l))
              (Result.set_step3
                 (Result.Tts (tts_success l) (output_filename l) (tts_error l))
                 (after_step2 uid1 uid2 sd2))),
       mkWorld sd2 (update (append_history sd2 (output_filename l) u) (db w)),
       [HttpGet ATOT_URL; HttpGet TTOT_URL;
        HttpPost TTS_URL (SharedData.ttot_text sd2)]
         ++ files
         ++ [DbCommit (append_history sd2 (output_filename l) u)])%list.

(** The run reached the persistence step: it committed. *)
Definition reaches_persist {A} (r : (exn + A) * world * list event) : Prop :=
  existsb is_commit (trace r) = true.

(** [u'] is [u] with one element appended to each sequence. *)
Definition gained_entry (u u' : UserDB.t) (i a t o : pyval) : Prop :=
  UserDB.id u' = UserDB.id u
  /\ UserDB.input_wav_list u' = Some (or_empty (UserDB.input_wav_list u) ++ [i])%list
  /\ UserDB.atot_text_list u' = Some (or_empty (UserDB.atot_text_list u) ++ [a])%list
  /\ UserDB.ttot_text_list u' = Some (or_empty (UserDB.ttot_text_list u) ++ [t])%list
  /\ UserDB.output_wav_list u' = Some (or_empty (UserDB.output_wav_list u) ++ [o])%list.

(** A stored text that is a non-empty string. *)
Definition nonempty_text (v : pyval) : bool :=
  match v with PStr s => negb (String.eqb s "") | _ => false end.

(** The claim C3 as the specification words it: after a failed
    Synthesize the new entry holds non-empty texts. *)
Definition synthesize_failure_as_stated (env : remote) (w : world) : Prop :=
  forall res,
    outcome (run_full_pipeline env w) = inr res ->
    (exists a b c, Result.step1_atot res = Some (Result.Atot a b c)) ->
    (exists a b, Result.step2_ttot res = Some (Result.Ttot a b)) ->
    count is_tts_call (trace (run_full_pipeline env w)) <> 0%nat ->
    tts_failed (tts_server env) = true ->
    Result.success res = true
    /\ (exists err, Result.step3_tts res = Some (Result.Tts false None err))
    /\ exists u u' i a t,
         lookup USER_ID (db w) = Some u
         /\ lookup USER_ID (db (final_state (run_full_pipeline env w))) = Some u'
         /\ gained_entry u u' i a t PNone
         /\ nonempty_text a = true /\ nonempty_text t = true.

Module Sample3.
(** Recognize answers 200 without the nested fields; Synthesize sends an
    empty body. *)
Definition env : remote :=
  mkRemote (Sample.ok_json (PDict [("user_id", PInt 7)]))
    (Sample.ok_json Sample.ttot_hi)
    (Answer (mkResponse 200 "OK" [])) None.
End Sample3.

(** The claim C4 as the specification words it: a successful Generate
    stage is always followed by one Synthesize call and one commit. *)
Definition generate_success_as_stated (env : remote) (w : world) : Prop :=
  forall res,
    outcome (run_full_pipeline env w) = inr res ->
    (exists uid text, Result.step2_ttot res = Some (Result.Ttot uid text)) ->
    count is_tts_call (trace (run_full_pipeline env w)) = 1%nat
    /\ count is_commit (trace (run_full_pipeline env w)) = 1%nat.

Module Sample4.
(** Generate answers 200 with a body that has no ["response"]. *)
Definition env : remote :=
  mkRemote (Sample.ok_json Sample.atot_hello)
    (Sample.ok_json (PDict [("user_id", PInt 7)]))
    (Answer (mkResponse 200 "OK" Sample.audio)) None.
End Sample4.

(** The claim C5 as the specification words it: reading the history of
    an unknown user returns an empty history and creates it. *)
Definition get_history_as_stated (uid : Z) (w : world) : Prop :=
  lookup uid (db w) = None ->
  exists u,
    outcome (get_user uid w) = inr u
    /\ lengths u = (0, 0, 0, 0)%nat
    /\ lookup uid (db (final_state (get_user uid w))) = Some u.

Module Sample5.
Definition empty_world : world := mkWorld SharedData.init [].
End Sample5.

(** The ids of a list of histories are in ascending order. *)
Definition ascending (us : list UserDB.t) : Prop :=
  Sorted.StronglySorted Z.lt (map UserDB.id us).

Module Sample8.
(** Two users, the row of id 11 inserted first. *)
Definition w : world :=
  mkWorld SharedData.init
    [UserDB.mk 11 None (Some [PStr "x"]) None None; Sample.empty_user 10].
End Sample8.

(** The body holds a value under [result.details]. *)
Definition has_details (body : pyval) : bool :=
  match body with
  | PDict kvs =>
      match assoc "result" kvs with
      | Some (PDict kvs') =>
          match assoc "details" kvs' with Some _ => true | None => false end
      | _ => false
      end
  | _ => false
  end.

(** The body is an object in which the key ["result"] is absent, or holds
    an object in which the key ["details"] is absent. *)
Definition keys_absent (body : pyval) : bool :=
  match body with
  | PDict kvs =>
      match assoc "result" kvs with
      | None => true
      | Some (PDict kvs') =>
          match assoc "details" kvs' with Some _ => false | None => true end
      | Some _ => false
      end
  | _ => false
  end.

(** The claim C6 as the specification words it: every 2xx body without
    the nested path is a success with both fields null. *)
Definition lenient_recognize_as_stated (body : pyval) : Prop :=
  has_details body = false ->
  forall env w code msg,
    atot_server env = Answer (mkResponse code msg (Json body)) ->
    is_success code = true ->
    (exists uid, outcome (get_atot env w) = inr (AtotDict uid PNone PNone))
    /\ (exists res uid,
          outcome (run_full_pipeline env w) = inr res
          /\ Result.step1_atot res = Some (Result.Atot uid PNone PNone)).

Module Sample6.
(** The body [{"result": null}]. *)
Definition body : pyval := PDict [("result", PNone)].
Definition env : remote :=
  mkRemote (Sample.ok_json body) (Sample.ok_json Sample.ttot_hi)
    (Answer (mkResponse 200 "OK" Sample.audio)) None.
(** The body [{"user_id": 7, "result": {}}]. *)
Definition env_no_details : remote :=
  mkRemote (Sample.ok_json (PDict [("user_id", PInt 7); ("result", PDict [])]))
    (Sample.ok_json Sample.ttot_hi)
    (Answer (mkResponse 200 "OK" Sample.audio)) None.
End Sample6.

(** The claim C7 as the specification words it: the input reference is
    stored as it is (null being the absent marker), the texts with null
    replaced by the empty string, the output reference as the artifact name
    when Synthesize succeeded and as null otherwise. *)
Definition persisted_record_as_stated (env : remote) (w : world) : Prop :=
  reaches_persist (run_full_pipeline env w) ->
  exists u u' res f,
    lookup USER_ID (db w) = Some u
    /\ lookup USER_ID (db (final_state (run_full_pipeline env w))) = Some u'
    /\ outcome (run_full_pipeline env w) = inr res
    /\ Result.final_data res = Some f
    /\ gained_entry u u'
         (Result.input_wav f)
         (if is_None (Result.atot_text f) then PStr "" else Result.atot_text f)
         (if is_None (Result.ttot_text f) then PStr "" else Result.ttot_text f)
         (match Result.step3_tts res with
          | Some (Result.Tts true name _) => name_val name
          | _ => PNone
          end).

Module Sample7.
(** Recognize reports the empty string as [audio_url]. *)
Definition env : remote :=
  mkRemote
    (Sample.ok_json
       (PDict [("user_id", PInt 7);
               ("result", PDict [("details",
                  PDict [("received_text", PStr "hello");
                         ("audio_url", PStr "")])])]))
    (Sample.ok_json Sample.ttot_hi)
    (Answer (mkResponse 200 "OK" Sample.audio)) None.
End Sample7.

(** The record appended from the context values [i], [a], [t] by a run
    whose Synthesize flag is [ok]. *)
Definition record_appended (i a t : pyval) (env : remote) (ok : bool)
  (u u' : UserDB.t) : Prop :=
  exists o,
    gained_entry u u'
      (if truthy i then i else PNone)
      (if truthy a then a else PStr "")
      (if truthy t then t else PStr "")
      o
    /\ (ok = true -> o = PStr "received_audio.wav")
    /\ (tts_failed (tts_server env) = true -> ok = false /\ o = PNone).

(** The reply [r] with the field ["user_id"] of its JSON object set to [v]. *)
Definition with_user_id (v : pyval) (r : reply json_body) : reply json_body :=
  match r with
  | NetFail e => NetFail e
  | Answer resp =>
      match content resp with
      | Json (PDict kvs) =>
          Answer (mkResponse (status_code resp) (status_msg resp)
                    (Json (PDict (("user_id", v) :: kvs))))
      | _ => Answer resp
      end
  end.

(** The outside with the Recognize and Generate services reporting the
    user ids [a] and [t]. *)
Definition report_user_ids (a t : pyval) (env : remote) : remote :=
  mkRemote (with_user_id a (atot_server env)) (with_user_id t (ttot_server env))
    (tts_server env) (file_system env).

(** State and trace of a run, without its answer. *)
Definition effects {S A} (r : (exn + A) * S * list event) : S * list event :=
  (final_state r, trace r).

(** Two step outcomes that return, or continue, together. *)
Definition same_control {A} (x y : exn + control A) : Prop :=
  match x, y with
  | inr (Return _), inr (Return _) => True
  | inr (Continue _), inr (Continue _) => True
  | _, _ => False
  end.

(** Step 3 does to the state and the outside what this function says:
    nothing of it depends on the result so far. *)
Definition step3_effects (env : remote) (w : world) : world * list event :=
  if is_None (SharedData.ttot_text (shared w)) then (w, [])
  else
    match lookup USER_ID (db w) with
    | None => (w, [])
    | Some u =>
        match run_full_pipeline_tts env (SharedData.ttot_text (shared w)) tts_init
        with
        | (_, l, t) =>
            let u' := append_history (shared w) (output_filename l) u in
            (mkWorld (shared w) (update u' (db w)), (t ++ [DbCommit u'])%list)
        end
    end.

Definition process_audio_effects (env : remote) (w : world) : world * list event :=
  if is_None (SharedData.ttot_text (shared w)) then (w, [])
  else
    match lookup USER_ID (db w) with
    | None => (w, [])
    | Some u =>
        match process_audio_tts env (SharedData.ttot_text (shared w)) tts_init
        with
        | (_, l, t) =>
            let u' := append_history (shared w) (output_filename l) u in
            (mkWorld (shared w) (update u' (db w)), (t ++ [DbCommit u'])%list)
        end
    end.

(** What an entry point does to the table: nothing, or one commit of the
    row of [USER_ID] with one more entry. *)
Definition touches_only_fixed_user (w : world) (r : world * list event) : Prop :=
  (db (fst r) = db w /\ forall u, ~ In (DbCommit u) (snd r))
  \/ (exists u u',
        lookup USER_ID (db w) = Some u
        /\ UserDB.id u' = USER_ID
        /\ db (fst r) = update u' (db w)
        /\ forall v, In (DbCommit v) (snd r) -> v = u').

(** The user id a JSON service reports: [data.get("user_id")]. *)
Definition reported_user_id (r : reply json_body) : pyval :=
  match r with
  | Answer resp =>
      match content resp with
      | Json (PDict kvs) =>
          match assoc "user_id" kvs with Some v => v | None => PNone end
      | _ => PNone
      end
  | NetFail _ => PNone
  end.

(** ** The remaining endpoints and the application

    The two column endpoints, and the application as the handlers served
    one request after another on the shared state. *)

Inductive column_response : Type :=
| AtotTextDict (user_id : Z) (atot_text : option (list pyval))
| TtotTextDict (user_id : Z) (ttot_text : option (list pyval)).

(** [GET /users/{user_id}/atot] *)
Definition upload_atot (user_id : Z) : M world column_response :=
  found <- query_first user_id ;;
  match found with
  | None => raise (HTTPException 404 "User not found")
  | Some user => ret (AtotTextDict (UserDB.id user) (UserDB.atot_text_list user))
  end.

(** [GET /users/{user_id}/ttot] *)
Definition get_user_ttot (user_id : Z) : M world column_response :=
  found <- query_first user_id ;;
  match found with
  | None => raise (HTTPException 404 "User not found")
  | Some user => ret (TtotTextDict (UserDB.id user) (UserDB.ttot_text_list user))
  end.

(** The routes of [app]. *)
Inductive request : Type :=
| GET_root
| GET_users
| GET_user (user_id : Z)
| GET_user_atot (user_id : Z)
| GET_user_ttot (user_id : Z)
| GET_atot
| GET_ttot
| POST_process_audio
| POST_run_full_pipeline.

(** One request, served while the outside is [env]: the state it leaves
    and what it did. *)
Definition serve (rq : request) (env : remote) (w : world) : world * list event :=
  match rq with
  | GET_root => effects (read_root w)
  | GET_users => effects (get_users w)
  | GET_user uid => effects (get_user uid w)
  | GET_user_atot uid => effects (upload_atot uid w)
  | GET_user_ttot uid => effects (get_user_ttot uid w)
  | GET_atot => effects (get_atot env w)
  | GET_ttot => effects (get_ttot env w)
  | POST_process_audio => effects (process_audio env w)
  | POST_run_full_pipeline => effects (run_full_pipeline env w)
  end.

(** Requests served one after another. *)
Fixpoint serve_all (rqs : list (request * remote)) (w : world)
  : world * list event :=
  match rqs with
  | [] => (w, [])
  | (rq, env) :: rest =>
      let (w1, t1) := serve rq env w in
      let (w2, t2) := serve_all rest w1 in
      (w2, (t1 ++ t2)%list)
  end.

(** The call order of the closing comment of [main.py], method 1. *)
Definition piecewise (env : remote) : list (request * remote) :=
  [(GET_atot, env); (GET_ttot, env); (POST_process_audio, env)].

(** The row that [read_root] creates. *)
Definition fresh_user : UserDB.t :=
  UserDB.mk USER_ID (Some []) (Some []) (Some []) (Some []).

(** The four sequences of a row have one length. *)
Definition balanced_row (u : UserDB.t) : Prop :=
  exists n, lengths u = (n, n, n, n).

Definition balanced (t : table) : Prop := Forall balanced_row t.

(** The sequences of [u'] start with those of [u] (NULL read as empty). *)
Definition extends (u u' : UserDB.t) : Prop :=
  UserDB.id u' = UserDB.id u
  /\ (exists x, or_empty (UserDB.input_wav_list u')
                = (or_empty (UserDB.input_wav_list u) ++ x)%list)
  /\ (exists x, or_empty (UserDB.atot_text_list u')
                = (or_empty (UserDB.atot_text_list u) ++ x)%list)
  /\ (exists x, or_empty (UserDB.ttot_text_list u')
                = (or_empty (UserDB.ttot_text_list u) ++ x)%list)
  /\ (exists x, or_empty (UserDB.output_wav_list u')
                = (or_empty (UserDB.output_wav_list u) ++ x)%list).

(** The lengths of the sequences of user [uid]; all 0 without a row. *)
Definition lengths_of (uid : Z) (t : table) : nat * nat * nat * nat :=
  match lookup uid t with
  | Some u => lengths u
  | None => (0, 0, 0, 0)%nat
  end.

(** What one request does to the table: nothing, the creation of the row
    of the fixed user, or one entry more for the fixed user. *)
Inductive table_step (w : world) : world * list event -> Prop :=
| Quiet w' t :
    db w' = db w -> count is_commit t = 0%nat -> table_step w (w', t)
| Created w' t :
    lookup USER_ID (db w) = None ->
    db w' = (db w ++ [fresh_user])%list ->
    count is_commit t = 0%nat ->
    table_step w (w', t)
| Appended w' t sd o u :
    lookup USER_ID (db w) = Some u ->
    db w' = update (append_history sd o u) (db w) ->
    count is_commit t = 1%nat ->
    table_step w (w', t).

(** Two contexts that agree on what the history append reads. *)
Definition same_texts (sd sd' : SharedData.t) : Prop :=
  SharedData.input_wav sd = SharedData.input_wav sd'
  /\ SharedData.atot_text sd = SharedData.atot_text sd'
  /\ SharedData.ttot_text sd = SharedData.ttot_text sd'.

(** [d.get(k)] on the pairs of a dict. *)
Definition field (k : string) (kvs : list (string * pyval)) : pyval :=
  match assoc k kvs with Some v => v | None => PNone end.

(** A Recognize answer the nested lookups accept: status 2xx, a JSON
    object in which ["result"] is absent or an object, and in it
    ["details"] absent or an object. *)
Definition atot_well_formed (r : reply json_body) : bool :=
  match r with
  | Answer resp =>
      is_success (status_code resp)
      && match content resp with
         | Json (PDict kvs) =>
             match assoc "result" kvs with
             | None => true
             | Some (PDict rk) =>
                 match assoc "details" rk with
                 | None | Some (PDict _) => true
                 | Some _ => false
                 end
             | Some _ => false
             end
         | _ => false
         end
  | NetFail _ => false
  end.

(** The value under [result.details.k] of a Recognize answer, null when
    a key on the way is missing. *)
Definition atot_field (k : string) (r : reply json_body) : pyval :=
  match r with
  | Answer resp =>
      match content resp with
      | Json (PDict kvs) =>
          match assoc "result" kvs with
          | Some (PDict rk) =>
              match assoc "details" rk with
              | Some (PDict dk) => field k dk
              | _ => PNone
              end
          | _ => PNone
          end
      | _ => PNone
      end
  | NetFail _ => PNone
  end.

(** A Generate answer [get] accepts: status 2xx and a JSON object. *)
Definition ttot_well_formed (r : reply json_body) : bool :=
  match r with
  | Answer resp =>
      is_success (status_code resp)
      && match content resp with Json (PDict _) => true | _ => false end
  | NetFail _ => false
  end.

(** The value under ["response"] of a Generate answer. *)
Definition ttot_response (r : reply json_body) : pyval :=
  match r with
  | Answer resp =>
      match content resp with
      | Json (PDict kvs) => field "response" kvs
      | _ => PNone
      end
  | NetFail _ => PNone
  end.

(** A value that is not a dict. *)
Definition not_dict (v : pyval) : bool :=
  match v with PDict _ => false | _ => true end.

(** What a TTS block leaves, by the answer of the service and the state
    of the file system. *)
Definition tts_block_result (env : remote) (l : tts_locals) (files : list event)
  : Prop :=
  match tts_server env with
  | Answer resp =>
      if is_success (status_code resp) && bytes_truthy (content resp) then
        output_filename l = Some "received_audio.wav"
        /\ match file_system env with
           | None =>
               tts_success l = true /\ tts_error l = None
               /\ files = [FileWrite "received_audio.wav" (content resp)]
           | Some (OpenFails m) =>
               tts_success l = false /\ tts_error l = Some ("TTS 오류: " ++ m)
               /\ files = []
           | Some (WriteFails m) =>
               tts_success l = false /\ tts_error l = Some ("TTS 오류: " ++ m)
               /\ files = [FileTruncate "received_audio.wav"]
           end
      else
        output_filename l = None /\ tts_success l = false /\ files = []
  | NetFail _ =>
      output_filename l = None /\ tts_success l = false /\ files = []
  end.

(** The message of a failure of the file system, and what the failed
    [open] ... [write] has done to the file by then. *)
Definition fs_message (e : fs_error) : string :=
  match e with OpenFails m | WriteFails m => m end.

Definition fs_effects (e : fs_error) (name : string) : list event :=
  match e with
  | OpenFails _ => []
  | WriteFails _ => [FileTruncate name]
  end.

Module Sample9.
(** A context filled by earlier stage calls, and the row of the fixed user. *)
Definition w : world :=
  mkWorld (SharedData.mk (PInt 7) (PStr "a.wav") (PStr "hello") (PStr "hi there"))
    [Sample.empty_user USER_ID].
(** The audio arrives and the output file cannot be written. *)
Definition env_disk_full : remote :=
  mkRemote (Sample.ok_json Sample.atot_hello) (Sample.ok_json Sample.ttot_hi)
    (Answer (mkResponse 200 "OK" Sample.audio))
    (Some (WriteFails "No space left on device")).
(** The audio arrives and the output file cannot be opened. *)
Definition env_read_only : remote :=
  mkRemote (Sample.ok_json Sample.atot_hello) (Sample.ok_json Sample.ttot_hi)
    (Answer (mkResponse 200 "OK" Sample.audio))
    (Some (OpenFails "Read-only file system")).
End Sample9.

(** The answer of [GET /] for a stored row. *)
Definition root_view (u : UserDB.t) : root_response :=
  mkRoot "This is the Backend Server"
    (mkView USER_ID
       (or_empty (UserDB.input_wav_list u)) (or_empty (UserDB.atot_text_list u))
       (or_empty (UserDB.ttot_text_list u)) (or_empty (UserDB.output_wav_list u))).

(** * Properties *)

(** ** The table *)

Lemma lookup_id (uid : Z) (t : table) (u : UserDB.t) :
  lookup uid t = Some u -> UserDB.id u = uid.
Proof.
  unfold lookup. intros H. apply find_some in H. destruct H as [_ H].
  now apply Z.eqb_eq.
Qed.

Lemma lookup_update_same (t : table) (u u' : UserDB.t) :
  lookup (UserDB.id u') t = Some u ->
  lookup (UserDB.id u') (update u' t) = Some u'.
Proof.
  unfold lookup, update.
  induction t as [|r t IH]; simpl; [discriminate|].
  destruct (UserDB.id r =? UserDB.id u') eqn:E; simpl.
  - intros _. now rewrite Z.eqb_refl.
  - rewrite E. exact IH.
Qed.

Lemma lookup_update_other (uid : Z) (t : table) (u' : UserDB.t) :
  uid <> UserDB.id u' ->
  lookup uid (update u' t) = lookup uid t.
Proof.
  unfold lookup, update. intros Hne.
  induction t as [|r t IH]; simpl; [reflexivity|].
  destruct (UserDB.id r =? UserDB.id u') eqn:E; simpl.
  - apply Z.eqb_eq in E.
    assert ((UserDB.id u' =? uid) = false) as -> by (apply Z.eqb_neq; congruence).
    assert ((UserDB.id r =? uid) = false) as -> by (apply Z.eqb_neq; congruence).
    exact IH.
  - destruct (UserDB.id r =? uid); [reflexivity | exact IH].
Qed.

Lemma update_ids (u' : UserDB.t) (t : table) :
  map UserDB.id (update u' t) = map UserDB.id t.
Proof.
  unfold update. induction t as [|r t IH]; simpl; [reflexivity|].
  rewrite IH. destruct (UserDB.id r =? UserDB.id u') eqn:E; [|reflexivity].
  apply Z.eqb_eq in E. now rewrite E.
Qed.

Lemma append_history_id sd o u :
  UserDB.id (append_history sd o u) = UserDB.id u.
Proof. reflexivity. Qed.

Lemma or_empty_Some (l : list pyval) : or_empty (Some l) = l.
Proof. now destruct l. Qed.

Lemma append_history_lengths sd o u a b c d :
  lengths u = (a, b, c, d) ->
  lengths (append_history sd o u) = (S a, S b, S c, S d).
Proof.
  unfold lengths, append_history. intros H. inversion H; subst; clear H.
  cbn [UserDB.input_wav_list UserDB.atot_text_list UserDB.ttot_text_list
       UserDB.output_wav_list].
  rewrite !or_empty_Some.
  destruct (truthy (SharedData.input_wav sd)), (truthy (name_val o));
    rewrite !length_app; simpl; rewrite !Nat.add_1_r; reflexivity.
Qed.

(** ** The steps of a run *)

Ltac run_unfold :=
  unfold pipeline_step1, pipeline_step2, pipeline_step3, get_atot, get_ttot,
    process_audio, run_full_pipeline_tts, process_audio_tts, run_block,
    try_except, bind, ret, raise, http_get, http_post, raise_for_status, json,
    py_get, write_file, print_text, query_first, db_commit, db_add, get_shared,
    set_shared,
    set_output_filename, set_tts_success, set_tts_error, modify, emit, get,
    call_failed, failure_of in *.

Ltac run_case :=
  match goal with
  | |- context [match ?x with _ => _ end] =>
      lazymatch x with
      | context [match _ with _ => _ end] => fail
      | _ => destruct x eqn:?
      end
  end.

Lemma step1_cases env result w :
  exists c sd',
    pipeline_step1 env result w = (inr c, mkWorld sd' (db w), [HttpGet ATOT_URL])
    /\ SharedData.ttot_text sd' = SharedData.ttot_text (shared w)
    /\ SharedData.user_id sd' = SharedData.user_id (shared w)
    /\ match c with
       | Return r =>
           (sd' = shared w
            \/ (call_failed (atot_server env) = false
                /\ printable (SharedData.atot_text sd') = false)) /\
           exists msg,
             r = Result.set_step1 (Result.AtotFailed ("ATOT 실패: " ++ msg))
                   (Result.append_error ("ATOT 실패: " ++ msg) result)
             /\ forall e, failure_of (atot_server env) = Some e -> msg = str_exn e
       | Continue r =>
           call_failed (atot_server env) = false /\
           exists uid,
             r = Result.set_step1
                   (Result.Atot uid (SharedData.input_wav sd')
                      (SharedData.atot_text sd')) result
       end.
Proof.
  destruct w as [sd t].
  run_unfold. cbn -[String.append ATOT_URL].
  repeat (run_case; cbn -[String.append ATOT_URL] in * ).
  all: try discriminate.
  all: eexists _, _; (split; [reflexivity|]); cbn -[String.append].
  all: repeat split; eauto.
  all: try (left; reflexivity).
  all: try (right; split; [reflexivity | assumption]).
  all: try (eexists; split; [reflexivity|]; intros ? [=]; subst; reflexivity).
Qed.

Lemma step2_cases env result w :
  exists c sd',
    pipeline_step2 env result w = (inr c, mkWorld sd' (db w), [HttpGet TTOT_URL])
    /\ SharedData.input_wav sd' = SharedData.input_wav (shared w)
    /\ SharedData.atot_text sd' = SharedData.atot_text (shared w)
    /\ SharedData.user_id sd' = SharedData.user_id (shared w)
    /\ match c with
       | Return r =>
           (sd' = shared w
            \/ (call_failed (ttot_server env) = false
                /\ printable (SharedData.ttot_text sd') = false)) /\
           exists msg,
             r = Result.set_step2 (Result.TtotFailed ("TTOT 실패: " ++ msg))
                   (Result.append_error ("TTOT 실패: " ++ msg) result)
             /\ forall e, failure_of (ttot_server env) = Some e -> msg = str_exn e
       | Continue r =>
           call_failed (ttot_server env) = false /\
           exists uid,
             r = Result.set_step2
                   (Result.Ttot uid (SharedData.ttot_text sd')) result
       end.
Proof.
  destruct w as [sd t].
  run_unfold. cbn -[String.append TTOT_URL].
  repeat (run_case; cbn -[String.append TTOT_URL] in * ).
  all: try discriminate.
  all: eexists _, _; (split; [reflexivity|]); cbn -[String.append].
  all: repeat split; eauto.
  all: try (left; reflexivity).
  all: try (right; split; [reflexivity | assumption]).
  all: try (eexists; split; [reflexivity|]; intros ? [=]; subst; reflexivity).
Qed.

(** The TTS block never raises, posts once, and sets its locals. *)
Lemma run_full_pipeline_tts_cases env text :
  exists l files,
    run_full_pipeline_tts env text tts_init
      = (inr tt, l, HttpPost TTS_URL text :: files)
    /\ forallb is_file_write files = true
    /\ (tts_failed (tts_server env) = true ->
        output_filename l = None /\ tts_success l = false
        /\ exists msg, tts_error l = Some msg)
    /\ (tts_failed (tts_server env) = false ->
        output_filename l = Some "received_audio.wav"
        /\ (tts_success l = true <-> file_system env = None))
    /\ (tts_success l = true -> output_filename l = Some "received_audio.wav").
Proof.
  run_unfold. unfold tts_failed, tts_init.
  cbn -[String.append TTS_URL].
  repeat (run_case; cbn -[String.append TTS_URL] in * ).
  all: try discriminate.
  all: eexists _, _; (split; [reflexivity|]); cbn -[String.append].
  all: repeat split; intros; try discriminate; eauto.
  all: destruct (content _); cbn in *; congruence.
Qed.

Lemma process_audio_tts_cases env text :
  exists l files,
    process_audio_tts env text tts_init
      = (inr tt, l, HttpPost TTS_URL text :: files)
    /\ forallb is_file_write files = true
    /\ (tts_failed (tts_server env) = true ->
        output_filename l = None /\ tts_success l = false
        /\ exists msg, tts_error l = Some msg)
    /\ (tts_failed (tts_server env) = false ->
        output_filename l = Some "received_audio.wav"
        /\ (tts_success l = true <-> file_system env = None))
    /\ (tts_success l = true -> output_filename l = Some "received_audio.wav").
Proof.
  run_unfold. unfold tts_failed, tts_init.
  cbn -[String.append TTS_URL].
  repeat (run_case; cbn -[String.append TTS_URL] in * ).
  all: try discriminate.
  all: eexists _, _; (split; [reflexivity|]); cbn -[String.append].
  all: repeat split; intros; try discriminate; eauto.
  all: destruct (content _); cbn in *; congruence.
Qed.

Lemma step3_no_text env result w :
  is_None (SharedData.ttot_text (shared w)) = true ->
  pipeline_step3 env result w
  = (inr (Result.set_step3 (Result.TtsFailed no_text_msg)
            (Result.append_error no_text_msg result)), w, []).
Proof.
  intros H. unfold pipeline_step3, bind, get_shared, ret.
  rewrite H. reflexivity.
Qed.

Lemma step3_no_user env result w :
  is_None (SharedData.ttot_text (shared w)) = false ->
  lookup USER_ID (db w) = None ->
  pipeline_step3 env result w
  = (inr (Result.append_error no_user_msg result), w, []).
Proof.
  intros H1 H2. unfold pipeline_step3, bind, get_shared, query_first, ret.
  rewrite H1, H2. reflexivity.
Qed.

Lemma step3_persist env result w u :
  is_None (SharedData.ttot_text (shared w)) = false ->
  lookup USER_ID (db w) = Some u ->
  exists l files,
    tts_facts env l files /\
    let sd := shared w in
    let u' := append_history sd (output_filename l) u in
    pipeline_step3 env result w
    = (inr (Result.finish USER_ID
              (Result.mkFinal (SharedData.input_wav sd) (SharedData.atot_text sd)
                 (SharedData.ttot_text sd) (output_filename l))
              (Result.set_step3
                 (Result.Tts (tts_success l) (output_filename l) (tts_error l))
                 result)),
       mkWorld sd (update u' (db w)),
       HttpPost TTS_URL (SharedData.ttot_text sd) :: files ++ [DbCommit u'])%list.
Proof.
  intros H1 H2.
  destruct (run_full_pipeline_tts_cases env (SharedData.ttot_text (shared w)))
    as (l & files & E & F).
  exists l, files. split; [exact F|].
  unfold pipeline_step3, db_commit, bind, get_shared, query_first, ret,
    run_block, modify, emit.
  rewrite H1, H2, E. cbn [shared db app]. rewrite ?app_nil_r. reflexivity.
Qed.

(** The same for [process_audio]. *)
Lemma process_audio_no_text env w :
  is_None (SharedData.ttot_text (shared w)) = true ->
  process_audio env w
  = (inr (AudioError "ttot_text가 없습니다. 먼저 /ttot을 호출하세요"), w, []).
Proof.
  intros H. unfold process_audio, bind, get_shared, ret.
  rewrite H. reflexivity.
Qed.

Lemma process_audio_no_user env w :
  is_None (SharedData.ttot_text (shared w)) = false ->
  lookup USER_ID (db w) = None ->
  process_audio env w
  = (inr (AudioError ("User " ++ str_int USER_ID ++ "를 찾을 수 없습니다.")),
     w, []).
Proof.
  intros H1 H2. unfold process_audio, bind, get_shared, query_first, ret.
  rewrite H1, H2. reflexivity.
Qed.

Lemma process_audio_persist env w u :
  is_None (SharedData.ttot_text (shared w)) = false ->
  lookup USER_ID (db w) = Some u ->
  exists l files msg err,
    tts_facts env l files /\
    let sd := shared w in
    let u' := append_history sd (output_filename l) u in
    process_audio env w
    = (inr (AudioDone (UserDB.id u') (SharedData.input_wav sd)
              (SharedData.atot_text sd) (SharedData.ttot_text sd)
              (output_filename l) (UserDB.output_wav_list u') (tts_success l)
              msg err),
       mkWorld sd (update u' (db w)),
       HttpPost TTS_URL (SharedData.ttot_text sd) :: files ++ [DbCommit u'])%list.
Proof.
  intros H1 H2.
  destruct (process_audio_tts_cases env (SharedData.ttot_text (shared w)))
    as (l & files & E & F).
  exists l, files. fold (tts_facts env l files) in F.
  unfold process_audio, db_commit, bind, get_shared, query_first, ret,
    run_block, modify, emit.
  rewrite H1, H2, E. cbn [shared db app].
  destruct (tts_success l) eqn:Hs; eexists _, _; (split; [exact F|]);
    cbn [app]; rewrite ?app_nil_r; reflexivity.
Qed.

(** ** The shape of a pipeline run *)

Lemma run_full_pipeline_shape env w :
  run_shape env w (run_full_pipeline env w).
Proof.
  unfold run_full_pipeline, bind at 1.
  destruct (step1_cases env Result.init w) as (c1 & sd1 & E1 & _ & _ & H1).
  rewrite E1. destruct c1 as [r1|r1].
  - destruct H1 as (_ & msg & -> & Hmsg).
    unfold ret. cbn [app]. now apply AtotAborted.
  - destruct H1 as (Ha & uid1 & ->).
    unfold bind at 1.
    destruct (step2_cases env
                (Result.set_step1
                   (Result.Atot uid1 (SharedData.input_wav sd1)
                      (SharedData.atot_text sd1)) Result.init)
                (mkWorld sd1 (db w)))
      as (c2 & sd2 & E2 & Hi & Ht & _ & H2).
    cbn [shared db] in *. rewrite E2. destruct c2 as [r2|r2].
    + destruct H2 as (_ & msg & -> & Hmsg).
      rewrite <- Hi, <- Ht.
      unfold ret. cbn [app]. now apply (TtotAborted env w sd2 uid1 msg).
    + destruct H2 as (Hb & uid2 & ->).
      rewrite <- Hi, <- Ht.
      change (Result.set_step2 _ _) with (after_step2 uid1 uid2 sd2).
      destruct (is_None (SharedData.ttot_text sd2)) eqn:Hn.
      * rewrite step3_no_text by exact Hn. cbn [app].
        now apply NoText.
      * destruct (lookup USER_ID (db w)) as [u|] eqn:Hl.
        -- destruct (step3_persist env (after_step2 uid1 uid2 sd2)
                       (mkWorld sd2 (db w)) u Hn Hl)
             as (l & files & F & E3).
           cbn [shared db] in E3. cbv zeta in E3. rewrite E3. cbn [app].
           now apply (Persisted env w sd2 uid1 uid2 u l files).
        -- rewrite step3_no_user by assumption. cbn [app].
           now apply NoUser.
Qed.

(** ** Runs that persist *)

Lemma files_no_tts_call files :
  forallb is_file_write files = true -> filter is_tts_call files = [].
Proof.
  induction files as [|ev files IH]; [reflexivity|].
  destruct ev; simpl; try discriminate; exact IH.
Qed.

Lemma files_no_commit files :
  forallb is_file_write files = true -> filter is_commit files = [].
Proof.
  induction files as [|ev files IH]; [reflexivity|].
  destruct ev; simpl; try discriminate; exact IH.
Qed.

Lemma is_None_true v : is_None v = true -> v = PNone.
Proof. destruct v; simpl; congruence. Qed.

Ltac shape_cases env w :=
  let Hs := fresh "Hs" in
  let r := fresh "r" in
  let Er := fresh "Er" in
  pose proof (run_full_pipeline_shape env w) as Hs;
  remember (run_full_pipeline env w) as r eqn:Er;
  destruct Hs; unfold outcome, final_state, trace, reaches_persist, count in *;
  cbn [fst snd shared db] in *.

(** C1. A run of the full pipeline that reaches the persistence step
    extends every one of the four sequences of the persisted user by exactly
    one element, so sequences of equal length (NULL read as empty) stay of
    equal length, one longer; no such run extends only some of them. *)
Theorem persist_grows_all_four env w u :
  reaches_persist (run_full_pipeline env w) ->
  lookup USER_ID (db w) = Some u ->
  exists u',
    lookup USER_ID (db (final_state (run_full_pipeline env w))) = Some u'
    /\ (forall n, lengths u = (n, n, n, n) -> lengths u' = (S n, S n, S n, S n))
    /\ (forall a b c d,
          lengths u = (a, b, c, d) -> lengths u' = (S a, S b, S c, S d)).
Proof.
  intros Hp Hu. shape_cases env w; try discriminate.
  assert (u0 = u) as -> by congruence.
  exists (append_history sd2 (output_filename l) u).
  pose proof (lookup_id _ _ _ Hu) as Hid.
  split; [|split].
  - rewrite <- Hid. rewrite <- (append_history_id sd2 (output_filename l) u) at 1.
    apply lookup_update_same with (u := u).
    rewrite append_history_id, Hid. exact Hu.
  - intros n. apply append_history_lengths.
  - intros a b c d. apply append_history_lengths.
Qed.

Lemma persist_grows_all_four_witness :
  exists u',
    lookup USER_ID (db (final_state (run_full_pipeline Sample.env_ok Sample.w0)))
    = Some u'
    /\ lengths u' = (1, 1, 1, 1)%nat.
Proof.
  destruct (persist_grows_all_four Sample.env_ok Sample.w0
              (Sample.empty_user USER_ID) eq_refl eq_refl)
    as (u' & Hu & Hn & _).
  exists u'. split; [exact Hu | exact (Hn 0%nat eq_refl)].
Defined.

(** C2. When the Recognize call or the Generate call raises a transport
    error or answers outside 2xx, the run ends before the Synthesize call,
    the result has [success = false] and one error entry that names the
    failed stage, and the table is unchanged. *)
Theorem failed_stage_aborts env w :
  call_failed (atot_server env) = true \/ call_failed (ttot_server env) = true ->
  exists res,
    outcome (run_full_pipeline env w) = inr res
    /\ Result.success res = false
    /\ db (final_state (run_full_pipeline env w)) = db w
    /\ count is_tts_call (trace (run_full_pipeline env w)) = 0%nat
    /\ count is_commit (trace (run_full_pipeline env w)) = 0%nat
    /\ ((exists msg,
           Result.errors res = ["ATOT 실패: " ++ msg]
           /\ Result.step1_atot res = Some (Result.AtotFailed ("ATOT 실패: " ++ msg))
           /\ Result.step2_ttot res = None
           /\ forall e, failure_of (atot_server env) = Some e -> msg = str_exn e)
        \/ (exists msg a b c,
              call_failed (atot_server env) = false
              /\ Result.errors res = ["TTOT 실패: " ++ msg]
              /\ Result.step1_atot res = Some (Result.Atot a b c)
              /\ Result.step2_ttot res
                 = Some (Result.TtotFailed ("TTOT 실패: " ++ msg))
              /\ forall e, failure_of (ttot_server env) = Some e -> msg = str_exn e)).
Proof.
  intros Hf. shape_cases env w.
  - eexists; repeat split.
    left. exists msg. repeat split. assumption.
  - eexists; repeat split.
    right. exists msg. do 3 eexists. repeat split; assumption.
  - destruct Hf; congruence.
  - destruct Hf; congruence.
  - destruct Hf; congruence.
Qed.

Lemma failed_stage_aborts_witness :
  exists res,
    outcome (run_full_pipeline Sample.env_timeout Sample.w0) = inr res
    /\ Result.success res = false
    /\ db (final_state (run_full_pipeline Sample.env_timeout Sample.w0))
       = db Sample.w0.
Proof.
  destruct (failed_stage_aborts Sample.env_timeout Sample.w0
              (or_introl eq_refl))
    as (res & Ho & Hs & Hd & _).
  exists res. repeat split; assumption.
Defined.

(** C9. A call of [/process-audio] while the shared context holds no
    generated text returns an error, makes no Synthesize call (no outside
    effect at all), and leaves the table and the shared context as they
    were. *)
Theorem process_audio_without_text env w :
  SharedData.ttot_text (shared w) = PNone ->
  (exists msg, outcome (process_audio env w) = inr (AudioError msg))
  /\ count is_tts_call (trace (process_audio env w)) = 0%nat
  /\ trace (process_audio env w) = []
  /\ db (final_state (process_audio env w)) = db w
  /\ shared (final_state (process_audio env w)) = shared w.
Proof.
  intros H. rewrite process_audio_no_text by (rewrite H; reflexivity).
  repeat split. eexists. reflexivity.
Qed.

Lemma process_audio_without_text_witness :
  trace (process_audio Sample.env_ok Sample.w0) = []
  /\ final_state (process_audio Sample.env_ok Sample.w0) = Sample.w0.
Proof.
  destruct (process_audio_without_text Sample.env_ok Sample.w0 eq_refl)
    as (_ & _ & Ht & Hd & Hs).
  split; [exact Ht|].
  destruct (final_state (process_audio Sample.env_ok Sample.w0)) as [sd tb].
  cbn in Hd, Hs. now rewrite Hd, Hs.
Defined.

(** ** Synthesize and the persistence step *)

Lemma append_history_entry sd o u :
  gained_entry u (append_history sd o u)
    (if truthy (SharedData.input_wav sd) then SharedData.input_wav sd else PNone)
    (py_or (SharedData.atot_text sd) (PStr ""))
    (py_or (SharedData.ttot_text sd) (PStr ""))
    (if truthy (name_val o) then name_val o else PNone).
Proof.
  unfold gained_entry, append_history. cbn.
  repeat split.
  - now destruct (truthy (SharedData.input_wav sd)).
  - now destruct (truthy (name_val o)).
Qed.

Lemma persisted_lookup sd o u t :
  lookup USER_ID t = Some u ->
  lookup USER_ID (update (append_history sd o u) t) = Some (append_history sd o u).
Proof.
  intros Hu. pose proof (lookup_id _ _ _ Hu) as Hid.
  rewrite <- Hid. rewrite <- (append_history_id sd o u) at 1.
  apply lookup_update_same with (u := u).
  rewrite append_history_id, Hid. exact Hu.
Qed.

(** C3, counterexample.  Recognize (a 2xx answer without the nested
    fields) and Generate succeed and Synthesize returns an empty body: the
    entry that is appended holds the empty string as recognized text. *)
Lemma synthesize_failure_counterexample :
  ~ synthesize_failure_as_stated Sample3.env Sample.w0.
Proof.
  unfold synthesize_failure_as_stated. intros H.
  remember (run_full_pipeline Sample3.env Sample.w0) as r eqn:Er in *.
  vm_compute in Er. subst r.
  cbn [outcome final_state trace fst snd db] in H.
  destruct (H _ eq_refl) as (_ & _ & u & u' & i & a & t & Hu & Hu' & Hg & Ha & _).
  - now exists (PInt 7), PNone, PNone.
  - now exists (PInt 7), (PStr "hi there").
  - vm_compute. discriminate.
  - reflexivity.
  - vm_compute in Hu, Hu'. injection Hu as <-. injection Hu' as <-.
    destruct Hg as (_ & _ & Hg & _). cbn in Hg. injection Hg as <-.
    discriminate Ha.
Qed.

(** C3, amended.  When Recognize and Generate succeed and the Synthesize
    call is made and fails (transport error, status outside 2xx, or empty
    body), the run returns [success = true] with a step-3 flag [false] and
    no output name, and the history of the user gains exactly one entry:
    its output reference is absent, and its recognized and generated texts
    are the texts of the context, a null or empty one stored as the empty
    string. *)
Theorem synthesize_failure_persists_text env w res :
  outcome (run_full_pipeline env w) = inr res ->
  (exists a b c, Result.step1_atot res = Some (Result.Atot a b c)) ->
  (exists a b, Result.step2_ttot res = Some (Result.Ttot a b)) ->
  count is_tts_call (trace (run_full_pipeline env w)) <> 0%nat ->
  tts_failed (tts_server env) = true ->
  Result.success res = true
  /\ (exists msg, Result.step3_tts res = Some (Result.Tts false None (Some msg)))
  /\ exists u u' f,
       lookup USER_ID (db w) = Some u
       /\ lookup USER_ID (db (final_state (run_full_pipeline env w))) = Some u'
       /\ Result.final_data res = Some f
       /\ Result.output_wav f = None
       /\ gained_entry u u'
            (if truthy (Result.input_wav f) then Result.input_wav f else PNone)
            (py_or (Result.atot_text f) (PStr ""))
            (py_or (Result.ttot_text f) (PStr ""))
            PNone
       /\ (Result.atot_text f = PNone ->
           UserDB.atot_text_list u'
           = Some (or_empty (UserDB.atot_text_list u) ++ [PStr ""])%list)
       /\ (nonempty_text (Result.atot_text f) = true ->
           UserDB.atot_text_list u'
           = Some (or_empty (UserDB.atot_text_list u) ++ [Result.atot_text f])%list)
       /\ (nonempty_text (Result.ttot_text f) = true ->
           UserDB.ttot_text_list u'
           = Some (or_empty (UserDB.ttot_text_list u) ++ [Result.ttot_text f])%list).
Proof.
  intros Ho H1 H2 Hc Hf. shape_cases env w.
  - destruct H1 as (a & b & c & H1). injection Ho as <-. discriminate H1.
  - destruct H2 as (a & b & H2). injection Ho as <-. discriminate H2.
  - now elim Hc.
  - now elim Hc.
  - injection Ho as <-.
    match goal with F : tts_facts _ _ _ |- _ =>
      destruct F as (_ & F & _); destruct (F Hf) as (Hn & Hs & msg & Hm) end.
    rewrite Hn, Hs, Hm in *. cbn.
    split; [reflexivity|]. split; [now exists msg|].
    exists u, (append_history sd2 None u). eexists.
    split; [assumption|]. split; [now apply persisted_lookup|].
    split; [reflexivity|]. cbn. split; [reflexivity|].
    split; [exact (append_history_entry sd2 None u)|].
    repeat split.
    + intros ->. reflexivity.
    + intros Ht. unfold py_or.
      destruct (SharedData.atot_text sd2); try discriminate.
      cbn in *. now rewrite Ht.
    + intros Ht. unfold py_or.
      destruct (SharedData.ttot_text sd2); try discriminate.
      cbn in *. now rewrite Ht.
Qed.

Lemma synthesize_failure_persists_text_witness :
  exists res,
    outcome (run_full_pipeline Sample.env_empty_audio Sample.w0) = inr res
    /\ tts_failed (tts_server Sample.env_empty_audio) = true
    /\ Result.success res = true.
Proof.
  eexists. split; [vm_compute; reflexivity|]. split; [reflexivity|].
  refine (proj1 (synthesize_failure_persists_text
                   Sample.env_empty_audio Sample.w0 _ _ _ _ _ _)).
  - vm_compute. reflexivity.
  - do 3 eexists. reflexivity.
  - do 2 eexists. reflexivity.
  - vm_compute. discriminate.
  - reflexivity.
Defined.

(** C4, counterexample.  Generate answers 200 without a ["response"]
    field: step 2 is reported as a success, and the run returns at the
    [ttot_text is None] guard without a Synthesize call or a commit. *)
Lemma generate_success_counterexample :
  ~ generate_success_as_stated Sample4.env Sample.w0.
Proof.
  unfold generate_success_as_stated. intros H.
  remember (run_full_pipeline Sample4.env Sample.w0) as r eqn:Er in *.
  vm_compute in Er. subst r.
  cbn [outcome final_state trace fst snd db] in H.
  destruct (H _ eq_refl) as (Hc & _).
  - now exists (PInt 7), PNone.
  - vm_compute in Hc. discriminate Hc.
Qed.

(** C4, amended.  When the Generate stage succeeds with a generated text
    that is not null and the row of the fixed user exists, the run makes
    the Synthesize call exactly once and then, whatever the Synthesize
    service answers, commits exactly once, as the last effect of the run.
    When the Generate stage succeeds with a null text, or the row of user
    10 is missing, the run ends with one error entry, before any
    Synthesize call and without a commit, and the table is as it was. *)
Theorem generate_success_persists_once env w res uid text :
  outcome (run_full_pipeline env w) = inr res ->
  Result.step2_ttot res = Some (Result.Ttot uid text) ->
  (text <> PNone ->
   forall u, lookup USER_ID (db w) = Some u ->
     count is_tts_call (trace (run_full_pipeline env w)) = 1%nat
     /\ count is_commit (trace (run_full_pipeline env w)) = 1%nat
     /\ exists files u',
          trace (run_full_pipeline env w)
          = ([HttpGet ATOT_URL; HttpGet TTOT_URL; HttpPost TTS_URL text]
               ++ files ++ [DbCommit u'])%list
          /\ forallb is_file_write files = true
          /\ lookup USER_ID (db (final_state (run_full_pipeline env w)))
             = Some u')
  /\ (text = PNone ->
      Result.success res = false
      /\ Result.errors res = [no_text_msg]
      /\ Result.step3_tts res = Some (Result.TtsFailed no_text_msg)
      /\ count is_tts_call (trace (run_full_pipeline env w)) = 0%nat
      /\ count is_commit (trace (run_full_pipeline env w)) = 0%nat
      /\ db (final_state (run_full_pipeline env w)) = db w)
  /\ (text <> PNone ->
      lookup USER_ID (db w) = None ->
      Result.success res = false
      /\ Result.errors res = [no_user_msg]
      /\ Result.step3_tts res = None
      /\ count is_tts_call (trace (run_full_pipeline env w)) = 0%nat
      /\ count is_commit (trace (run_full_pipeline env w)) = 0%nat
      /\ db (final_state (run_full_pipeline env w)) = db w).
Proof.
  intros Ho H2. shape_cases env w; injection Ho as <-; cbn in H2.
  - discriminate.
  - discriminate.
  - injection H2 as <- <-.
    match goal with N : is_None _ = true |- _ => apply is_None_true in N end.
    split; [|split].
    + intros Hne. contradiction.
    + intros _. repeat split.
    + intros Hne. contradiction.
  - injection H2 as <- <-.
    match goal with N : is_None _ = false |- _ =>
      pose proof N as Hn; destruct (SharedData.ttot_text sd2) eqn:Et;
        try discriminate N end.
    all: split; [|split];
      [ intros _ u Hu; congruence
      | intros Hn'; discriminate Hn'
      | intros _ _; repeat split ].
  - injection H2 as <- <-.
    match goal with F : tts_facts _ _ _ |- _ => destruct F as (Ff & _) end.
    split; [|split].
    + intros _ u' Hu'.
      rewrite !filter_app, (files_no_tts_call _ Ff), (files_no_commit _ Ff).
      cbn. repeat split.
      exists files. eexists. repeat split; [assumption|].
      now apply persisted_lookup.
    + intros Hn'.
      match goal with N : is_None _ = false |- _ =>
        rewrite Hn' in N; discriminate N end.
    + intros _ Hl. congruence.
Qed.

Lemma generate_success_persists_once_witness :
  count is_commit (trace (run_full_pipeline Sample.env_empty_audio Sample.w0))
  = 1%nat.
Proof.
  refine (proj1 (proj2 (proj1 (generate_success_persists_once
                                 Sample.env_empty_audio Sample.w0 _ (PInt 7)
                                 (PStr "hi there") _ _)
                          _ (Sample.empty_user USER_ID) _))).
  - vm_compute. reflexivity.
  - reflexivity.
  - discriminate.
  - reflexivity.
Defined.

(** ** Reading histories *)

Lemma lookup_app_new uid (t : table) (u : UserDB.t) :
  lookup uid t = None -> UserDB.id u = uid ->
  lookup uid (t ++ [u])%list = Some u.
Proof.
  unfold lookup. intros Hn Hid.
  induction t as [|r t IH]; simpl in *.
  - now rewrite Hid, Z.eqb_refl.
  - destruct (UserDB.id r =? uid); [discriminate | now apply IH].
Qed.

(** C5, counterexample.  On an empty table [get_user 7] raises the 404
    [HTTPException] and creates nothing. *)
Lemma get_history_counterexample :
  ~ get_history_as_stated 7 Sample5.empty_world.
Proof.
  intros H. destruct (H eq_refl) as (u & Hu & _). discriminate Hu.
Qed.

(** C5, amended.  For a user id with no stored row, [get_user] creates
    nothing: for an id in the 64-bit range of the store it answers with the
    404 error "User not found", and for an id outside that range the query
    itself raises.  Only for the fixed user (id 10) is there a lazy
    creation, by the root endpoint, which stores a row with four empty
    sequences and returns that empty history. *)
Theorem unknown_user_read uid w :
  lookup uid (db w) = None ->
  (in_int64 uid = true ->
   outcome (get_user uid w) = inl (HTTPException 404 "User not found")
   /\ final_state (get_user uid w) = w
   /\ trace (get_user uid w) = [])
  /\ (in_int64 uid = false ->
      outcome (get_user uid w)
      = inl (PyException "Python int too large to convert to SQLite INTEGER")
      /\ final_state (get_user uid w) = w
      /\ trace (get_user uid w) = [])
  /\ (uid = USER_ID ->
      let fresh := UserDB.mk USER_ID (Some []) (Some []) (Some []) (Some []) in
      outcome (read_root w)
      = inr (mkRoot "This is the Backend Server" (mkView USER_ID [] [] [] []))
      /\ db (final_state (read_root w)) = (db w ++ [fresh])%list
      /\ lookup USER_ID (db (final_state (read_root w))) = Some fresh
      /\ shared (final_state (read_root w)) = shared w
      /\ trace (read_root w) = [DbAdd fresh]).
Proof.
  intros Hn. split; [|split].
  - intros Hr.
    unfold get_user, bind, query_first, raise, outcome, final_state, trace.
    rewrite Hr, Hn. repeat split.
  - intros Hr.
    unfold get_user, bind, query_first, raise, outcome, final_state, trace.
    rewrite Hr. repeat split.
  - intros ->. cbv zeta.
    unfold read_root, db_add, bind, query_first, modify, emit, ret,
      outcome, final_state, trace.
    change (in_int64 USER_ID) with true. cbv iota.
    rewrite Hn. cbn. repeat split.
    now apply lookup_app_new.
Qed.

Lemma unknown_user_read_witness :
  outcome (get_user 7 Sample5.empty_world)
  = inl (HTTPException 404 "User not found").
Proof.
  exact (proj1 (proj1 (unknown_user_read 7 Sample5.empty_world eq_refl)
                  eq_refl)).
Defined.

(** A known user is returned as stored. *)
Lemma get_user_known uid w u :
  in_int64 uid = true ->
  lookup uid (db w) = Some u -> get_user uid w = (inr u, w, []).
Proof.
  intros Hr H. unfold get_user, bind, query_first, ret. now rewrite Hr, H.
Qed.

Lemma insert_row_perm u rows : Permutation (insert_row u rows) (u :: rows).
Proof.
  induction rows as [|r rows IH]; cbn; [reflexivity|].
  destruct (UserDB.id u <=? UserDB.id r); [reflexivity|].
  rewrite IH. apply perm_swap.
Qed.

Lemma rowid_scan_perm t : Permutation (rowid_scan t) t.
Proof.
  induction t as [|u t IH]; cbn; [reflexivity|].
  rewrite insert_row_perm. now constructor.
Qed.

Lemma insert_row_sorted u rows :
  StronglySorted Z.le (map UserDB.id rows) ->
  StronglySorted Z.le (map UserDB.id (insert_row u rows)).
Proof.
  induction rows as [|r rows IH]; cbn; intros Hs.
  - repeat constructor.
  - destruct (UserDB.id u <=? UserDB.id r) eqn:E.
    + apply Z.leb_le in E. cbn. constructor; [exact Hs|].
      inversion Hs as [|? ? _ Hall]; subst.
      constructor; [exact E|].
      eapply Forall_impl; [|exact Hall]. intros z Hz. lia.
    + apply Z.leb_gt in E. cbn.
      inversion Hs as [|? ? Hs' Hall]; subst.
      constructor; [now apply IH|].
      eapply Permutation_Forall.
      * symmetry. apply (Permutation_map UserDB.id), insert_row_perm.
      * cbn. constructor; [lia | exact Hall].
Qed.

Lemma rowid_scan_sorted t :
  StronglySorted Z.le (map UserDB.id (rowid_scan t)).
Proof.
  induction t as [|u t IH]; cbn; [constructor | now apply insert_row_sorted].
Qed.

Lemma sorted_strict (l : list Z) :
  StronglySorted Z.le l -> NoDup l -> StronglySorted Z.lt l.
Proof.
  induction 1 as [|z l Hs IH Hall]; intros Hn; [constructor|].
  inversion Hn as [|? ? Hnot Hn']; subst.
  constructor; [now apply IH|].
  rewrite Forall_forall in *. intros y Hy.
  specialize (Hall y Hy).
  assert (y <> z) by (intros ->; contradiction). lia.
Qed.

Lemma normalize_column (u : UserDB.t) :
  UserDB.id (normalize u) = UserDB.id u
  /\ forall col,
       In col [UserDB.input_wav_list; UserDB.atot_text_list;
               UserDB.ttot_text_list; UserDB.output_wav_list] ->
       match col u with
       | None => col (normalize u) = Some []
       | Some l => col (normalize u) = Some l
       end.
Proof.
  split; [reflexivity|].
  intros col [<-|[<-|[<-|[<-|[]]]]]; cbn.
  - destruct (UserDB.input_wav_list u); now rewrite ?or_empty_Some.
  - destruct (UserDB.atot_text_list u); now rewrite ?or_empty_Some.
  - destruct (UserDB.ttot_text_list u); now rewrite ?or_empty_Some.
  - destruct (UserDB.output_wav_list u); now rewrite ?or_empty_Some.
Qed.

(** C8.  [get_users] returns the stored histories in ascending order of
    user id, the order in which the store yields the rows of a table with
    an integer primary key: one history per stored row, each with its id,
    every NULL sequence replaced by the empty sequence and every other
    sequence as stored; nothing is written. *)
Theorem list_histories_ascending w :
  NoDup (map UserDB.id (db w)) ->
  exists us,
    outcome (get_users w) = inr us
    /\ ascending us
    /\ Permutation us (map normalize (db w))
    /\ Permutation (map UserDB.id us) (map UserDB.id (db w))
    /\ (forall u,
          UserDB.id (normalize u) = UserDB.id u
          /\ forall col,
               In col [UserDB.input_wav_list; UserDB.atot_text_list;
                       UserDB.ttot_text_list; UserDB.output_wav_list] ->
               match col u with
               | None => col (normalize u) = Some []
               | Some l => col (normalize u) = Some l
               end)
    /\ final_state (get_users w) = w
    /\ trace (get_users w) = [].
Proof.
  intros Hn. exists (map normalize (rowid_scan (db w))).
  assert (Hids : map UserDB.id (map normalize (rowid_scan (db w)))
                 = map UserDB.id (rowid_scan (db w))).
  { rewrite map_map. reflexivity. }
  split; [reflexivity|]. split; [|split; [|split; [|split]]].
  - unfold ascending. rewrite Hids.
    apply sorted_strict; [apply rowid_scan_sorted|].
    eapply Permutation_NoDup; [|exact Hn].
    symmetry. apply Permutation_map, rowid_scan_perm.
  - apply Permutation_map, rowid_scan_perm.
  - rewrite Hids. apply Permutation_map, rowid_scan_perm.
  - exact normalize_column.
  - split; reflexivity.
Qed.

Lemma list_histories_ascending_witness :
  exists us,
    outcome (get_users Sample8.w) = inr us
    /\ ascending us
    /\ map UserDB.id us = [10; 11].
Proof.
  destruct (list_histories_ascending Sample8.w) as (us & Hu & Ha & _).
  - repeat constructor; cbn; intuition discriminate.
  - exists us. split; [exact Hu|]. split; [exact Ha|].
    vm_compute in Hu. injection Hu as <-. reflexivity.
Defined.

(** ** Lenient Recognize *)

(** C6, counterexample.  The 2xx body [{"result": null}] has no
    [result.details]; [None.get] raises, so [get_atot] answers with an
    error and the pipeline reports a failed step 1. *)
Lemma lenient_recognize_counterexample :
  ~ lenient_recognize_as_stated Sample6.body.
Proof.
  intros H.
  destruct (H eq_refl Sample6.env Sample.w0 200 "OK" eq_refl eq_refl)
    as ((uid & Hu) & _).
  vm_compute in Hu. discriminate Hu.
Qed.

Lemma step1_keys_absent env result w code msg body :
  atot_server env = Answer (mkResponse code msg (Json body)) ->
  is_success code = true ->
  keys_absent body = true ->
  exists uid,
    pipeline_step1 env result w
    = (inr (Continue (Result.set_step1 (Result.Atot uid PNone PNone) result)),
       mkWorld (SharedData.set_input_wav PNone
                  (SharedData.set_atot_text PNone (shared w))) (db w),
       [HttpGet ATOT_URL]).
Proof.
  intros Ha Hs Hk. destruct w as [sd t].
  run_unfold. rewrite Ha. cbn -[String.append ATOT_URL]. rewrite Hs.
  unfold keys_absent in Hk.
  cbn -[String.append ATOT_URL].
  repeat (run_case; cbn -[String.append ATOT_URL] in * ); try discriminate.
  all: eexists; reflexivity.
Qed.

Lemma get_atot_keys_absent env w code msg body :
  atot_server env = Answer (mkResponse code msg (Json body)) ->
  is_success code = true ->
  keys_absent body = true ->
  exists uid,
    get_atot env w
    = (inr (AtotDict uid PNone PNone),
       mkWorld (SharedData.set_input_wav PNone
                  (SharedData.set_atot_text PNone
                     (SharedData.set_user_id uid (shared w)))) (db w),
       [HttpGet ATOT_URL]).
Proof.
  intros Ha Hs Hk. destruct w as [sd t].
  run_unfold. rewrite Ha. cbn -[String.append ATOT_URL]. rewrite Hs.
  unfold keys_absent in Hk.
  cbn -[String.append ATOT_URL].
  repeat (run_case; cbn -[String.append ATOT_URL] in * ); try discriminate.
  all: eexists; reflexivity.
Qed.

(** After a step 1 that continues, the run goes on to the Generate call
    and keeps the entry of step 1 in its result. *)
Lemma run_after_step1 env w r1 w1 :
  pipeline_step1 env Result.init w = (inr (Continue r1), w1, [HttpGet ATOT_URL]) ->
  exists res w' rest,
    run_full_pipeline env w
    = (inr res, w', HttpGet ATOT_URL :: HttpGet TTOT_URL :: rest)
    /\ Result.step1_atot res = Result.step1_atot r1.
Proof.
  intros E1. unfold run_full_pipeline, bind at 1. rewrite E1.
  unfold bind at 1.
  destruct (step2_cases env r1 w1) as (c2 & sd2 & E2 & _ & _ & _ & H2).
  rewrite E2. destruct c2 as [r2|r2].
  - destruct H2 as (_ & msg & -> & _). unfold ret. cbn.
    eexists _, _, _. split; reflexivity.
  - destruct H2 as (_ & uid2 & ->).
    destruct (is_None (SharedData.ttot_text sd2)) eqn:Hn.
    + rewrite step3_no_text by exact Hn. cbn.
      eexists _, _, _. split; reflexivity.
    + destruct (lookup USER_ID (db w1)) as [u|] eqn:Hl.
      * destruct (step3_persist env
                    (Result.set_step2 (Result.Ttot uid2 (SharedData.ttot_text sd2)) r1)
                    (mkWorld sd2 (db w1)) u Hn Hl) as (l & files & _ & E3).
        cbv zeta in E3. rewrite E3. cbn.
        eexists _, _, _. split; reflexivity.
      * rewrite step3_no_user by assumption. cbn.
        eexists _, _, _. split; reflexivity.
Qed.

(** C6, amended.  For a 2xx Recognize answer whose body is a JSON object
    in which the key ["result"] is absent, or in which ["result"] is an
    object without the key ["details"], the Recognize stage succeeds with
    recognized text and input audio reference both null, and the full
    pipeline records a successful step 1 and goes on to call Generate. *)
Theorem lenient_recognize_absent_keys env w code msg body :
  atot_server env = Answer (mkResponse code msg (Json body)) ->
  is_success code = true ->
  keys_absent body = true ->
  (exists uid,
     outcome (get_atot env w) = inr (AtotDict uid PNone PNone)
     /\ SharedData.atot_text (shared (final_state (get_atot env w))) = PNone
     /\ SharedData.input_wav (shared (final_state (get_atot env w))) = PNone)
  /\ (exists res uid rest,
        outcome (run_full_pipeline env w) = inr res
        /\ Result.step1_atot res = Some (Result.Atot uid PNone PNone)
        /\ trace (run_full_pipeline env w)
           = HttpGet ATOT_URL :: HttpGet TTOT_URL :: rest).
Proof.
  intros Ha Hs Hk. split.
  - destruct (get_atot_keys_absent env w code msg body Ha Hs Hk) as (uid & E).
    exists uid. rewrite E. repeat split.
  - destruct (step1_keys_absent env Result.init w code msg body Ha Hs Hk)
      as (uid & E).
    destruct (run_after_step1 env w _ _ E) as (res & w' & rest & Er & H1).
    exists res, uid, rest. rewrite Er. repeat split. exact H1.
Qed.

Lemma lenient_recognize_absent_keys_witness :
  exists res uid,
    outcome (run_full_pipeline Sample6.env_no_details Sample.w0) = inr res
    /\ Result.step1_atot res = Some (Result.Atot uid PNone PNone).
Proof.
  destruct (proj2 (lenient_recognize_absent_keys Sample6.env_no_details
                     Sample.w0 200 "OK" _ eq_refl eq_refl eq_refl))
    as (res & uid & rest & Ho & H1 & _).
  exists res, uid. split; assumption.
Defined.

(** ** The appended record *)

(** C7, counterexample.  With [audio_url] the empty string the context
    holds an input reference that is not null, and the appended record
    holds null in its place. *)
Lemma persisted_record_counterexample :
  ~ persisted_record_as_stated Sample7.env Sample.w0.
Proof.
  unfold persisted_record_as_stated. intros H.
  remember (run_full_pipeline Sample7.env Sample.w0) as r eqn:Er in *.
  vm_compute in Er. subst r.
  cbn [outcome final_state trace fst snd db] in H.
  destruct (H eq_refl) as (u & u' & res & f & Hu & Hu' & Ho & Hf & Hg).
  vm_compute in Hu, Hu'. injection Hu as <-. injection Hu' as <-.
  injection Ho as <-. cbn in Hf. injection Hf as <-.
  destruct Hg as (_ & Hi & _). cbn in Hi. discriminate Hi.
Qed.

Lemma append_history_record sd env l files u :
  tts_facts env l files ->
  record_appended (SharedData.input_wav sd) (SharedData.atot_text sd)
    (SharedData.ttot_text sd) env (tts_success l) u
    (append_history sd (output_filename l) u).
Proof.
  intros (_ & Hfail & _ & Hok).
  exists (if truthy (name_val (output_filename l))
          then name_val (output_filename l) else PNone).
  split; [exact (append_history_entry sd (output_filename l) u)|]. split.
  - intros Hs. rewrite (Hok Hs). reflexivity.
  - intros Hf. destruct (Hfail Hf) as (-> & -> & _). split; reflexivity.
Qed.

(** C7, amended.  Every run that reaches the persistence step (of the
    full pipeline, and of [/process-audio]) appends exactly this record:
    the input reference as it is when it is truthy and null when it is null
    or empty; the recognized and the generated text as they are when truthy
    and the empty string when null or empty; the output reference the
    artifact name when Synthesize succeeded, and null when the Synthesize
    call failed or returned an empty body. *)
Theorem persisted_record env w :
  (reaches_persist (run_full_pipeline env w) ->
   exists u u' res f ok name err,
     lookup USER_ID (db w) = Some u
     /\ lookup USER_ID (db (final_state (run_full_pipeline env w))) = Some u'
     /\ outcome (run_full_pipeline env w) = inr res
     /\ Result.final_data res = Some f
     /\ Result.step3_tts res = Some (Result.Tts ok name err)
     /\ record_appended (Result.input_wav f) (Result.atot_text f)
          (Result.ttot_text f) env ok u u')
  /\ (reaches_persist (process_audio env w) ->
      exists u u' uid i a t name col ok msg err,
        lookup USER_ID (db w) = Some u
        /\ lookup USER_ID (db (final_state (process_audio env w))) = Some u'
        /\ outcome (process_audio env w)
           = inr (AudioDone uid i a t name col ok msg err)
        /\ i = SharedData.input_wav (shared w)
        /\ a = SharedData.atot_text (shared w)
        /\ t = SharedData.ttot_text (shared w)
        /\ record_appended i a t env ok u u').
Proof.
  split.
  - intros Hp. shape_cases env w; try discriminate.
    exists u, (append_history sd2 (output_filename l) u).
    eexists _, _, (tts_success l), _, _.
    split; [assumption|]. split; [now apply persisted_lookup|].
    split; [reflexivity|]. split; [reflexivity|]. split; [reflexivity|].
    cbn. eapply append_history_record; eassumption.
  - intros Hp. unfold reaches_persist in Hp.
    destruct (is_None (SharedData.ttot_text (shared w))) eqn:Hn.
    { rewrite process_audio_no_text in Hp by exact Hn. discriminate Hp. }
    destruct (lookup USER_ID (db w)) as [u|] eqn:Hl.
    2:{ rewrite process_audio_no_user in Hp by assumption. discriminate Hp. }
    destruct (process_audio_persist env w u Hn Hl)
      as (l & files & msg & err & F & E).
    cbv zeta in E. rewrite E. unfold outcome, final_state. cbn [fst snd db].
    exists u, (append_history (shared w) (output_filename l) u).
    eexists _, _, _, _, _, _, (tts_success l), _, _.
    split; [reflexivity|]. split; [now apply persisted_lookup|].
    split; [reflexivity|]. repeat (split; [reflexivity|]).
    eapply append_history_record; eassumption.
Qed.

Lemma persisted_record_witness :
  exists u',
    lookup USER_ID (db (final_state (run_full_pipeline Sample.env_ok Sample.w0)))
    = Some u'
    /\ record_appended (PStr "a.wav") (PStr "hello") (PStr "hi there")
         Sample.env_ok true (Sample.empty_user USER_ID) u'.
Proof.
  destruct (proj1 (persisted_record Sample.env_ok Sample.w0) eq_refl)
    as (u & u' & res & f & ok & name & err & Hu & Hu' & Ho & Hf & H3 & Hr).
  exists u'. split; [exact Hu'|].
  vm_compute in Hu. injection Hu as <-.
  vm_compute in Ho. injection Ho as <-.
  cbn in Hf. injection Hf as <-. cbn in H3. injection H3 as <- _ _.
  exact Hr.
Defined.

(** ** The fixed user *)

Lemma step1_user_id_irrelevant a t env r r' w :
  effects (pipeline_step1 (report_user_ids a t env) r' w)
  = effects (pipeline_step1 env r w)
  /\ same_control (outcome (pipeline_step1 (report_user_ids a t env) r' w))
       (outcome (pipeline_step1 env r w)).
Proof.
  destruct w as [sd tb]. destruct env as [ra rt rs fs].
  unfold report_user_ids, with_user_id, effects, outcome, final_state, trace,
    same_control.
  run_unfold. cbn -[String.append ATOT_URL].
  repeat (run_case; cbn -[String.append ATOT_URL] in * ).
  all: try discriminate; try (split; [reflexivity | exact I]).
  all: repeat match goal with H : Answer _ = Answer _ |- _ =>
                injection H as <- end.
  all: cbn -[String.append ATOT_URL] in *; try congruence.
Qed.

Lemma step2_user_id_irrelevant a t env r r' w :
  effects (pipeline_step2 (report_user_ids a t env) r' w)
  = effects (pipeline_step2 env r w)
  /\ same_control (outcome (pipeline_step2 (report_user_ids a t env) r' w))
       (outcome (pipeline_step2 env r w)).
Proof.
  destruct w as [sd tb]. destruct env as [ra rt rs fs].
  unfold report_user_ids, with_user_id, effects, outcome, final_state, trace,
    same_control.
  run_unfold. cbn -[String.append TTOT_URL].
  repeat (run_case; cbn -[String.append TTOT_URL] in * ).
  all: try discriminate; try (split; [reflexivity | exact I]).
  all: repeat match goal with H : Answer _ = Answer _ |- _ =>
                injection H as <- end.
  all: cbn -[String.append TTOT_URL] in *; try congruence.
Qed.

Lemma pipeline_step3_effects env r w :
  effects (pipeline_step3 env r w) = step3_effects env w.
Proof.
  unfold step3_effects.
  destruct (is_None (SharedData.ttot_text (shared w))) eqn:Hn.
  { now rewrite step3_no_text. }
  destruct (lookup USER_ID (db w)) as [u|] eqn:Hl.
  2:{ now rewrite step3_no_user. }
  destruct (run_full_pipeline_tts_cases env (SharedData.ttot_text (shared w)))
    as (l & files & E & _).
  unfold pipeline_step3, db_commit, bind, get_shared, query_first, ret,
    run_block, modify, emit.
  rewrite Hn, Hl, E. cbn [shared db app]. rewrite ?app_nil_r. reflexivity.
Qed.

Lemma step3_effects_user_id_irrelevant a t env w :
  step3_effects (report_user_ids a t env) w = step3_effects env w.
Proof. reflexivity. Qed.

Lemma effects_bind {S A B} (m : M S A) (k : A -> M S B) (s : S) :
  effects (bind m k s)
  = match m s with
    | (inl _, s', t) => (s', t)
    | (inr x, s', t) =>
        (fst (effects (k x s')), (t ++ snd (effects (k x s')))%list)
    end.
Proof.
  unfold effects, final_state, trace, bind.
  destruct (m s) as [[[e|x] s'] t]; [reflexivity|].
  destruct (k x s') as [[o s''] t']. reflexivity.
Qed.

(** The user ids that Recognize and Generate report change neither the
    state a run ends in nor what it does to the outside. *)
Lemma run_user_ids_irrelevant a t env w :
  effects (run_full_pipeline (report_user_ids a t env) w)
  = effects (run_full_pipeline env w).
Proof.
  unfold run_full_pipeline. rewrite !effects_bind.
  destruct (step1_user_id_irrelevant a t env Result.init Result.init w)
    as (E1 & C1).
  destruct (pipeline_step1 (report_user_ids a t env) Result.init w)
    as [[o1' w1'] t1'].
  destruct (pipeline_step1 env Result.init w) as [[o1 w1] t1].
  unfold effects, outcome, final_state, trace in E1, C1. cbn in E1, C1.
  injection E1 as -> ->.
  destruct o1' as [?|[r1'|r1']], o1 as [?|[r1|r1]]; try contradiction;
    [reflexivity|].
  rewrite !effects_bind.
  destruct (step2_user_id_irrelevant a t env r1 r1' w1) as (E2 & C2).
  destruct (pipeline_step2 (report_user_ids a t env) r1' w1)
    as [[o2' w2'] t2'].
  destruct (pipeline_step2 env r1 w1) as [[o2 w2] t2].
  unfold effects, outcome, final_state, trace in E2, C2. cbn in E2, C2.
  injection E2 as -> ->.
  destruct o2' as [?|[r2'|r2']], o2 as [?|[r2|r2]]; try contradiction;
    [reflexivity|].
  rewrite !pipeline_step3_effects, step3_effects_user_id_irrelevant.
  reflexivity.
Qed.

Lemma process_audio_effects_eq env w :
  effects (process_audio env w) = process_audio_effects env w.
Proof.
  unfold process_audio_effects.
  destruct (is_None (SharedData.ttot_text (shared w))) eqn:Hn.
  { now rewrite process_audio_no_text. }
  destruct (lookup USER_ID (db w)) as [u|] eqn:Hl.
  2:{ now rewrite process_audio_no_user. }
  destruct (process_audio_tts_cases env (SharedData.ttot_text (shared w)))
    as (l & files & E & _).
  unfold process_audio, db_commit, bind, get_shared, query_first, ret,
    run_block, modify, emit.
  rewrite Hn, Hl, E. cbn [shared db app].
  destruct (tts_success l); cbn [app]; rewrite ?app_nil_r; reflexivity.
Qed.

(** The stored user id of the context has no part in [process_audio]. *)
Lemma process_audio_user_id_irrelevant v env w :
  let w' := mkWorld (SharedData.set_user_id v (shared w)) (db w) in
  db (fst (process_audio_effects env w')) = db (fst (process_audio_effects env w))
  /\ snd (process_audio_effects env w') = snd (process_audio_effects env w).
Proof.
  unfold process_audio_effects. cbn [shared db SharedData.ttot_text
    SharedData.set_user_id].
  destruct (is_None (SharedData.ttot_text (shared w))); [now split|].
  destruct (lookup USER_ID (db w)); [|now split].
  destruct (process_audio_tts env (SharedData.ttot_text (shared w)) tts_init)
    as [[o l] tr].
  split; reflexivity.
Qed.

Lemma files_not_commit files u :
  forallb is_file_write files = true -> ~ In (DbCommit u) files.
Proof.
  induction files as [|ev files IH]; [intros _ []|].
  destruct ev; simpl; try discriminate;
    intros H [E|E]; [discriminate E | now apply IH | discriminate E | now apply IH].
Qed.

Lemma tts_block_touches env w u l t
  (block : remote -> pyval -> M tts_locals unit) :
  (exists files,
     block env (SharedData.ttot_text (shared w)) tts_init
     = (inr tt, l, HttpPost TTS_URL (SharedData.ttot_text (shared w)) :: files)
     /\ forallb is_file_write files = true) ->
  block env (SharedData.ttot_text (shared w)) tts_init = (inr tt, l, t) ->
  lookup USER_ID (db w) = Some u ->
  let u' := append_history (shared w) (output_filename l) u in
  touches_only_fixed_user w
    (mkWorld (shared w) (update u' (db w)), (t ++ [DbCommit u'])%list).
Proof.
  intros (files & E & Ff) E' Hu. cbv zeta. right.
  rewrite E in E'. injection E' as Et. subst t.
  exists u, (append_history (shared w) (output_filename l) u).
  split; [exact Hu|]. split.
  - rewrite append_history_id. now apply lookup_id in Hu.
  - split; [reflexivity|].
    intros v [Hv|Hv]; [discriminate Hv|].
    apply in_app_or in Hv. destruct Hv as [Hv|[Hv|[]]].
    + now apply files_not_commit in Hv.
    + now injection Hv as <-.
Qed.

Lemma step3_touches env w :
  touches_only_fixed_user w (step3_effects env w).
Proof.
  unfold step3_effects.
  destruct (is_None (SharedData.ttot_text (shared w))).
  { left. split; [reflexivity | intros u []]. }
  destruct (lookup USER_ID (db w)) as [u|] eqn:Hl.
  2:{ left. split; [reflexivity | intros u []]. }
  destruct (run_full_pipeline_tts_cases env (SharedData.ttot_text (shared w)))
    as (l & files & E & Ff & _).
  rewrite E.
  apply (tts_block_touches env w u l _ run_full_pipeline_tts); eauto.
Qed.

Lemma process_audio_touches env w :
  touches_only_fixed_user w (process_audio_effects env w).
Proof.
  unfold process_audio_effects.
  destruct (is_None (SharedData.ttot_text (shared w))).
  { left. split; [reflexivity | intros u []]. }
  destruct (lookup USER_ID (db w)) as [u|] eqn:Hl.
  2:{ left. split; [reflexivity | intros u []]. }
  destruct (process_audio_tts_cases env (SharedData.ttot_text (shared w)))
    as (l & files & E & Ff & _).
  rewrite E.
  apply (tts_block_touches env w u l _ process_audio_tts); eauto.
Qed.

Lemma run_touches env w :
  touches_only_fixed_user w (effects (run_full_pipeline env w)).
Proof.
  shape_cases env w; unfold effects, final_state, trace; cbn [fst snd].
  1-4: left; cbn; split; [reflexivity|];
       intros v Hv; cbn in Hv; intuition discriminate.
  right. exists u, (append_history sd2 (output_filename l) u).
  split; [assumption|]. split.
  - rewrite append_history_id. eapply lookup_id; eassumption.
  - split; [reflexivity|].
    intros v Hv. cbn in Hv.
    destruct Hv as [Hv|[Hv|[Hv|Hv]]]; try discriminate Hv.
    apply in_app_or in Hv. destruct Hv as [Hv|[Hv|[]]].
    + match goal with F : tts_facts _ _ _ |- _ => destruct F as (Ff & _) end.
      now apply files_not_commit in Hv.
    + now injection Hv as <-.
Qed.

Lemma touches_other_rows w r uid :
  touches_only_fixed_user w r -> uid <> USER_ID ->
  lookup uid (db (fst r)) = lookup uid (db w).
Proof.
  intros [(-> & _)|(u & u' & _ & Hid & -> & _)] Hne; [reflexivity|].
  apply lookup_update_other. congruence.
Qed.

Lemma touches_ids w r :
  touches_only_fixed_user w r ->
  map UserDB.id (db (fst r)) = map UserDB.id (db w).
Proof.
  intros [(-> & _)|(u & u' & _ & Hid & -> & _)]; [reflexivity|].
  apply update_ids.
Qed.

Lemma touches_commits w r v :
  touches_only_fixed_user w r -> In (DbCommit v) (snd r) -> UserDB.id v = USER_ID.
Proof.
  intros [(_ & Hn)|(u & u' & _ & Hid & _ & Hc)] Hv.
  - now apply Hn in Hv.
  - now rewrite (Hc v Hv).
Qed.

(** The stage endpoints leave the table alone and echo the reported id. *)
Lemma get_atot_table env w :
  db (final_state (get_atot env w)) = db w
  /\ (forall e, ~ In (DbCommit e) (trace (get_atot env w)))
  /\ (forall uid i a,
        outcome (get_atot env w) = inr (AtotDict uid i a) ->
        uid = reported_user_id (atot_server env)).
Proof.
  destruct w as [sd tb]. destruct env as [ra rt rs fs].
  unfold reported_user_id, outcome, final_state, trace.
  run_unfold. cbn -[String.append ATOT_URL].
  repeat (run_case; cbn -[String.append ATOT_URL] in * ).
  all: repeat split; try (intros ? [E|[]]; discriminate E).
  all: intros uid i a E; try discriminate E.
  all: repeat match goal with H : Answer _ = Answer _ |- _ =>
                injection H as <- end.
  all: cbn in *; congruence.
Qed.

Lemma get_ttot_table env w :
  db (final_state (get_ttot env w)) = db w
  /\ (forall e, ~ In (DbCommit e) (trace (get_ttot env w)))
  /\ (forall uid t,
        outcome (get_ttot env w) = inr (TtotDict uid t) ->
        uid = reported_user_id (ttot_server env)).
Proof.
  destruct w as [sd tb]. destruct env as [ra rt rs fs].
  unfold reported_user_id, outcome, final_state, trace.
  run_unfold. cbn -[String.append TTOT_URL].
  repeat (run_case; cbn -[String.append TTOT_URL] in * ).
  all: repeat split; try (intros ? [E|[]]; discriminate E).
  all: intros uid i E; try discriminate E.
  all: repeat match goal with H : Answer _ = Answer _ |- _ =>
                injection H as <- end.
  all: cbn in *; congruence.
Qed.

(** Steps 1 and 2 of the pipeline echo the reported ids too. *)
Lemma pipeline_steps_echo env r w :
  (forall r1 uid i a,
     outcome (pipeline_step1 env r w) = inr (Continue r1) ->
     Result.step1_atot r1 = Some (Result.Atot uid i a) ->
     uid = reported_user_id (atot_server env))
  /\ (forall r2 uid t,
        outcome (pipeline_step2 env r w) = inr (Continue r2) ->
        Result.step2_ttot r2 = Some (Result.Ttot uid t) ->
        uid = reported_user_id (ttot_server env)).
Proof.
  destruct w as [sd tb]. destruct env as [ra rt rs fs].
  unfold reported_user_id, outcome.
  split.
  - run_unfold. cbn -[String.append ATOT_URL].
    repeat (run_case; cbn -[String.append ATOT_URL] in * ).
    all: intros r1 uid i a E1 E2; try discriminate E1.
    all: injection E1 as <-; cbn in E2.
    all: repeat match goal with H : Answer _ = Answer _ |- _ =>
                  injection H as <- end.
    all: cbn in *; congruence.
  - run_unfold. cbn -[String.append TTOT_URL].
    repeat (run_case; cbn -[String.append TTOT_URL] in * ).
    all: intros r1 uid i E1 E2; try discriminate E1.
    all: injection E1 as <-; cbn in E2.
    all: repeat match goal with H : Answer _ = Answer _ |- _ =>
                  injection H as <- end.
    all: cbn in *; congruence.
Qed.

(** The handler as its three steps. *)
Lemma run_full_pipeline_unfold env w :
  run_full_pipeline env w
  = match pipeline_step1 env Result.init w with
    | (inl e, w1, t1) => (inl e, w1, t1)
    | (inr (Return r), w1, t1) => (inr r, w1, (t1 ++ [])%list)
    | (inr (Continue r1), w1, t1) =>
        match pipeline_step2 env r1 w1 with
        | (inl e, w2, t2) => (inl e, w2, (t1 ++ t2)%list)
        | (inr (Return r), w2, t2) => (inr r, w2, (t1 ++ (t2 ++ []))%list)
        | (inr (Continue r2), w2, t2) =>
            match pipeline_step3 env r2 w2 with
            | (o, w3, t3) => (o, w3, (t1 ++ (t2 ++ t3))%list)
            end
        end
    end.
Proof.
  unfold run_full_pipeline, bind, ret.
  destruct (pipeline_step1 env Result.init w) as [[[e|[r|r1]] w1] t1];
    try reflexivity.
  destruct (pipeline_step2 env r1 w1) as [[[e|[r|r2]] w2] t2]; try reflexivity.
  destruct (pipeline_step3 env r2 w2) as [[o w3] t3]. reflexivity.
Qed.

(** On a well-formed answer the stage endpoints succeed and echo the
    reported id. *)
Lemma get_atot_well_formed env w :
  atot_well_formed (atot_server env) = true ->
  get_atot env w
  = (inr (AtotDict (reported_user_id (atot_server env))
            (atot_field "audio_url" (atot_server env))
            (atot_field "received_text" (atot_server env))),
     mkWorld (SharedData.mk (reported_user_id (atot_server env))
                (atot_field "audio_url" (atot_server env))
                (atot_field "received_text" (atot_server env))
                (SharedData.ttot_text (shared w))) (db w),
     [HttpGet ATOT_URL]).
Proof.
  destruct w as [sd tb]. destruct env as [ra rt rs fs].
  unfold atot_well_formed, atot_field, reported_user_id, field.
  cbn [atot_server shared db].
  run_unfold. cbn -[String.append ATOT_URL].
  repeat (run_case; cbn -[String.append ATOT_URL] in * ).
  all: intros E; try discriminate E; reflexivity.
Qed.

Lemma get_ttot_well_formed env w :
  ttot_well_formed (ttot_server env) = true ->
  get_ttot env w
  = (inr (TtotDict (reported_user_id (ttot_server env))
            (ttot_response (ttot_server env))),
     mkWorld (SharedData.set_ttot_text (ttot_response (ttot_server env))
                (shared w)) (db w),
     [HttpGet TTOT_URL]).
Proof.
  destruct w as [sd tb]. destruct env as [ra rt rs fs].
  unfold ttot_well_formed, ttot_response, reported_user_id, field.
  cbn [ttot_server shared db].
  run_unfold. cbn -[String.append TTOT_URL].
  repeat (run_case; cbn -[String.append TTOT_URL] in * ).
  all: intros E; try discriminate E; reflexivity.
Qed.

Lemma step1_well_formed env r w :
  atot_well_formed (atot_server env) = true ->
  printable (atot_field "received_text" (atot_server env)) = true ->
  pipeline_step1 env r w
  = (inr (Continue
            (Result.set_step1
               (Result.Atot (reported_user_id (atot_server env))
                  (atot_field "audio_url" (atot_server env))
                  (atot_field "received_text" (atot_server env))) r)),
     mkWorld (SharedData.set_input_wav (atot_field "audio_url" (atot_server env))
                (SharedData.set_atot_text
                   (atot_field "received_text" (atot_server env)) (shared w)))
       (db w),
     [HttpGet ATOT_URL]).
Proof.
  destruct w as [sd tb]. destruct env as [ra rt rs fs].
  unfold atot_well_formed, atot_field, reported_user_id, field.
  cbn [atot_server shared db].
  run_unfold. cbn -[String.append ATOT_URL].
  repeat (run_case; cbn -[String.append ATOT_URL] in * ).
  all: intros E P; try discriminate E; try discriminate P; try reflexivity.
  all: cbn in *; congruence.
Qed.

Lemma step2_well_formed env r w :
  ttot_well_formed (ttot_server env) = true ->
  printable (ttot_response (ttot_server env)) = true ->
  pipeline_step2 env r w
  = (inr (Continue
            (Result.set_step2
               (Result.Ttot (reported_user_id (ttot_server env))
                  (ttot_response (ttot_server env))) r)),
     mkWorld (SharedData.set_ttot_text (ttot_response (ttot_server env))
                (shared w)) (db w),
     [HttpGet TTOT_URL]).
Proof.
  destruct w as [sd tb]. destruct env as [ra rt rs fs].
  unfold ttot_well_formed, ttot_response, reported_user_id, field.
  cbn [ttot_server shared db].
  run_unfold. cbn -[String.append TTOT_URL].
  repeat (run_case; cbn -[String.append TTOT_URL] in * ).
  all: intros E P; try discriminate E; try discriminate P; try reflexivity.
  all: cbn in *; congruence.
Qed.

(** Step 3 never raises and keeps the entries of steps 1 and 2. *)
Lemma step3_keeps_steps env r w :
  exists res w' t,
    pipeline_step3 env r w = (inr res, w', t)
    /\ Result.step1_atot res = Result.step1_atot r
    /\ Result.step2_ttot res = Result.step2_ttot r.
Proof.
  destruct (is_None (SharedData.ttot_text (shared w))) eqn:Hn.
  { rewrite step3_no_text by exact Hn. eexists _, _, _. repeat split. }
  destruct (lookup USER_ID (db w)) as [u|] eqn:Hl.
  2:{ rewrite step3_no_user by assumption. eexists _, _, _. repeat split. }
  destruct (step3_persist env r w u Hn Hl) as (l & files & _ & E).
  cbv zeta in E. rewrite E. eexists _, _, _. repeat split.
Qed.

(** The ids in the result of the handler are the reported ones. *)
Lemma run_echo env w res :
  outcome (run_full_pipeline env w) = inr res ->
  (forall x i a, Result.step1_atot res = Some (Result.Atot x i a) ->
                 x = reported_user_id (atot_server env))
  /\ (forall x t, Result.step2_ttot res = Some (Result.Ttot x t) ->
                  x = reported_user_id (ttot_server env)).
Proof.
  rewrite run_full_pipeline_unfold.
  destruct (pipeline_steps_echo env Result.init w) as (Echo1 & _).
  destruct (step1_cases env Result.init w) as (c1 & sd1 & E1 & _ & _ & H1).
  rewrite E1 in *. unfold outcome in Echo1. cbn [fst] in Echo1.
  destruct c1 as [r1|r1].
  { destruct H1 as (_ & msg & -> & _). unfold outcome. cbn [fst].
    intros [= <-]. split; intros; discriminate. }
  clear H1. specialize (Echo1 r1).
  destruct (pipeline_steps_echo env r1 (mkWorld sd1 (db w))) as (_ & Echo2).
  destruct (step2_cases env r1 (mkWorld sd1 (db w)))
    as (c2 & sd2 & E2 & _ & _ & _ & H2).
  rewrite E2 in *. unfold outcome in Echo2. cbn [fst] in Echo2.
  destruct c2 as [r2|r2].
  { destruct H2 as (_ & msg & -> & _). unfold outcome. cbn [fst].
    intros [= <-]. cbn. split.
    - intros x i a H. now apply (Echo1 x i a).
    - intros; discriminate. }
  destruct H2 as (_ & uid2 & ->). specialize (Echo2 _ uid2 _ eq_refl eq_refl).
  destruct (step3_keeps_steps env
              (Result.set_step2 (Result.Ttot uid2 (SharedData.ttot_text sd2)) r1)
              (mkWorld sd2 (db w)))
    as (res' & w' & t & E3 & K1 & K2).
  cbn [db]. rewrite E3. unfold outcome. cbn [fst]. intros [= <-].
  rewrite K1, K2. cbn. split.
  - intros x i a H. now apply (Echo1 x i a).
  - intros x t' [= <- _]. exact Echo2.
Qed.

(** On well-formed answers whose texts can be printed the handler
    reports steps 1 and 2 with the reported ids. *)
Lemma run_reports_ids env w :
  atot_well_formed (atot_server env) = true ->
  printable (atot_field "received_text" (atot_server env)) = true ->
  exists res,
    outcome (run_full_pipeline env w) = inr res
    /\ Result.step1_atot res
       = Some (Result.Atot (reported_user_id (atot_server env))
                 (atot_field "audio_url" (atot_server env))
                 (atot_field "received_text" (atot_server env)))
    /\ (ttot_well_formed (ttot_server env) = true ->
        printable (ttot_response (ttot_server env)) = true ->
        Result.step2_ttot res
        = Some (Result.Ttot (reported_user_id (ttot_server env))
                  (ttot_response (ttot_server env)))).
Proof.
  intros Ha Pa. rewrite run_full_pipeline_unfold.
  rewrite (step1_well_formed env Result.init w Ha Pa).
  match goal with |- context [pipeline_step2 env ?r ?w'] =>
    set (r1 := r); set (w1 := w') end.
  destruct (step2_cases env r1 w1) as (c2 & sd2 & E2 & _ & _ & _ & H2).
  destruct (ttot_well_formed (ttot_server env)) eqn:Ht;
    [destruct (printable (ttot_response (ttot_server env))) eqn:Pt|].
  - rewrite (step2_well_formed env r1 w1 Ht Pt).
    match goal with |- context [pipeline_step3 env ?r ?w2] =>
      destruct (step3_keeps_steps env r w2) as (res' & w' & t & E3 & K1 & K2)
    end.
    rewrite E3. exists res'. unfold outcome. cbn [fst].
    split; [reflexivity|]. rewrite K1, K2. split; [reflexivity|].
    intros _ _. reflexivity.
  - rewrite E2. destruct c2 as [r2|r2].
    + destruct H2 as (_ & msg & -> & _). eexists. unfold outcome. cbn [fst].
      split; [reflexivity|]. split; [reflexivity|]. intros _ H; discriminate H.
    + destruct H2 as (_ & uid2 & ->).
      match goal with |- context [pipeline_step3 env ?r ?w2] =>
        destruct (step3_keeps_steps env r w2) as (res' & w' & t & E3 & K1 & K2)
      end.
      rewrite E3. exists res'. unfold outcome. cbn [fst].
      split; [reflexivity|]. rewrite K1. split; [reflexivity|].
      intros _ H; discriminate H.
  - rewrite E2. destruct c2 as [r2|r2].
    + destruct H2 as (_ & msg & -> & _). eexists. unfold outcome. cbn [fst].
      split; [reflexivity|]. split; [reflexivity|]. intros H; discriminate H.
    + destruct H2 as (_ & uid2 & ->).
      match goal with |- context [pipeline_step3 env ?r ?w2] =>
        destruct (step3_keeps_steps env r w2) as (res' & w' & t & E3 & K1 & K2)
      end.
      rewrite E3. exists res'. unfold outcome. cbn [fst].
      split; [reflexivity|]. rewrite K1. split; [reflexivity|].
      intros H; discriminate H.
Qed.

(** C10.  Every commit made by a pipeline entry point is of the row of
    the fixed user (id 10): rows of other ids, and the set of ids, are as
    before, and the two stage endpoints write nothing.  The user ids that
    the Recognize and Generate answers report have no influence on the
    state and the effects of a run, and they are echoed: on a well-formed
    answer the stage endpoints return the reported id (and [GET /atot]
    stores it in [SharedData.user_id]), and every step entry of the result
    of the full pipeline that reports a success carries the reported id,
    as it does whenever the answers are well formed and their texts can be
    printed. *)
Theorem appends_target_fixed_user env w :
  USER_ID = 10
  /\ (forall uid, uid <> USER_ID ->
        lookup uid (db (final_state (run_full_pipeline env w))) = lookup uid (db w)
        /\ lookup uid (db (final_state (process_audio env w))) = lookup uid (db w))
  /\ (forall v,
        In (DbCommit v) (trace (run_full_pipeline env w))
        \/ In (DbCommit v) (trace (process_audio env w))
        \/ In (DbCommit v) (trace (get_atot env w))
        \/ In (DbCommit v) (trace (get_ttot env w)) ->
        UserDB.id v = USER_ID)
  /\ map UserDB.id (db (final_state (run_full_pipeline env w)))
     = map UserDB.id (db w)
  /\ map UserDB.id (db (final_state (process_audio env w))) = map UserDB.id (db w)
  /\ db (final_state (get_atot env w)) = db w
  /\ db (final_state (get_ttot env w)) = db w
  /\ (forall a t,
        final_state (run_full_pipeline (report_user_ids a t env) w)
        = final_state (run_full_pipeline env w)
        /\ trace (run_full_pipeline (report_user_ids a t env) w)
           = trace (run_full_pipeline env w))
  /\ (forall v,
        let w' := mkWorld (SharedData.set_user_id v (shared w)) (db w) in
        db (final_state (process_audio env w')) = db (final_state (process_audio env w))
        /\ trace (process_audio env w') = trace (process_audio env w))
  /\ (forall uid i a,
        outcome (get_atot env w) = inr (AtotDict uid i a) ->
        uid = reported_user_id (atot_server env))
  /\ (forall uid t,
        outcome (get_ttot env w) = inr (TtotDict uid t) ->
        uid = reported_user_id (ttot_server env))
  /\ (forall r r1 uid i a,
        outcome (pipeline_step1 env r w) = inr (Continue r1) ->
        Result.step1_atot r1 = Some (Result.Atot uid i a) ->
        uid = reported_user_id (atot_server env))
  /\ (forall r r2 uid t,
        outcome (pipeline_step2 env r w) = inr (Continue r2) ->
        Result.step2_ttot r2 = Some (Result.Ttot uid t) ->
        uid = reported_user_id (ttot_server env))
  /\ (atot_well_formed (atot_server env) = true ->
      get_atot env w
      = (inr (AtotDict (reported_user_id (atot_server env))
                (atot_field "audio_url" (atot_server env))
                (atot_field "received_text" (atot_server env))),
         mkWorld (SharedData.mk (reported_user_id (atot_server env))
                    (atot_field "audio_url" (atot_server env))
                    (atot_field "received_text" (atot_server env))
                    (SharedData.ttot_text (shared w))) (db w),
         [HttpGet ATOT_URL]))
  /\ (ttot_well_formed (ttot_server env) = true ->
      get_ttot env w
      = (inr (TtotDict (reported_user_id (ttot_server env))
                (ttot_response (ttot_server env))),
         mkWorld (SharedData.set_ttot_text (ttot_response (ttot_server env))
                    (shared w)) (db w),
         [HttpGet TTOT_URL]))
  /\ (forall res,
        outcome (run_full_pipeline env w) = inr res ->
        (forall x i a, Result.step1_atot res = Some (Result.Atot x i a) ->
                       x = reported_user_id (atot_server env))
        /\ (forall x t, Result.step2_ttot res = Some (Result.Ttot x t) ->
                        x = reported_user_id (ttot_server env)))
  /\ (atot_well_formed (atot_server env) = true ->
      printable (atot_field "received_text" (atot_server env)) = true ->
      exists res,
        outcome (run_full_pipeline env w) = inr res
        /\ Result.step1_atot res
           = Some (Result.Atot (reported_user_id (atot_server env))
                     (atot_field "audio_url" (atot_server env))
                     (atot_field "received_text" (atot_server env)))
        /\ (ttot_well_formed (ttot_server env) = true ->
            printable (ttot_response (ttot_server env)) = true ->
            Result.step2_ttot res
            = Some (Result.Ttot (reported_user_id (ttot_server env))
                      (ttot_response (ttot_server env))))).
Proof.
  pose proof (run_touches env w) as Hr.
  pose proof (process_audio_touches env w) as Hp.
  rewrite <- process_audio_effects_eq in Hp.
  destruct (get_atot_table env w) as (Ha1 & Ha2 & Ha3).
  destruct (get_ttot_table env w) as (Ht1 & Ht2 & Ht3).
  split; [reflexivity|]. split.
  { intros uid Hne. split.
    - exact (touches_other_rows w _ uid Hr Hne).
    - exact (touches_other_rows w _ uid Hp Hne). }
  split.
  { intros v [Hv|[Hv|[Hv|Hv]]].
    - exact (touches_commits w _ v Hr Hv).
    - exact (touches_commits w _ v Hp Hv).
    - now apply Ha2 in Hv.
    - now apply Ht2 in Hv. }
  split; [exact (touches_ids w _ Hr)|].
  split; [exact (touches_ids w _ Hp)|].
  split; [exact Ha1|]. split; [exact Ht1|]. split.
  { intros a t. pose proof (run_user_ids_irrelevant a t env w) as E.
    unfold effects in E. injection E as E1 E2. now split. }
  split.
  { intros v. cbv zeta.
    pose proof (process_audio_user_id_irrelevant v env w) as E. cbv zeta in E.
    rewrite <- !process_audio_effects_eq in E. exact E. }
  split; [exact Ha3|]. split; [exact Ht3|].
  split; [intros r; apply (pipeline_steps_echo env r w)|].
  split; [intros r; apply (pipeline_steps_echo env r w)|].
  split; [exact (get_atot_well_formed env w)|].
  split; [exact (get_ttot_well_formed env w)|].
  split; [exact (run_echo env w)|].
  exact (run_reports_ids env w).
Qed.

Lemma appends_target_fixed_user_witness :
  exists res,
    outcome (run_full_pipeline Sample.env_ok Sample.w0) = inr res
    /\ Result.step1_atot res
       = Some (Result.Atot (PInt 7) (PStr "a.wav") (PStr "hello"))
    /\ Result.step2_ttot res = Some (Result.Ttot (PInt 7) (PStr "hi there"))
    /\ UserDB.id
         (match lookup USER_ID
                  (db (final_state (run_full_pipeline Sample.env_ok Sample.w0)))
          with Some u => u | None => Sample.empty_user 0 end) = 10.
Proof.
  destruct (appends_target_fixed_user Sample.env_ok Sample.w0)
    as (_ & _ & _ & _ & _ & _ & _ & _ & _ & _ & _ & _ & _ & _ & _ & _ & H).
  destruct (H eq_refl eq_refl) as (res & Ho & H1 & H2).
  exists res. split; [exact Ho|]. split; [exact H1|].
  split; [exact (H2 eq_refl eq_refl) | reflexivity].
Defined.

(** * Further properties of the handlers *)

(** ** The stage endpoints *)

(** X1.  [GET /atot] on a 2xx answer whose body is an object with an
    object under [result.details]: the reported user id, the received text
    and the audio url (null for a key that is missing) are stored in the
    shared context and returned; the generated text of the context and the
    table stay as they were, and the service is called once. *)
Theorem get_atot_stores_fields env w code msg kvs rk dk :
  atot_server env = Answer (mkResponse code msg (Json (PDict kvs))) ->
  is_success code = true ->
  assoc "result" kvs = Some (PDict rk) ->
  assoc "details" rk = Some (PDict dk) ->
  get_atot env w
  = (inr (AtotDict (field "user_id" kvs) (field "audio_url" dk)
            (field "received_text" dk)),
     mkWorld (SharedData.mk (field "user_id" kvs) (field "audio_url" dk)
                (field "received_text" dk) (SharedData.ttot_text (shared w)))
       (db w),
     [HttpGet ATOT_URL]).
Proof.
  intros Ha Hs Hr Hd. destruct w as [sd tb].
  run_unfold. rewrite Ha. cbn -[String.append ATOT_URL]. rewrite Hs.
  cbn -[String.append ATOT_URL]. rewrite Hr.
  cbn -[String.append ATOT_URL]. rewrite Hd.
  reflexivity.
Qed.

Lemma get_atot_stores_fields_witness :
  shared (final_state (get_atot Sample.env_ok Sample.w0))
  = SharedData.mk (PInt 7) (PStr "a.wav") (PStr "hello") PNone.
Proof.
  rewrite (get_atot_stores_fields Sample.env_ok Sample.w0 200 "OK" _ _ _
             eq_refl eq_refl eq_refl eq_refl).
  reflexivity.
Defined.

(** X2.  When the call of a stage endpoint fails, the answer is an error
    dict and nothing changes: a transport error is reported as "cannot
    connect", a status outside 2xx falls to the catch-all and is reported
    as an "unknown error". *)
Theorem stage_call_failure env w e :
  (failure_of (atot_server env) = Some e ->
   get_atot env w
   = (inr (ErrorDict
             ((if is_RequestError e then "atot 서버에 연결할 수 없습니다: "
               else "알 수 없는 오류: ") ++ str_exn e)),
      w, [HttpGet ATOT_URL]))
  /\ (failure_of (ttot_server env) = Some e ->
      get_ttot env w
      = (inr (ErrorDict
                ((if is_RequestError e then "ttot 서버에 연결할 수 없습니다: "
                  else "알 수 없는 오류: ") ++ str_exn e)),
         w, [HttpGet TTOT_URL])).
Proof.
  split; intros Hf; unfold failure_of in Hf.
  - run_unfold. destruct (atot_server env) as [e'|resp].
    + injection Hf as ->. cbn -[String.append ATOT_URL].
      now destruct (is_RequestError e).
    + cbn -[String.append ATOT_URL].
      destruct (is_success (status_code resp)); [discriminate|].
      injection Hf as <-. reflexivity.
  - run_unfold. destruct (ttot_server env) as [e'|resp].
    + injection Hf as ->. cbn -[String.append TTOT_URL].
      now destruct (is_RequestError e).
    + cbn -[String.append TTOT_URL].
      destruct (is_success (status_code resp)); [discriminate|].
      injection Hf as <-. reflexivity.
Qed.

Lemma stage_call_failure_witness :
  get_atot Sample.env_timeout Sample.w0
  = (inr (ErrorDict ("atot 서버에 연결할 수 없습니다: " ++ "timed out")),
     Sample.w0, [HttpGet ATOT_URL]).
Proof.
  exact (proj1 (stage_call_failure Sample.env_timeout Sample.w0
                  (RequestError "timed out")) eq_refl).
Defined.

(** X3.  [GET /atot] on a 2xx object body whose ["result"] is not an
    object (null, say): the lookup of the nested fields raises, the answer
    is the "unknown error" dict, and the user id of the context has already
    been overwritten with the reported one while the audio reference and
    the texts keep their old values.  Step 1 of the full pipeline, which
    stores no user id, leaves the whole state as it was on the same
    answer. *)
Theorem get_atot_partial_update env w code msg kvs v r :
  atot_server env = Answer (mkResponse code msg (Json (PDict kvs))) ->
  is_success code = true ->
  assoc "result" kvs = Some v ->
  not_dict v = true ->
  get_atot env w
  = (inr (ErrorDict ("알 수 없는 오류: " ++ "'" ++ type_name v
                       ++ "' object has no attribute 'get'")),
     mkWorld (SharedData.set_user_id (field "user_id" kvs) (shared w)) (db w),
     [HttpGet ATOT_URL])
  /\ final_state (pipeline_step1 env r w) = w
  /\ exists res, outcome (pipeline_step1 env r w) = inr (Return res).
Proof.
  intros Ha Hs Hr Hv. destruct w as [sd tb].
  unfold final_state, outcome.
  run_unfold. rewrite Ha. cbn -[String.append ATOT_URL]. rewrite Hs.
  cbn -[String.append ATOT_URL]. rewrite Hr.
  destruct v; try discriminate Hv; cbn -[String.append ATOT_URL];
    (split; [reflexivity|]); (split; [reflexivity|]); eexists; reflexivity.
Qed.

Lemma get_atot_partial_update_witness :
  SharedData.user_id (shared (final_state (get_atot Sample6.env Sample.w0)))
  = PNone
  /\ exists msg, outcome (get_atot Sample6.env Sample.w0) = inr (ErrorDict msg).
Proof.
  rewrite (proj1 (get_atot_partial_update Sample6.env Sample.w0 200 "OK" _
                    PNone Result.init eq_refl eq_refl eq_refl eq_refl)).
  split; [reflexivity|]. eexists. reflexivity.
Defined.

(** X4.  [GET /ttot] on a 2xx object body stores the value under
    ["response"] as the generated text of the context, null when the key is
    missing (a text stored before is lost), and returns it with the
    reported user id; the rest of the context and the table stay. *)
Theorem get_ttot_stores_response env w code msg kvs :
  ttot_server env = Answer (mkResponse code msg (Json (PDict kvs))) ->
  is_success code = true ->
  get_ttot env w
  = (inr (TtotDict (field "user_id" kvs) (field "response" kvs)),
     mkWorld (SharedData.set_ttot_text (field "response" kvs) (shared w)) (db w),
     [HttpGet TTOT_URL]).
Proof.
  intros Ha Hs. destruct w as [sd tb].
  run_unfold. rewrite Ha. cbn -[String.append TTOT_URL]. rewrite Hs.
  reflexivity.
Qed.

Lemma get_ttot_stores_response_witness :
  SharedData.ttot_text (shared (final_state (get_ttot Sample4.env Sample.w0)))
  = PNone.
Proof.
  rewrite (get_ttot_stores_response Sample4.env Sample.w0 200 "OK" _
             eq_refl eq_refl).
  reflexivity.
Defined.

(** X5.  [GET /ttot] is all or nothing: whenever it answers with an
    error dict, for whatever reason (transport, status, a body that is not
    JSON or not an object), context and table are exactly as before; and
    [GET /atot] never changes the generated text or the table. *)
Theorem stage_endpoints_frame env w :
  (forall msg, outcome (get_ttot env w) = inr (ErrorDict msg) ->
               final_state (get_ttot env w) = w)
  /\ SharedData.input_wav (shared (final_state (get_ttot env w)))
     = SharedData.input_wav (shared w)
  /\ SharedData.atot_text (shared (final_state (get_ttot env w)))
     = SharedData.atot_text (shared w)
  /\ SharedData.user_id (shared (final_state (get_ttot env w)))
     = SharedData.user_id (shared w)
  /\ SharedData.ttot_text (shared (final_state (get_atot env w)))
     = SharedData.ttot_text (shared w)
  /\ trace (get_ttot env w) = [HttpGet TTOT_URL]
  /\ trace (get_atot env w) = [HttpGet ATOT_URL].
Proof.
  destruct w as [sd tb]. destruct env as [ra rt rs fs].
  unfold outcome, final_state, trace.
  run_unfold. cbn -[String.append TTOT_URL ATOT_URL].
  repeat (run_case; cbn -[String.append TTOT_URL ATOT_URL] in * ).
  all: repeat split; try reflexivity.
  all: intros m E; try discriminate E; reflexivity.
Qed.

(** X6.  A 2xx Generate answer without ["response"] makes [GET /ttot]
    report a success with a null text, and a [POST /process-audio] that
    follows is refused: it answers with the error dict, calls nothing and
    appends nothing. *)
Theorem missing_response_blocks_process_audio env env' w code msg kvs :
  ttot_server env = Answer (mkResponse code msg (Json (PDict kvs))) ->
  is_success code = true ->
  assoc "response" kvs = None ->
  let w1 := mkWorld (SharedData.set_ttot_text PNone (shared w)) (db w) in
  get_ttot env w = (inr (TtotDict (field "user_id" kvs) PNone), w1, [HttpGet TTOT_URL])
  /\ process_audio env' w1
     = (inr (AudioError "ttot_text가 없습니다. 먼저 /ttot을 호출하세요"), w1, [])
  /\ serve_all [(GET_ttot, env); (POST_process_audio, env')] w
     = (w1, [HttpGet TTOT_URL]).
Proof.
  intros Ha Hs Hr. cbv zeta.
  assert (E : get_ttot env w
              = (inr (TtotDict (field "user_id" kvs) PNone),
                 mkWorld (SharedData.set_ttot_text PNone (shared w)) (db w),
                 [HttpGet TTOT_URL])).
  { destruct w as [sd tb].
    run_unfold. rewrite Ha. cbn -[String.append TTOT_URL]. rewrite Hs.
    cbn -[String.append TTOT_URL]. unfold field. rewrite Hr. reflexivity. }
  split; [exact E|].
  assert (P : process_audio env'
                (mkWorld (SharedData.set_ttot_text PNone (shared w)) (db w))
              = (inr (AudioError "ttot_text가 없습니다. 먼저 /ttot을 호출하세요"),
                 mkWorld (SharedData.set_ttot_text PNone (shared w)) (db w), []))
    by (now apply process_audio_no_text).
  split; [exact P|].
  unfold serve_all, serve, effects, final_state, trace.
  rewrite E. cbn [fst snd]. rewrite P. reflexivity.
Qed.

Lemma missing_response_blocks_process_audio_witness :
  serve_all [(GET_ttot, Sample4.env); (POST_process_audio, Sample.env_ok)]
    Sample.w0
  = (mkWorld (SharedData.set_ttot_text PNone (shared Sample.w0)) (db Sample.w0),
     [HttpGet TTOT_URL]).
Proof.
  exact (proj2 (proj2 (missing_response_blocks_process_audio
                         Sample4.env Sample.env_ok Sample.w0 200 "OK" _
                         eq_refl eq_refl eq_refl))).
Defined.

(** ** The audio file *)

Lemma tts_blocks_result env text :
  (exists l files,
     run_full_pipeline_tts env text tts_init
     = (inr tt, l, HttpPost TTS_URL text :: files)
     /\ tts_block_result env l files)
  /\ (exists l files,
        process_audio_tts env text tts_init
        = (inr tt, l, HttpPost TTS_URL text :: files)
        /\ tts_block_result env l files).
Proof.
  unfold tts_block_result. run_unfold. unfold tts_init.
  cbn -[String.append TTS_URL].
  split.
  all: repeat (run_case; cbn -[String.append TTS_URL] in * ).
  all: try discriminate.
  all: try (eexists _, _; (split; [reflexivity|]); cbn -[String.append];
            repeat split; reflexivity).
  all: destruct (content _); cbn in *; try discriminate;
       try (eexists _, _; (split; [reflexivity|]); cbn -[String.append];
            repeat split; reflexivity).
Qed.

Lemma process_audio_run env w u l t :
  is_None (SharedData.ttot_text (shared w)) = false ->
  lookup USER_ID (db w) = Some u ->
  process_audio_tts env (SharedData.ttot_text (shared w)) tts_init = (inr tt, l, t) ->
  let sd := shared w in
  let u' := append_history sd (output_filename l) u in
  process_audio env w
  = (inr (AudioDone (UserDB.id u') (SharedData.input_wav sd)
            (SharedData.atot_text sd) (SharedData.ttot_text sd)
            (output_filename l) (UserDB.output_wav_list u') (tts_success l)
            (if tts_success l
             then "✅ 성공! TTS 오디오를 '" ++ str_name (output_filename l)
                  ++ "'로 저장했습니다."
             else "⚠️ 데이터는 저장했지만 TTS 생성 실패")
            (if tts_success l then None else tts_error l)),
     mkWorld sd (update u' (db w)), (t ++ [DbCommit u'])%list).
Proof.
  intros H1 H2 E. cbv zeta.
  unfold process_audio, db_commit, bind, get_shared, query_first, ret,
    run_block, modify, emit.
  rewrite H1, H2, E. cbn [shared db app].
  destruct (tts_success l); cbn [app]; rewrite ?app_nil_r; reflexivity.
Qed.

Lemma pipeline_step3_run env r w u l t :
  is_None (SharedData.ttot_text (shared w)) = false ->
  lookup USER_ID (db w) = Some u ->
  run_full_pipeline_tts env (SharedData.ttot_text (shared w)) tts_init
  = (inr tt, l, t) ->
  let sd := shared w in
  let u' := append_history sd (output_filename l) u in
  pipeline_step3 env r w
  = (inr (Result.finish USER_ID
            (Result.mkFinal (SharedData.input_wav sd) (SharedData.atot_text sd)
               (SharedData.ttot_text sd) (output_filename l))
            (Result.set_step3
               (Result.Tts (tts_success l) (output_filename l) (tts_error l)) r)),
     mkWorld sd (update u' (db w)), (t ++ [DbCommit u'])%list).
Proof.
  intros H1 H2 E. cbv zeta.
  unfold pipeline_step3, db_commit, bind, get_shared, query_first, ret,
    run_block, modify, emit.
  rewrite H1, H2, E. cbn [shared db app]. rewrite ?app_nil_r. reflexivity.
Qed.

(** X7.  Synthesize succeeds and the file can be written: with a text in
    the context and the row of the fixed user present, [/process-audio]
    and step 3 of the pipeline post the text once, write the body of the
    answer to "received_audio.wav", and then commit the row with that name
    as output reference; the answer reports the success. *)
Theorem audio_written_then_committed env w u resp r :
  is_None (SharedData.ttot_text (shared w)) = false ->
  lookup USER_ID (db w) = Some u ->
  tts_server env = Answer resp ->
  is_success (status_code resp) = true ->
  bytes_truthy (content resp) = true ->
  file_system env = None ->
  let sd := shared w in
  let u' := append_history sd (Some "received_audio.wav") u in
  let t := [HttpPost TTS_URL (SharedData.ttot_text sd);
            FileWrite "received_audio.wav" (content resp); DbCommit u'] in
  process_audio env w
  = (inr (AudioDone USER_ID (SharedData.input_wav sd) (SharedData.atot_text sd)
            (SharedData.ttot_text sd) (Some "received_audio.wav")
            (Some (or_empty (UserDB.output_wav_list u)
                     ++ [PStr "received_audio.wav"])%list)
            true
            "✅ 성공! TTS 오디오를 'received_audio.wav'로 저장했습니다." None),
     mkWorld sd (update u' (db w)), t)
  /\ pipeline_step3 env r w
     = (inr (Result.finish USER_ID
               (Result.mkFinal (SharedData.input_wav sd) (SharedData.atot_text sd)
                  (SharedData.ttot_text sd) (Some "received_audio.wav"))
               (Result.set_step3
                  (Result.Tts true (Some "received_audio.wav") None) r)),
        mkWorld sd (update u' (db w)), t).
Proof.
  intros Hn Hu Ht Hs Hb Hf. cbv zeta.
  destruct (tts_blocks_result env (SharedData.ttot_text (shared w)))
    as ((l & files & E & R) & (l' & files' & E' & R')).
  unfold tts_block_result in R, R'. rewrite Ht, Hs, Hb, Hf in R, R'.
  cbn in R, R'.
  destruct R as (Ho & Hok & He & ->). destruct R' as (Ho' & Hok' & He' & ->).
  split.
  - rewrite (process_audio_run env w u l' _ Hn Hu E').
    rewrite Ho', Hok'. cbn. rewrite (lookup_id _ _ _ Hu). reflexivity.
  - rewrite (pipeline_step3_run env r w u l _ Hn Hu E).
    rewrite Ho, Hok, He. reflexivity.
Qed.

(** X8.  Synthesize answers with audio but storing it raises: the run is
    not aborted.  The failure is reported ([tts_success] false, error
    "TTS 오류: ..." with the message of the exception), and the row is
    committed all the same, with the file name as output reference, since
    the name was assigned before the file was opened.  When [open] itself
    fails the file is not touched; when the write fails after [open] the
    file has been truncated, and does not hold the audio. *)
Theorem write_failure_still_persists env w u resp e r :
  is_None (SharedData.ttot_text (shared w)) = false ->
  lookup USER_ID (db w) = Some u ->
  tts_server env = Answer resp ->
  is_success (status_code resp) = true ->
  bytes_truthy (content resp) = true ->
  file_system env = Some e ->
  let sd := shared w in
  let u' := append_history sd (Some "received_audio.wav") u in
  let t := (HttpPost TTS_URL (SharedData.ttot_text sd)
            :: fs_effects e "received_audio.wav" ++ [DbCommit u'])%list in
  process_audio env w
  = (inr (AudioDone USER_ID (SharedData.input_wav sd) (SharedData.atot_text sd)
            (SharedData.ttot_text sd) (Some "received_audio.wav")
            (Some (or_empty (UserDB.output_wav_list u)
                     ++ [PStr "received_audio.wav"])%list)
            false "⚠️ 데이터는 저장했지만 TTS 생성 실패"
            (Some ("TTS 오류: " ++ fs_message e))),
     mkWorld sd (update u' (db w)), t)
  /\ pipeline_step3 env r w
     = (inr (Result.finish USER_ID
               (Result.mkFinal (SharedData.input_wav sd) (SharedData.atot_text sd)
                  (SharedData.ttot_text sd) (Some "received_audio.wav"))
               (Result.set_step3
                  (Result.Tts false (Some "received_audio.wav")
                     (Some ("TTS 오류: " ++ fs_message e))) r)),
        mkWorld sd (update u' (db w)), t)
  /\ (forall data, ~ In (FileWrite "received_audio.wav" data) t)
  /\ (In (FileTruncate "received_audio.wav") t
      <-> exists m, e = WriteFails m).
Proof.
  intros Hn Hu Ht Hs Hb Hf. cbv zeta.
  destruct (tts_blocks_result env (SharedData.ttot_text (shared w)))
    as ((l & files & E & R) & (l' & files' & E' & R')).
  unfold tts_block_result in R, R'. rewrite Ht, Hs, Hb, Hf in R, R'.
  cbn -[String.append] in R, R'.
  assert (R1 : output_filename l = Some "received_audio.wav"
               /\ tts_success l = false
               /\ tts_error l = Some ("TTS 오류: " ++ fs_message e)
               /\ files = fs_effects e "received_audio.wav").
  { destruct e; tauto. }
  assert (R2 : output_filename l' = Some "received_audio.wav"
               /\ tts_success l' = false
               /\ tts_error l' = Some ("TTS 오류: " ++ fs_message e)
               /\ files' = fs_effects e "received_audio.wav").
  { destruct e; tauto. }
  clear R R'.
  destruct R1 as (Ho & Hok & He & ->). destruct R2 as (Ho' & Hok' & He' & ->).
  split; [|split; [|split]].
  - rewrite (process_audio_run env w u l' _ Hn Hu E').
    rewrite Ho', Hok', He'. cbn -[String.append].
    rewrite (lookup_id _ _ _ Hu). reflexivity.
  - rewrite (pipeline_step3_run env r w u l _ Hn Hu E).
    rewrite Ho, Hok, He. reflexivity.
  - intros data. destruct e; cbn; intros H;
      repeat (destruct H as [H|H]; try discriminate H); exact H.
  - destruct e as [m|m]; cbn; split.
    + intros H. repeat (destruct H as [H|H]; try discriminate H). destruct H.
    + intros (m' & H). discriminate H.
    + intros _. now exists m.
    + intros _. right. left. reflexivity.
Qed.

Lemma audio_written_then_committed_witness :
  trace (process_audio Sample.env_ok Sample9.w)
  = [HttpPost TTS_URL (PStr "hi there");
     FileWrite "received_audio.wav" Sample.audio;
     DbCommit (append_history (shared Sample9.w) (Some "received_audio.wav")
                 (Sample.empty_user USER_ID))].
Proof.
  rewrite (proj1 (audio_written_then_committed Sample.env_ok Sample9.w
                    (Sample.empty_user USER_ID) _ Result.init
                    eq_refl eq_refl eq_refl eq_refl eq_refl eq_refl)).
  reflexivity.
Defined.

Lemma write_failure_still_persists_witness :
  trace (process_audio Sample9.env_disk_full Sample9.w)
  = [HttpPost TTS_URL (PStr "hi there");
     FileTruncate "received_audio.wav";
     DbCommit (append_history (shared Sample9.w) (Some "received_audio.wav")
                 (Sample.empty_user USER_ID))]
  /\ trace (process_audio Sample9.env_read_only Sample9.w)
     = [HttpPost TTS_URL (PStr "hi there");
        DbCommit (append_history (shared Sample9.w) (Some "received_audio.wav")
                    (Sample.empty_user USER_ID))].
Proof.
  split.
  - rewrite (proj1 (write_failure_still_persists Sample9.env_disk_full Sample9.w
                      (Sample.empty_user USER_ID) _ _ Result.init
                      eq_refl eq_refl eq_refl eq_refl eq_refl eq_refl)).
    reflexivity.
  - rewrite (proj1 (write_failure_still_persists Sample9.env_read_only Sample9.w
                      (Sample.empty_user USER_ID) _ _ Result.init
                      eq_refl eq_refl eq_refl eq_refl eq_refl eq_refl)).
    reflexivity.
Defined.

(** X9.  The file is touched only for audio that arrived: every file
    effect in the trace of [/process-audio] or of the full pipeline is on
    "received_audio.wav" and follows a 2xx answer of the Synthesize service
    with a non-empty body; it is a write of exactly that body when the file
    system works, and a truncation when the write fails after [open].
    There is at most one file effect per run. *)
Theorem file_written_only_for_audio env w ev :
  is_file_write ev = true ->
  In ev (trace (process_audio env w))
  \/ In ev (trace (run_full_pipeline env w)) ->
  (exists resp,
     tts_server env = Answer resp
     /\ is_success (status_code resp) = true
     /\ content resp <> []
     /\ ((file_system env = None
          /\ ev = FileWrite "received_audio.wav" (content resp))
         \/ (exists m, file_system env = Some (WriteFails m)
                       /\ ev = FileTruncate "received_audio.wav")))
  /\ (count is_file_write (trace (process_audio env w)) <= 1)%nat
  /\ (count is_file_write (trace (run_full_pipeline env w)) <= 1)%nat.
Proof.
  intros Hev.
  set (fact := exists resp,
     tts_server env = Answer resp
     /\ is_success (status_code resp) = true
     /\ content resp <> []
     /\ ((file_system env = None
          /\ ev = FileWrite "received_audio.wav" (content resp))
         \/ (exists m, file_system env = Some (WriteFails m)
                       /\ ev = FileTruncate "received_audio.wav"))).
  assert (B : forall l files,
             tts_block_result env l files ->
             (count is_file_write files <= 1)%nat /\ (In ev files -> fact)).
  { intros l files R. unfold tts_block_result in R. unfold fact.
    destruct (tts_server env) as [e|resp].
    - destruct R as (_ & _ & ->). split; [cbn; lia | intros []].
    - destruct (is_success (status_code resp)) eqn:Hs;
        destruct (bytes_truthy (content resp)) eqn:Hb; cbn in R.
      2-4: destruct R as (_ & _ & ->); (split; [cbn; lia | intros []]).
      assert (Hne : content resp <> []).
      { intros E. rewrite E in Hb. discriminate Hb. }
      destruct R as (_ & R). destruct (file_system env) as [[m|m]|].
      + destruct R as (_ & _ & ->). split; [cbn; lia | intros []].
      + destruct R as (_ & _ & ->). split; [cbn; lia|].
        intros [E|[]]. exists resp. repeat split; try assumption.
        right. exists m. split; [reflexivity | now symmetry].
      + destruct R as (_ & _ & ->). split; [cbn; lia|].
        intros [E|[]]. exists resp. repeat split; try assumption.
        left. split; [reflexivity | now symmetry]. }
  assert (P : (count is_file_write (trace (process_audio env w)) <= 1)%nat
              /\ (In ev (trace (process_audio env w)) -> fact)).
  { destruct (is_None (SharedData.ttot_text (shared w))) eqn:Hn.
    { rewrite process_audio_no_text by exact Hn. split; [cbn; lia | intros []]. }
    destruct (lookup USER_ID (db w)) as [u|] eqn:Hl.
    2:{ rewrite process_audio_no_user by assumption.
        split; [cbn; lia | intros []]. }
    destruct (proj2 (tts_blocks_result env (SharedData.ttot_text (shared w))))
      as (l & files & E & R).
    rewrite (process_audio_run env w u l _ Hn Hl E).
    destruct (B l files R) as (Bc & Bi).
    unfold trace, count in *. cbn [snd app filter is_file_write].
    rewrite filter_app, length_app. cbn. split; [lia|].
    intros [H|H]; [subst ev; discriminate Hev|].
    apply in_app_or in H.
    destruct H as [H|[H|[]]]; [now apply Bi | subst ev; discriminate Hev]. }
  assert (Q : (count is_file_write (trace (run_full_pipeline env w)) <= 1)%nat
              /\ (In ev (trace (run_full_pipeline env w)) -> fact)).
  { rewrite run_full_pipeline_unfold.
    destruct (step1_cases env Result.init w) as (c1 & sd1 & E1 & _ & _ & H1).
    rewrite E1. destruct c1 as [r1|r1].
    { split; [cbn; lia|]. intros [H|[]]. subst ev; discriminate Hev. }
    destruct (step2_cases env r1 (mkWorld sd1 (db w)))
      as (c2 & sd2 & E2 & _ & _ & _ & H2).
    rewrite E2. destruct c2 as [r2|r2].
    { split; [cbn; lia|]. intros [H|[H|[]]]; subst ev; discriminate Hev. }
    cbn [db].
    destruct (is_None (SharedData.ttot_text sd2)) eqn:Hn.
    { rewrite step3_no_text by exact Hn. split; [cbn; lia|].
      intros [H|[H|[]]]; subst ev; discriminate Hev. }
    destruct (lookup USER_ID (db w)) as [u|] eqn:Hl.
    2:{ rewrite step3_no_user by assumption. split; [cbn; lia|].
        intros [H|[H|[]]]; subst ev; discriminate Hev. }
    destruct (proj1 (tts_blocks_result env (SharedData.ttot_text sd2)))
      as (l & files & E & R).
    rewrite (pipeline_step3_run env r2 (mkWorld sd2 (db w)) u l _ Hn Hl E).
    destruct (B l files R) as (Bc & Bi).
    unfold trace, count in *. cbn [snd app filter is_file_write].
    rewrite filter_app, length_app. cbn. split; [lia|].
    intros [H|[H|[H|H]]]; try (subst ev; discriminate Hev).
    apply in_app_or in H.
    destruct H as [H|[H|[]]]; [now apply Bi | subst ev; discriminate Hev]. }
  intros [H|H].
  - split; [exact (proj2 P H)|]. split; [apply P | apply Q].
  - split; [exact (proj2 Q H)|]. split; [apply P | apply Q].
Qed.

Lemma file_written_only_for_audio_witness :
  (file_system Sample.env_ok = None
   \/ exists m, file_system Sample.env_ok = Some (WriteFails m))
  /\ (count is_file_write (trace (run_full_pipeline Sample.env_ok Sample.w0))
      <= 1)%nat.
Proof.
  destruct (file_written_only_for_audio Sample.env_ok Sample.w0
              (FileWrite "received_audio.wav" Sample.audio) eq_refl)
    as ((resp & _ & _ & _ & Hf) & _ & Hc).
  - right. vm_compute. tauto.
  - split; [|exact Hc].
    destruct Hf as [(Hf & _)|(m & Hf & _)]; [now left | right; now exists m].
Defined.

(** ** The answer of the full pipeline *)

(** X10.  The full pipeline never raises, and its [success] flag says
    exactly whether the run committed: a successful answer has no error
    entry, names user 10 and carries [final_data]; an unsuccessful one has
    exactly one error entry, no [final_data], no commit in its trace, and
    leaves the table as it was. *)
Theorem success_flag_tells_commit env w :
  exists res,
    outcome (run_full_pipeline env w) = inr res
    /\ (Result.success res = true ->
        count is_commit (trace (run_full_pipeline env w)) = 1%nat
        /\ Result.errors res = []
        /\ Result.user_id res = Some USER_ID
        /\ exists f ok name err,
             Result.final_data res = Some f
             /\ Result.step3_tts res = Some (Result.Tts ok name err)
             /\ Result.output_wav f = name)
    /\ (Result.success res = false ->
        count is_commit (trace (run_full_pipeline env w)) = 0%nat
        /\ (exists msg, Result.errors res = [msg])
        /\ Result.user_id res = None
        /\ Result.final_data res = None
        /\ db (final_state (run_full_pipeline env w)) = db w).
Proof.
  shape_cases env w.
  1-4: eexists; split; [reflexivity|]; cbn; split; [discriminate|];
       intros _; repeat split; eexists; reflexivity.
  eexists. split; [reflexivity|]. cbn. split; [|discriminate].
  intros _.
  match goal with F : tts_facts _ _ _ |- _ => destruct F as (Ff & _) end.
  rewrite !filter_app, (files_no_commit _ Ff). cbn.
  repeat split. eexists _, _, _, _. repeat split.
Qed.



(** ** The application over many requests *)

Lemma no_commit_count t :
  (forall v, ~ In (DbCommit v) t) -> count is_commit t = 0%nat.
Proof.
  unfold count. induction t as [|ev t IH]; [reflexivity|].
  intros H. destruct ev; cbn; try (apply IH; intros v Hv; apply (H v); now right).
  exfalso. apply (H row). now left.
Qed.

Lemma serve_table_step rq env w : table_step w (serve rq env w).
Proof.
  destruct rq; unfold serve.
  - (* GET / *)
    unfold read_root, db_add, effects, final_state, trace, bind, query_first,
      modify, emit, ret.
    destruct (lookup USER_ID (db w)) as [u|] eqn:Hl; cbn.
    + now apply Quiet.
    + now apply Created.
  - now apply Quiet.
  - unfold get_user, effects, final_state, trace, bind, query_first, raise, ret.
    destruct (in_int64 user_id); [destruct (lookup user_id (db w))|];
      now apply Quiet.
  - unfold upload_atot, effects, final_state, trace, bind, query_first, raise,
      ret.
    destruct (in_int64 user_id); [destruct (lookup user_id (db w))|];
      now apply Quiet.
  - unfold get_user_ttot, effects, final_state, trace, bind, query_first,
      raise, ret.
    destruct (in_int64 user_id); [destruct (lookup user_id (db w))|];
      now apply Quiet.
  - destruct (get_atot_table env w) as (Hd & Hc & _).
    apply Quiet; [exact Hd | now apply no_commit_count].
  - destruct (get_ttot_table env w) as (Hd & Hc & _).
    apply Quiet; [exact Hd | now apply no_commit_count].
  - (* POST /process-audio *)
    destruct (is_None (SharedData.ttot_text (shared w))) eqn:Hn.
    { rewrite process_audio_no_text by exact Hn. now apply Quiet. }
    destruct (lookup USER_ID (db w)) as [u|] eqn:Hl.
    2:{ rewrite process_audio_no_user by assumption. now apply Quiet. }
    destruct (process_audio_tts_cases env (SharedData.ttot_text (shared w)))
      as (l & files & E & Ff & _).
    rewrite (process_audio_run env w u l _ Hn Hl E).
    unfold effects, final_state, trace. cbn [fst snd].
    apply (Appended w _ _ (shared w) (output_filename l) u Hl); [reflexivity|].
    unfold count. cbn [filter is_commit app].
    rewrite filter_app, (files_no_commit _ Ff). reflexivity.
  - (* POST /run-full-pipeline *)
    shape_cases env w; unfold effects, final_state, trace; cbn [fst snd].
    1-4: now apply Quiet.
    match goal with F : tts_facts _ _ _ |- _ => destruct F as (Ff & _) end.
    apply (Appended w _ _ sd2 (output_filename l) u); [assumption|reflexivity|].
    unfold count. cbn [filter is_commit app].
    rewrite filter_app, (files_no_commit _ Ff). reflexivity.
Qed.

Lemma append_history_balanced sd o u :
  balanced_row u -> balanced_row (append_history sd o u).
Proof.
  intros (n & Hn). exists (S n). now apply append_history_lengths.
Qed.

Lemma lookup_In uid t u : lookup uid t = Some u -> In u t.
Proof. unfold lookup. intros H. now apply find_some in H. Qed.

Lemma lookup_None_ids uid t : lookup uid t = None -> ~ In uid (map UserDB.id t).
Proof.
  unfold lookup. intros H Hin. apply in_map_iff in Hin.
  destruct Hin as (u & Hid & Hu).
  pose proof (find_none _ _ H u Hu) as Hf. cbn in Hf.
  rewrite Hid, Z.eqb_refl in Hf. discriminate Hf.
Qed.

Lemma table_step_balanced w r :
  table_step w r -> balanced (db w) -> balanced (db (fst r)).
Proof.
  unfold balanced. intros [w' t Hd _|w' t Hl Hd _|w' t sd o u Hl Hd _] Hb;
    cbn [fst]; rewrite Hd.
  - exact Hb.
  - apply Forall_app. split; [exact Hb|].
    constructor; [|constructor]. now exists 0%nat.
  - unfold update. apply Forall_map. rewrite Forall_forall in *.
    intros r' Hr'. destruct (UserDB.id r' =? _).
    + apply append_history_balanced. apply Hb. now apply lookup_In in Hl.
    + now apply Hb.
Qed.

Lemma table_step_ids w r :
  table_step w r -> NoDup (map UserDB.id (db w)) ->
  NoDup (map UserDB.id (db (fst r))).
Proof.
  intros [w' t Hd _|w' t Hl Hd _|w' t sd o u Hl Hd _] Hn;
    cbn [fst]; rewrite Hd.
  - exact Hn.
  - rewrite map_app. cbn.
    apply NoDup_app_remove_l with (l := []). cbn.
    apply (Permutation.Permutation_NoDup
             (l := USER_ID :: map UserDB.id (db w))).
    + apply Permutation.Permutation_cons_append.
    + constructor; [now apply lookup_None_ids | exact Hn].
  - now rewrite update_ids.
Qed.

(** X12.  Served one after another, no sequence of requests breaks the
    shape of the stored histories: if in every row the four sequences
    have one length (NULL read as empty), they still do afterwards. *)
Theorem requests_keep_histories_balanced rqs w :
  balanced (db w) -> balanced (db (fst (serve_all rqs w))).
Proof.
  revert w. induction rqs as [|[rq env] rqs IH]; intros w Hb; [exact Hb|].
  cbn [serve_all].
  pose proof (table_step_balanced w _ (serve_table_step rq env w) Hb) as H1.
  destruct (serve rq env w) as [w1 t1]. cbn [fst] in H1.
  specialize (IH w1 H1).
  destruct (serve_all rqs w1) as [w2 t2]. exact IH.
Qed.

(** X13.  The primary key stays a key: if no two rows share an id, no
    sequence of requests makes two rows share one (the only row ever added
    is that of user 10, and only when it is missing). *)
Theorem requests_keep_ids_unique rqs w :
  NoDup (map UserDB.id (db w)) ->
  NoDup (map UserDB.id (db (fst (serve_all rqs w)))).
Proof.
  revert w. induction rqs as [|[rq env] rqs IH]; intros w Hb; [exact Hb|].
  cbn [serve_all].
  pose proof (table_step_ids w _ (serve_table_step rq env w) Hb) as H1.
  destruct (serve rq env w) as [w1 t1]. cbn [fst] in H1.
  specialize (IH w1 H1).
  destruct (serve_all rqs w1) as [w2 t2]. exact IH.
Qed.

Lemma balanced_sample : balanced (db Sample.w0).
Proof. repeat constructor. now exists 0%nat. Qed.

Lemma requests_keep_histories_balanced_witness :
  balanced
    (db (fst (serve_all [(GET_root, Sample.env_ok);
                         (POST_run_full_pipeline, Sample.env_ok);
                         (POST_process_audio, Sample.env_empty_audio)]
                Sample.w0))).
Proof.
  exact (requests_keep_histories_balanced _ Sample.w0 balanced_sample).
Defined.

Lemma unique_sample : NoDup (map UserDB.id (db Sample5.empty_world)).
Proof. constructor. Qed.

Lemma requests_keep_ids_unique_witness :
  NoDup
    (map UserDB.id
       (db (fst (serve_all [(GET_root, Sample.env_ok); (GET_root, Sample.env_ok);
                            (POST_run_full_pipeline, Sample.env_ok)]
                   Sample5.empty_world)))).
Proof.
  exact (requests_keep_ids_unique _ Sample5.empty_world unique_sample).
Defined.

Lemma extends_refl u : extends u u.
Proof.
  unfold extends. split; [reflexivity|].
  repeat split; exists []; now rewrite app_nil_r.
Qed.

Lemma extends_trans u v x : extends u v -> extends v x -> extends u x.
Proof.
  unfold extends.
  intros (Hi & (a & Ha) & (b & Hb) & (c & Hc) & (d & Hd))
         (Hi' & (a' & Ha') & (b' & Hb') & (c' & Hc') & (d' & Hd')).
  split; [congruence|].
  repeat split.
  - exists (a ++ a')%list. now rewrite Ha', Ha, app_assoc.
  - exists (b ++ b')%list. now rewrite Hb', Hb, app_assoc.
  - exists (c ++ c')%list. now rewrite Hc', Hc, app_assoc.
  - exists (d ++ d')%list. now rewrite Hd', Hd, app_assoc.
Qed.

Lemma append_history_extends sd o u : extends u (append_history sd o u).
Proof.
  destruct (append_history_entry sd o u) as (Hi & Ha & Hb & Hc & Hd).
  unfold extends. split; [exact Hi|].
  rewrite Ha, Hb, Hc, Hd, !or_empty_Some.
  repeat split; eexists; reflexivity.
Qed.

Lemma lookup_app_old uid (t : table) (u v : UserDB.t) :
  lookup uid t = Some u -> lookup uid (t ++ [v])%list = Some u.
Proof.
  unfold lookup. induction t as [|r t IH]; cbn; [discriminate|].
  destruct (UserDB.id r =? uid); [trivial | exact IH].
Qed.

Lemma table_step_extends w r uid u :
  table_step w r -> lookup uid (db w) = Some u ->
  exists u', lookup uid (db (fst r)) = Some u' /\ extends u u'.
Proof.
  intros [w' t Hd _|w' t Hl Hd _|w' t sd o v Hl Hd _] Hu;
    cbn [fst]; rewrite Hd.
  - exists u. split; [exact Hu | apply extends_refl].
  - exists u. split; [now apply lookup_app_old | apply extends_refl].
  - destruct (Z.eq_dec uid USER_ID) as [->|Hne].
    + assert (v = u) as -> by congruence.
      exists (append_history sd o u).
      split; [now apply persisted_lookup | apply append_history_extends].
    + exists u. split; [|apply extends_refl].
      rewrite lookup_update_other; [exact Hu|].
      rewrite append_history_id. apply lookup_id in Hl. congruence.
Qed.

(** X14.  Histories are append-only: whatever requests are served, a
    row that exists is never removed, and each of its four sequences
    afterwards starts with what it held before. *)
Theorem requests_only_append rqs w uid u :
  lookup uid (db w) = Some u ->
  exists u',
    lookup uid (db (fst (serve_all rqs w))) = Some u' /\ extends u u'.
Proof.
  revert w u. induction rqs as [|[rq env] rqs IH]; intros w u Hu.
  - exists u. split; [exact Hu | apply extends_refl].
  - cbn [serve_all].
    destruct (table_step_extends w _ uid u (serve_table_step rq env w) Hu)
      as (u1 & H1 & E1).
    destruct (serve rq env w) as [w1 t1]. cbn [fst] in H1.
    destruct (IH w1 u1 H1) as (u2 & H2 & E2).
    destruct (serve_all rqs w1) as [w2 t2]. cbn [fst] in *.
    exists u2. split; [exact H2 | now apply extends_trans with u1].
Qed.

Lemma requests_only_append_witness :
  exists u',
    lookup USER_ID
      (db (fst (serve_all [(POST_run_full_pipeline, Sample.env_ok);
                           (GET_users, Sample.env_ok)] Sample.w0)))
    = Some u'
    /\ extends (Sample.empty_user USER_ID) u'.
Proof.
  exact (requests_only_append _ Sample.w0 USER_ID _ eq_refl).
Defined.

Lemma table_step_lengths w r a b c d :
  table_step w r ->
  lengths_of USER_ID (db w) = (a, b, c, d) ->
  let k := count is_commit (snd r) in
  lengths_of USER_ID (db (fst r)) = (a + k, b + k, c + k, d + k)%nat.
Proof.
  unfold lengths_of.
  intros [w' t Hd Hc|w' t Hl Hd Hc|w' t sd o u Hl Hd Hc] H;
    cbn [fst snd]; rewrite Hd, Hc; cbv zeta.
  - now rewrite !Nat.add_0_r.
  - rewrite Hl in H. injection H as <- <- <- <-.
    now rewrite (lookup_app_new USER_ID (db w) fresh_user Hl eq_refl).
  - rewrite Hl in H. rewrite (persisted_lookup sd o u _ Hl).
    rewrite (append_history_lengths sd o u a b c d H).
    now rewrite !Nat.add_1_r.
Qed.

(** X15.  The history of the fixed user counts the commits: after any
    sequence of requests each of its four sequences is longer by exactly
    the number of commits in the trace (a missing row counting as empty
    sequences). *)
Theorem history_length_counts_commits rqs w a b c d :
  lengths_of USER_ID (db w) = (a, b, c, d) ->
  let k := count is_commit (snd (serve_all rqs w)) in
  lengths_of USER_ID (db (fst (serve_all rqs w)))
  = (a + k, b + k, c + k, d + k)%nat.
Proof.
  revert w a b c d. induction rqs as [|[rq env] rqs IH]; intros w a b c d H.
  - cbn. now rewrite !Nat.add_0_r.
  - cbn [serve_all].
    pose proof (table_step_lengths w _ a b c d (serve_table_step rq env w) H)
      as H1.
    destruct (serve rq env w) as [w1 t1]. cbn [fst snd] in H1. cbv zeta in H1.
    specialize (IH w1 _ _ _ _ H1). cbv zeta in IH.
    destruct (serve_all rqs w1) as [w2 t2]. cbn [fst snd] in *.
    rewrite IH. unfold count. rewrite filter_app, length_app.
    f_equal; [f_equal; [f_equal|]|]; lia.
Qed.

Lemma history_length_counts_commits_witness :
  lengths_of USER_ID
    (db (fst (serve_all [(GET_root, Sample.env_ok);
                         (POST_run_full_pipeline, Sample.env_ok);
                         (POST_run_full_pipeline, Sample.env_timeout);
                         (POST_run_full_pipeline, Sample.env_empty_audio)]
                Sample5.empty_world)))
  = (2, 2, 2, 2)%nat.
Proof.
  exact (history_length_counts_commits
           [(GET_root, Sample.env_ok);
            (POST_run_full_pipeline, Sample.env_ok);
            (POST_run_full_pipeline, Sample.env_timeout);
            (POST_run_full_pipeline, Sample.env_empty_audio)]
           Sample5.empty_world 0 0 0 0 eq_refl).
Defined.

(** ** Reading a user *)

(** X16.  [GET /] is idempotent.  When the row of user 10 exists it
    answers with the sequences of the row, NULL read as empty, and writes
    nothing; and whatever the table was, a second call answers as the
    first did and changes nothing, since after the first call the row
    exists. *)
Theorem read_root_idempotent w :
  (forall u, lookup USER_ID (db w) = Some u ->
             read_root w = (inr (root_view u), w, []))
  /\ (exists u, lookup USER_ID (db (final_state (read_root w))) = Some u
                /\ outcome (read_root w) = inr (root_view u))
  /\ read_root (final_state (read_root w))
     = (outcome (read_root w), final_state (read_root w), []).
Proof.
  assert (K : forall w' u, lookup USER_ID (db w') = Some u ->
                           read_root w' = (inr (root_view u), w', [])).
  { intros w' u Hu.
    unfold read_root, bind, query_first, ret. rewrite Hu. reflexivity. }
  split; [exact (K w)|].
  destruct (lookup USER_ID (db w)) as [u|] eqn:Hl.
  - rewrite (K w u Hl). unfold final_state, outcome. cbn [fst snd].
    split; [now exists u | exact (K w u Hl)].
  - assert (E : read_root w
                = (inr (root_view fresh_user),
                   mkWorld (shared w) (db w ++ [fresh_user])%list,
                   [DbAdd fresh_user])).
    { unfold read_root, db_add, bind, query_first, modify, emit, ret.
      rewrite Hl. reflexivity. }
    rewrite E. unfold final_state, outcome. cbn [fst snd].
    assert (Hf : lookup USER_ID (db w ++ [fresh_user])%list = Some fresh_user)
      by now apply lookup_app_new.
    split; [now exists fresh_user|].
    now apply K.
Qed.

(** X17.  The three per-user read endpoints.  For an id in the 64-bit
    range of the key column and without a row each raises the 404 "User
    not found" and changes nothing; for an id outside that range the query
    itself raises, and nothing is changed either.  For a stored row they
    return what is stored, a NULL sequence as null (they do not normalise,
    unlike [GET /] and [GET /users]); so after a run of the full pipeline
    that persisted, [GET /users/10/atot] and [GET /users/10/ttot] return
    the earlier sequence followed by the text of this run, the empty string
    standing for a null or empty text. *)
Theorem per_user_reads uid w :
  (in_int64 uid = true -> lookup uid (db w) = None ->
   get_user uid w = (inl (HTTPException 404 "User not found"), w, [])
   /\ upload_atot uid w = (inl (HTTPException 404 "User not found"), w, [])
   /\ get_user_ttot uid w = (inl (HTTPException 404 "User not found"), w, []))
  /\ (in_int64 uid = false ->
      let overflow :=
        PyException "Python int too large to convert to SQLite INTEGER" in
      get_user uid w = (inl overflow, w, [])
      /\ upload_atot uid w = (inl overflow, w, [])
      /\ get_user_ttot uid w = (inl overflow, w, []))
  /\ (in_int64 uid = true -> forall u, lookup uid (db w) = Some u ->
        get_user uid w = (inr u, w, [])
        /\ upload_atot uid w
           = (inr (AtotTextDict uid (UserDB.atot_text_list u)), w, [])
        /\ get_user_ttot uid w
           = (inr (TtotTextDict uid (UserDB.ttot_text_list u)), w, []))
  /\ (forall env res f u,
        outcome (run_full_pipeline env w) = inr res ->
        Result.final_data res = Some f ->
        lookup USER_ID (db w) = Some u ->
        let w' := final_state (run_full_pipeline env w) in
        upload_atot USER_ID w'
        = (inr (AtotTextDict USER_ID
                  (Some (or_empty (UserDB.atot_text_list u)
                           ++ [if truthy (Result.atot_text f)
                               then Result.atot_text f else PStr ""])%list)),
           w', [])
        /\ get_user_ttot USER_ID w'
           = (inr (TtotTextDict USER_ID
                     (Some (or_empty (UserDB.ttot_text_list u)
                              ++ [if truthy (Result.ttot_text f)
                                  then Result.ttot_text f else PStr ""])%list)),
              w', [])).
Proof.
  split; [|split; [|split]].
  - intros Hr Hn.
    unfold get_user, upload_atot, get_user_ttot, bind, query_first, raise.
    rewrite Hr, Hn. repeat split.
  - intros Hr. cbv zeta.
    unfold get_user, upload_atot, get_user_ttot, bind, query_first, raise.
    rewrite Hr. repeat split.
  - intros Hr u Hu. pose proof (lookup_id _ _ _ Hu) as Hid.
    unfold get_user, upload_atot, get_user_ttot, bind, query_first, ret.
    rewrite Hr, Hu, Hid. repeat split.
  - intros env res f u Ho Hf Hu. cbv zeta.
    shape_cases env w; injection Ho as <-; try discriminate Hf.
    cbn in Hf. injection Hf as <-. cbn [Result.atot_text Result.ttot_text].
    assert (u0 = u) as -> by congruence.
    pose proof (persisted_lookup sd2 (output_filename l) u (db w) Hu) as Hp.
    unfold upload_atot, get_user_ttot, bind, query_first, ret.
    change (in_int64 USER_ID) with true. cbv iota.
    cbn [db]. rewrite Hp.
    rewrite append_history_id, (lookup_id _ _ _ Hu). split; reflexivity.
Qed.

Lemma per_user_reads_witness :
  upload_atot USER_ID (final_state (run_full_pipeline Sample.env_ok Sample.w0))
  = (inr (AtotTextDict USER_ID (Some [PStr "hello"])),
     final_state (run_full_pipeline Sample.env_ok Sample.w0), [])
  /\ get_user 11 Sample.w0
     = (inl (HTTPException 404 "User not found"), Sample.w0, [])
  /\ get_user (2 ^ 63) Sample.w0
     = (inl (PyException "Python int too large to convert to SQLite INTEGER"),
        Sample.w0, []).
Proof.
  split; [|split].
  - refine (proj1 (proj2 (proj2 (proj2 (per_user_reads USER_ID Sample.w0)))
                     Sample.env_ok _ (Result.mkFinal _ (PStr "hello") _ _)
                     (Sample.empty_user USER_ID) _ _ _)).
    + vm_compute. reflexivity.
    + reflexivity.
    + reflexivity.
  - exact (proj1 (proj1 (per_user_reads 11 Sample.w0) eq_refl eq_refl)).
  - exact (proj1 (proj1 (proj2 (per_user_reads (2 ^ 63) Sample.w0)) eq_refl)).
Defined.

(** ** The two call orders *)

Lemma get_atot_as_step1 env r sd sd' tb a b c :
  same_texts sd sd' ->
  outcome (get_atot env (mkWorld sd tb)) = inr (AtotDict a b c) ->
  printable c = true ->
  exists r1 sd1 sd1',
    get_atot env (mkWorld sd tb)
    = (inr (AtotDict a b c), mkWorld sd1 tb, [HttpGet ATOT_URL])
    /\ pipeline_step1 env r (mkWorld sd' tb)
       = (inr (Continue r1), mkWorld sd1' tb, [HttpGet ATOT_URL])
    /\ same_texts sd1 sd1'.
Proof.
  destruct sd as [u1 i1 a1 t1], sd' as [u2 i2 a2 t2].
  unfold same_texts, outcome. cbn [SharedData.input_wav SharedData.atot_text
    SharedData.ttot_text]. intros (-> & -> & ->).
  destruct env as [ra rt rs fs].
  run_unfold. cbn -[String.append ATOT_URL].
  repeat (run_case; cbn -[String.append ATOT_URL] in * ).
  all: intros E; try discriminate E; injection E as <- <- <-; intros P.
  all: try (cbn in *; congruence).
  all: eexists _, _, _; split; [reflexivity|]; split; [reflexivity|];
       cbn; repeat split.
Qed.

Lemma get_ttot_as_step2 env r sd sd' tb uid t :
  same_texts sd sd' ->
  outcome (get_ttot env (mkWorld sd tb)) = inr (TtotDict uid t) ->
  printable t = true ->
  exists r2 sd2 sd2',
    get_ttot env (mkWorld sd tb)
    = (inr (TtotDict uid t), mkWorld sd2 tb, [HttpGet TTOT_URL])
    /\ pipeline_step2 env r (mkWorld sd' tb)
       = (inr (Continue r2), mkWorld sd2' tb, [HttpGet TTOT_URL])
    /\ same_texts sd2 sd2'.
Proof.
  destruct sd as [u1 i1 a1 t1], sd' as [u2 i2 a2 t2].
  unfold same_texts, outcome. cbn [SharedData.input_wav SharedData.atot_text
    SharedData.ttot_text]. intros (-> & -> & ->).
  destruct env as [ra rt rs fs].
  run_unfold. cbn -[String.append TTOT_URL].
  repeat (run_case; cbn -[String.append TTOT_URL] in * ).
  all: intros E; try discriminate E; injection E as <- <-; intros P.
  all: try (cbn in *; congruence).
  all: eexists _, _, _; split; [reflexivity|]; split; [reflexivity|];
       cbn; repeat split.
Qed.

Lemma tts_block_result_unique env l files l' files' :
  tts_block_result env l files -> tts_block_result env l' files' ->
  output_filename l = output_filename l' /\ files = files'
  /\ tts_success l = tts_success l'.
Proof.
  unfold tts_block_result.
  destruct (tts_server env) as [e|resp].
  - intros (-> & -> & ->) (-> & -> & ->). repeat split.
  - destruct (is_success (status_code resp) && bytes_truthy (content resp)).
    + intros (-> & R) (-> & R'). destruct (file_system env) as [[m|m]|].
      * destruct R as (-> & _ & ->), R' as (-> & _ & ->). repeat split.
      * destruct R as (-> & _ & ->), R' as (-> & _ & ->). repeat split.
      * destruct R as (-> & _ & ->), R' as (-> & _ & ->). repeat split.
    + intros (-> & -> & ->) (-> & -> & ->). repeat split.
Qed.

Lemma append_history_same_texts sd sd' o u :
  same_texts sd sd' -> append_history sd o u = append_history sd' o u.
Proof.
  intros (Hi & Ha & Ht). unfold append_history. now rewrite Hi, Ha, Ht.
Qed.

Lemma process_audio_as_step3 env w w' :
  same_texts (shared w) (shared w') -> db w = db w' ->
  db (fst (process_audio_effects env w)) = db (fst (step3_effects env w'))
  /\ snd (process_audio_effects env w) = snd (step3_effects env w')
  /\ same_texts (shared (fst (process_audio_effects env w)))
       (shared (fst (step3_effects env w'))).
Proof.
  intros Hs Hd. pose proof Hs as (_ & _ & Ht).
  unfold process_audio_effects, step3_effects. rewrite <- Ht, <- Hd.
  destruct (is_None (SharedData.ttot_text (shared w)));
    [cbn [fst snd]; repeat split; try assumption; apply Hs|].
  destruct (lookup USER_ID (db w)) as [u|];
    [|cbn [fst snd]; repeat split; try assumption; apply Hs].
  destruct (tts_blocks_result env (SharedData.ttot_text (shared w)))
    as ((l & files & E & R) & (l' & files' & E' & R')).
  rewrite E, E'.
  destruct (tts_block_result_unique env l files l' files' R R')
    as (Ho & -> & _).
  cbn [fst snd db shared].
  rewrite Ho, (append_history_same_texts _ _ _ _ Hs). repeat split; apply Hs.
Qed.

(** X18.  The two call orders of the closing comment agree.  When
    [GET /atot] and then [GET /ttot] answer without an error, and the two
    texts they return can be printed (the pipeline prints them, the stage
    endpoints do not), following them with [POST /process-audio] leaves the
    same table and has made the same calls, file effects and commit as one
    [POST /run-full-pipeline] on the same answers; the contexts agree on
    the audio reference and the two texts (the piecewise order has stored
    the reported user id as well). *)
Theorem piecewise_equals_pipeline env w a b c uid t :
  outcome (get_atot env w) = inr (AtotDict a b c) ->
  outcome (get_ttot env (final_state (get_atot env w))) = inr (TtotDict uid t) ->
  printable c = true ->
  printable t = true ->
  db (fst (serve_all (piecewise env) w))
  = db (final_state (run_full_pipeline env w))
  /\ snd (serve_all (piecewise env) w) = trace (run_full_pipeline env w)
  /\ same_texts (shared (fst (serve_all (piecewise env) w)))
       (shared (final_state (run_full_pipeline env w))).
Proof.
  destruct w as [sd tb]. intros Ha Ht Pc Pt.
  assert (S0 : same_texts sd sd) by (repeat split).
  destruct (get_atot_as_step1 env Result.init sd sd tb a b c S0 Ha Pc)
    as (r1 & sd1 & sd1' & Ea & E1 & S1).
  rewrite Ea in Ht. unfold final_state in Ht. cbn [fst snd] in Ht.
  destruct (get_ttot_as_step2 env r1 sd1 sd1' tb uid t S1 Ht Pt)
    as (r2 & sd2 & sd2' & Et & E2 & S2).
  pose proof (process_audio_as_step3 env (mkWorld sd2 tb) (mkWorld sd2' tb)
                S2 eq_refl) as (Hd & Hs & Hq).
  rewrite <- process_audio_effects_eq in Hd, Hs, Hq.
  rewrite <- (pipeline_step3_effects env r2) in Hd, Hs, Hq.
  rewrite run_full_pipeline_unfold, E1, E2.
  unfold piecewise. cbn [serve_all serve].
  unfold effects, final_state, trace in *.
  rewrite Ea. cbn [fst snd]. rewrite Et. cbn [fst snd].
  destruct (process_audio env (mkWorld sd2 tb)) as [[o3 w3] t3].
  destruct (pipeline_step3 env r2 (mkWorld sd2' tb)) as [[o3' w3'] t3'].
  cbn [fst snd] in *. rewrite app_nil_r. subst t3'.
  repeat split; [exact Hd | apply Hq | apply Hq | apply Hq].
Qed.

Lemma piecewise_equals_pipeline_witness :
  db (fst (serve_all (piecewise Sample.env_ok) Sample.w0))
  = db (final_state (run_full_pipeline Sample.env_ok Sample.w0)).
Proof.
  refine (proj1 (piecewise_equals_pipeline Sample.env_ok Sample.w0
                   _ _ _ _ _ _ _ _ _)).
  - vm_compute. reflexivity.
  - vm_compute. reflexivity.
  - reflexivity.
  - reflexivity.
Defined.

(** X19.  The full pipeline on well-formed answers, end to end.  When
    Recognize answers 2xx with an object under [result.details], Generate
    answers 2xx with a ["response"] that is not null, both texts can be
    printed, Synthesize answers 2xx with a non-empty body, the file can be
    written and the row of user 10 exists, the run makes the three calls
    in order, writes the audio,
    commits once, and returns the fields of the answers in its steps and in
    [final_data]; the entry appended holds them, with the audio reference
    null and the texts empty where the answer held a null or empty
    value. *)
Theorem full_pipeline_end_to_end env w u ca ma kvs rk dk ct mt kvt resp :
  atot_server env = Answer (mkResponse ca ma (Json (PDict kvs))) ->
  is_success ca = true ->
  assoc "result" kvs = Some (PDict rk) ->
  assoc "details" rk = Some (PDict dk) ->
  ttot_server env = Answer (mkResponse ct mt (Json (PDict kvt))) ->
  is_success ct = true ->
  is_None (field "response" kvt) = false ->
  printable (field "received_text" dk) = true ->
  printable (field "response" kvt) = true ->
  lookup USER_ID (db w) = Some u ->
  tts_server env = Answer resp ->
  is_success (status_code resp) = true ->
  bytes_truthy (content resp) = true ->
  file_system env = None ->
  let audio_url := field "audio_url" dk in
  let received_text := field "received_text" dk in
  let response := field "response" kvt in
  let sd' := SharedData.mk (SharedData.user_id (shared w)) audio_url
               received_text response in
  let u' := append_history sd' (Some "received_audio.wav") u in
  run_full_pipeline env w
  = (inr (Result.mk
            (Some (Result.Atot (field "user_id" kvs) audio_url received_text))
            (Some (Result.Ttot (field "user_id" kvt) response))
            (Some (Result.Tts true (Some "received_audio.wav") None))
            true [] (Some USER_ID)
            (Some (Result.mkFinal audio_url received_text response
                     (Some "received_audio.wav")))),
     mkWorld sd' (update u' (db w)),
     [HttpGet ATOT_URL; HttpGet TTOT_URL; HttpPost TTS_URL response;
      FileWrite "received_audio.wav" (content resp); DbCommit u'])
  /\ gained_entry u u'
       (if truthy audio_url then audio_url else PNone)
       (if truthy received_text then received_text else PStr "")
       (if truthy response then response else PStr "")
       (PStr "received_audio.wav").
Proof.
  intros Ha Hsa Hr Hd Ht Hst Hn Pa Pt Hu Hs Hss Hb Hf. cbv zeta.
  split; [|exact (append_history_entry _ (Some "received_audio.wav") u)].
  destruct w as [sd tb]. cbn [shared db] in *.
  assert (E1 : pipeline_step1 env Result.init (mkWorld sd tb)
               = (inr (Continue
                         (Result.set_step1
                            (Result.Atot (field "user_id" kvs)
                               (field "audio_url" dk) (field "received_text" dk))
                            Result.init)),
                  mkWorld (SharedData.mk (SharedData.user_id sd)
                             (field "audio_url" dk) (field "received_text" dk)
                             (SharedData.ttot_text sd)) tb,
                  [HttpGet ATOT_URL])).
  { run_unfold. rewrite Ha. cbn -[String.append ATOT_URL]. rewrite Hsa.
    cbn -[String.append ATOT_URL]. rewrite Hr.
    cbn -[String.append ATOT_URL]. rewrite Hd.
    unfold field in Pa |- *. cbn -[String.append ATOT_URL].
    rewrite Pa. reflexivity. }
  assert (E2 : forall r sd0,
             pipeline_step2 env r (mkWorld sd0 tb)
             = (inr (Continue
                       (Result.set_step2
                          (Result.Ttot (field "user_id" kvt) (field "response" kvt))
                          r)),
                mkWorld (SharedData.set_ttot_text (field "response" kvt) sd0) tb,
                [HttpGet TTOT_URL])).
  { intros r sd0. run_unfold. rewrite Ht. cbn -[String.append TTOT_URL].
    rewrite Hst. unfold field in Pt |- *. cbn -[String.append TTOT_URL].
    rewrite Pt. reflexivity. }
  destruct (proj1 (tts_blocks_result env (field "response" kvt)))
    as (l & files & E & R).
  unfold tts_block_result in R. rewrite Hs, Hss, Hb, Hf in R. cbn in R.
  destruct R as (Ho & Hok & He & ->).
  rewrite run_full_pipeline_unfold, E1, E2.
  rewrite (pipeline_step3_run env _
             (mkWorld (SharedData.set_ttot_text (field "response" kvt)
                         (SharedData.mk (SharedData.user_id sd)
                            (field "audio_url" dk) (field "received_text" dk)
                            (SharedData.ttot_text sd))) tb)
             u l _ Hn Hu E).
  cbn [shared db]. rewrite Ho, Hok, He. reflexivity.
Qed.

Lemma full_pipeline_end_to_end_witness :
  trace (run_full_pipeline Sample.env_ok Sample.w0)
  = [HttpGet ATOT_URL; HttpGet TTOT_URL; HttpPost TTS_URL (PStr "hi there");
     FileWrite "received_audio.wav" Sample.audio;
     DbCommit (append_history
                 (SharedData.mk PNone (PStr "a.wav") (PStr "hello")
                    (PStr "hi there"))
                 (Some "received_audio.wav") (Sample.empty_user USER_ID))].
Proof.
  rewrite (proj1 (full_pipeline_end_to_end Sample.env_ok Sample.w0
                    (Sample.empty_user USER_ID) 200 "OK" _ _ _ 200 "OK" _ _
                    eq_refl eq_refl eq_refl eq_refl eq_refl eq_refl eq_refl
                    eq_refl eq_refl eq_refl eq_refl eq_refl eq_refl eq_refl)).
  reflexivity.
Defined.

Lemma table_step_new_ids w r uid :
  table_step w r -> In uid (map UserDB.id (db (fst r))) ->
  In uid (map UserDB.id (db w)) \/ uid = USER_ID.
Proof.
  intros [w' t Hd _|w' t Hl Hd _|w' t sd o u Hl Hd _];
    cbn [fst]; rewrite Hd.
  - now left.
  - rewrite map_app. intros H. apply in_app_or in H.
    destruct H as [H|[H|[]]]; [now left | right; now rewrite <- H].
  - rewrite update_ids. now left.
Qed.

(** X20.  No request creates a row for a user other than 10: after any
    sequence of requests every id in the table was there before or is the
    fixed id, and every id that was there is still there. *)
Theorem requests_create_only_fixed_user rqs w uid :
  (In uid (map UserDB.id (db (fst (serve_all rqs w)))) ->
   In uid (map UserDB.id (db w)) \/ uid = USER_ID)
  /\ (In uid (map UserDB.id (db w)) ->
      In uid (map UserDB.id (db (fst (serve_all rqs w))))).
Proof.
  revert w. induction rqs as [|[rq env] rqs IH]; intros w; [cbn; tauto|].
  cbn [serve_all].
  pose proof (serve_table_step rq env w) as Hstep.
  pose proof (table_step_new_ids w _ uid Hstep) as H1.
  assert (H2 : In uid (map UserDB.id (db w)) ->
               In uid (map UserDB.id (db (fst (serve rq env w))))).
  { destruct Hstep as [w' t Hd _|w' t Hl Hd _|w' t sd o u Hl Hd _];
      cbn [fst]; rewrite Hd; intros H.
    - exact H.
    - rewrite map_app. apply in_or_app. now left.
    - now rewrite update_ids. }
  destruct (serve rq env w) as [w1 t1]. cbn [fst] in *.
  destruct (IH w1) as (I1 & I2).
  destruct (serve_all rqs w1) as [w2 t2]. cbn [fst] in *.
  split.
  - intros H. destruct (I1 H) as [H'|H']; [now apply H1 | now right].
  - intros H. apply I2, H2, H.
Qed.
